(** * The paginated, price-filtered item collector of the eBay end-to-end suite

    A shallow embedding of [src/utils/PriceParser.ts], of the paging part of
    [src/pages/SearchPage.ts] and of the [config] object of
    [src/config/env.config.ts].

    - JavaScript numbers are IEEE 754 binary64 values, taken from the
      Standard Library's [spec_float] with [prec = 53] and [emax = 1024].
    - The browser is an external collaborator: a record of Playwright
      operations over an arbitrary world type.  Every operation may throw.
    - The page object's methods run in a small monad that threads the world,
      records the calls made to the page source, and propagates exceptions.
    - [limit], [currentPage] and [config.pagination.maxPages] are integral
      numbers and are kept in [Z]; [config] is an argument of the methods, so
      that a property holds for every value of [maxPages], 10 included. *)

From Stdlib Require Import ZArith List String Ascii Bool Lia.
From Stdlib Require Import Floats.SpecFloat.
Import ListNotations.

Local Open Scope Z_scope.

(* ================================================================= *)
(** ** JavaScript numbers *)

Module JsNumber.

Definition prec : Z := 53.
Definition emax : Z := 1024.

Definition number : Type := spec_float.

(** The literal [0]. *)
Definition zero : number := S754_zero false.

Definition nan : number := S754_nan.

(** The global [isNaN] on a value that already is a number. *)
Definition isNaN (x : number) : bool :=
  match x with
  | S754_nan => true
  | _ => false
  end.

(** [x < y], [x <= y] and [x > y]; each is [false] when an operand is NaN. *)
Definition lt (x y : number) : bool := SFltb x y.
Definition le (x y : number) : bool := SFleb x y.
Definition gt (x y : number) : bool := SFltb y x.

(** The Number value of an integer. *)
Definition of_Z (z : Z) : number := binary_normalize prec emax z 0 false.

(** The Number value of the decimal [m / 10^k] for [m >= 0]: the binary64
    value nearest to it, ties to even; [+0] for [m = 0].  The quotient is
    rounded once, by the division of the two exact integers. *)
Definition of_decimal (m : Z) (k : nat) : number :=
  match m with
  | Zpos p =>
      SFdiv prec emax (S754_finite false p 0)
                      (S754_finite false (Z.to_pos (10 ^ Z.of_nat k)) 0)
  | _ => zero
  end.

(** Neither NaN nor negatively signed. *)
Definition signed_nonneg (x : number) : bool :=
  match x with
  | S754_nan => false
  | S754_zero _ => true
  | S754_infinity s | S754_finite s _ _ => negb s
  end.

End JsNumber.

(* ================================================================= *)
(** ** src/utils/PriceParser.ts *)

Module PriceParser.
Import JsNumber.

Local Open Scope char_scope.

(** The class [0-9] of the regular expression. *)
Definition is_digit (c : ascii) : bool :=
  ((48 <=? nat_of_ascii c) && (nat_of_ascii c <=? 57))%nat.

(** The characters that the class [[^0-9.]] does not match. *)
Definition is_numeric_char (c : ascii) : bool :=
  is_digit c || Ascii.eqb c ".".

(** [priceText.replace(/[^0-9.]/g, '')]. *)
Fixpoint replace_non_numeric (s : string) : string :=
  match s with
  | EmptyString => EmptyString
  | String c rest =>
      if is_numeric_char c
      then String c (replace_non_numeric rest)
      else replace_non_numeric rest
  end.

Definition digit_value (c : ascii) : Z := Z.of_nat (nat_of_ascii c) - 48.

(** The value of a run of decimal digits, most significant first. *)
Fixpoint digits_value (acc : Z) (ds : string) : Z :=
  match ds with
  | EmptyString => acc
  | String c rest => digits_value (10 * acc + digit_value c) rest
  end.

(** The longest run of decimal digits at the head of [s], and what is left. *)
Fixpoint take_digits (s : string) : string * string :=
  match s with
  | EmptyString => (EmptyString, EmptyString)
  | String c rest =>
      if is_digit c
      then let (ds, tl) := take_digits rest in (String c ds, tl)
      else (EmptyString, s)
  end.

(** The builtin [parseFloat] on a string over the alphabet [0-9.], the only
    strings [parse] passes to it: the longest prefix that is a decimal
    literal ([digits], [digits.], [digits.digits] or [.digits]) is
    converted, and NaN is returned when there is no such prefix. *)
Definition parseFloat (s : string) : number :=
  let (ip, rest) := take_digits s in
  match rest with
  | String "." rest' =>
      let (fp, _) := take_digits rest' in
      match ip, fp with
      | EmptyString, EmptyString => nan
      | _, _ => of_decimal (digits_value 0 (ip ++ fp)) (String.length fp)
      end
  | _ =>
      match ip with
      | EmptyString => nan
      | _ => of_decimal (digits_value 0 ip) 0
      end
  end.

(** [static parse(priceText: string): number] *)
Definition parse (priceText : string) : number :=
  match priceText with
  | EmptyString => zero
  | _ =>
      let cleanPrice := replace_non_numeric priceText in
      let price := parseFloat cleanPrice in
      if isNaN price then zero else price
  end.

(** [static isValid(priceText: string): boolean] *)
Definition isValid (priceText : string) : bool := gt (parse priceText) zero.

(** Whether a string contains a decimal digit. *)
Fixpoint has_digit (s : string) : bool :=
  match s with
  | EmptyString => false
  | String c rest => is_digit c || has_digit rest
  end.

(** Whether a string is a (possibly empty) run of dots. *)
Fixpoint only_dots (s : string) : bool :=
  match s with
  | EmptyString => true
  | String c rest => Ascii.eqb c "." && only_dots rest
  end.

End PriceParser.

(* ================================================================= *)
(** ** src/config/env.config.ts *)

Module Config.

Record pagination_t : Type := { maxPages : Z }.

(** The fields of [config] that the collector reads. *)
Record t : Type := { pagination : pagination_t }.

End Config.

(** [export const config = { ..., pagination: { maxPages: 10 }, ... }] *)
Definition config : Config.t :=
  {| Config.pagination := {| Config.maxPages := 10 |} |}.

(* ================================================================= *)
(** ** The browser: Playwright seen from the page object *)

Module Playwright.
Import JsNumber.

(** What a rejected Playwright promise carries. *)
Inductive Error : Type :=
| TimeoutError
| TargetClosedError
| OtherError (message : string).

(** The settlement of one awaited browser operation. *)
Inductive Attempt (A : Type) : Type :=
| Got (a : A)
| Threw (e : Error).
Arguments Got {A} a.
Arguments Threw {A} e.

(** One element matched by [itemCardXPath], with what its two inner
    locators answer: [textContent()] of the price element and
    [getAttribute('href')] of the link element ([None] is [null]). *)
Record Card : Type := {
  price_textContent : Attempt (option string);
  link_href : Attempt (option string)
}.

(** The operations [SearchPage] awaits, over a world [W] that each of them
    may change. *)
Record Browser (W : Type) : Type := {
  page_waitForTimeout : Z -> W -> Attempt unit * W;
  page_waitForLoadState : W -> Attempt unit * W;
  page_waitForSelector : string -> W -> Attempt unit * W;
  itemCards_all : W -> Attempt (list Card) * W;
  nextPage_isVisible : W -> Attempt bool * W;
  nextPage_getAttribute : string -> W -> Attempt (option string) * W;
  nextPageButton_click : W -> Attempt unit * W;
  searchBox_fill : string -> W -> Attempt unit * W;
  searchButton_click : W -> Attempt unit * W;
  maxPriceInput_fill : number -> W -> Attempt unit * W;
  priceSubmitButton_click : W -> Attempt unit * W
}.
Arguments page_waitForTimeout {W} _ _ _.
Arguments page_waitForLoadState {W} _ _.
Arguments page_waitForSelector {W} _ _ _.
Arguments itemCards_all {W} _ _.
Arguments nextPage_isVisible {W} _ _.
Arguments nextPage_getAttribute {W} _ _ _.
Arguments nextPageButton_click {W} _ _.
Arguments searchBox_fill {W} _ _ _.
Arguments searchButton_click {W} _ _.
Arguments maxPriceInput_fill {W} _ _ _.
Arguments priceSubmitButton_click {W} _ _.

End Playwright.

(* ================================================================= *)
(** ** Asynchronous methods: world, call record and exceptions *)

Module Async.
Import Playwright.

(** The calls the collector makes to its page source, as they happen. *)
Inductive Event : Type :=
| Fetch (found : Attempt (list Card))
    (** [extractItemsFromCurrentPage] ran; what locating the cards gave *)
| HasNext (answer : bool)
    (** [hasNextPage] ran and answered *)
| GoNext (navigated : bool)
    (** [goToNextPage] ran; whether the click and the load went through *).

(** How an awaited method ends.  [OutOfFuel] belongs to the embedding of
    the [while] loop only. *)
Inductive Completion (A : Type) : Type :=
| Returned (a : A)
| Thrown (e : Error)
| OutOfFuel.
Arguments Returned {A} a.
Arguments Thrown {A} e.
Arguments OutOfFuel {A}.

Definition M (W A : Type) : Type := W -> Completion A * W * list Event.

Section Ops.
Context {W : Type}.

Definition ret {A} (a : A) : M W A := fun w => (Returned a, w, []).

Definition bind {A B} (m : M W A) (f : A -> M W B) : M W B :=
  fun w =>
    let '(c, w1, t1) := m w in
    match c with
    | Returned a => let '(c2, w2, t2) := f a w1 in (c2, w2, t1 ++ t2)
    | Thrown e => (Thrown e, w1, t1)
    | OutOfFuel => (OutOfFuel, w1, t1)
    end.

(** [await op(...)] on the browser. *)
Definition await {A} (op : W -> Attempt A * W) : M W A :=
  fun w =>
    let (r, w1) := op w in
    match r with
    | Got a => (Returned a, w1, [])
    | Threw e => (Thrown e, w1, [])
    end.

(** [try { m } catch (e) { h e }] *)
Definition try_catch {A} (m : M W A) (h : Error -> M W A) : M W A :=
  fun w =>
    let '(c, w1, t1) := m w in
    match c with
    | Thrown e => let '(c2, w2, t2) := h e w1 in (c2, w2, t1 ++ t2)
    | _ => (c, w1, t1)
    end.

(** Run [m] and hand back its settlement as a value. *)
Definition settle {A} (m : M W A) : M W (Attempt A) :=
  fun w =>
    let '(c, w1, t1) := m w in
    match c with
    | Returned a => (Returned (Got a), w1, t1)
    | Thrown e => (Returned (Threw e), w1, t1)
    | OutOfFuel => (OutOfFuel, w1, t1)
    end.

(** Continue with a settlement: its value, or its exception rethrown. *)
Definition resume {A} (r : Attempt A) : M W A :=
  fun w =>
    match r with
    | Got a => (Returned a, w, [])
    | Threw e => (Thrown e, w, [])
    end.

Definition emit (ev : Event) : M W unit := fun w => (Returned tt, w, [ev]).

Definition out_of_fuel {A} : M W A := fun w => (OutOfFuel, w, []).

End Ops.

Declare Scope async_scope.
Delimit Scope async_scope with async.
Notation "x <- c1 ;; c2" := (bind c1 (fun x => c2))
  (at level 61, c1 at next level, right associativity) : async_scope.
Notation "c1 ;; c2" := (bind c1 (fun _ => c2))
  (at level 61, right associativity) : async_scope.

End Async.

(* ================================================================= *)
(** ** src/pages/BasePage.ts and src/pages/SearchPage.ts *)

Module SearchPage.
Import JsNumber Playwright Async.
Local Open Scope string_scope.
Local Open Scope Z_scope.
Local Open Scope async_scope.

(** [Array.prototype.length] as a number. *)
Definition length {A} (l : list A) : Z := Z.of_nat (List.length l).

(** [l.slice(0, end)] for an integral [end]: a negative [end] counts from
    the back of the array. *)
Definition slice0 {A} (l : list A) (end_ : Z) : list A :=
  let len := length l in
  let final := if end_ <? 0 then Z.max (len + end_) 0 else Z.min end_ len in
  firstn (Z.to_nat final) l.

(** JavaScript truthiness of a [string | null]. *)
Definition truthy (s : option string) : bool :=
  match s with
  | None => false
  | Some EmptyString => false
  | Some _ => true
  end.

(** *** Extraction of one page (the body of [extractItemsFromCurrentPage]) *)

(** One turn of the loop over the cards: [Some url] when [url] is pushed,
    [None] for [continue], for a failed test and for the [catch] branch. *)
Definition item_url (maxPrice : number) (item : Card) : option string :=
  match price_textContent item with
  | Threw _ => None
  | Got priceText =>
      if negb (truthy priceText) then None
      else
        let price :=
          PriceParser.parse (match priceText with Some t => t | None => "" end) in
        if gt price zero && le price maxPrice then
          match link_href item with
          | Threw _ => None
          | Got url =>
              if truthy url
              then match url with Some u => Some u | None => None end
              else None
          end
        else None
  end.

(** [for (const item of itemElements) { ... items.push(url) ... }] *)
Fixpoint extract_loop (maxPrice : number) (items : list string)
         (itemElements : list Card) : list string :=
  match itemElements with
  | [] => items
  | item :: rest =>
      match item_url maxPrice item with
      | Some url => extract_loop maxPrice (items ++ [url]) rest
      | None => extract_loop maxPrice items rest
      end
  end.

(** [for (const item of pageItems) { if (collectedUrls.length >= limit)
    break; collectedUrls.push(item); }] *)
Fixpoint push_items (limit : Z) (collectedUrls pageItems : list string)
  : list string :=
  match pageItems with
  | [] => collectedUrls
  | item :: rest =>
      if length collectedUrls >=? limit then collectedUrls
      else push_items limit (collectedUrls ++ [item]) rest
  end.

Section Methods.
Context {W : Type}.
Variable browser : Browser W.
Variable config : Config.t.

(** [BasePage.waitForPageLoad] *)
Definition waitForPageLoad : M W unit :=
  await (page_waitForLoadState browser).

(** [BasePage.isElementVisible]: [true] unless waiting for the selector
    throws. *)
Definition isElementVisible (selector : string) : M W bool :=
  try_catch (await (page_waitForSelector browser selector) ;; ret true)
            (fun _ => ret false).

(** The two selectors of the visibility checks (their inner quotation
    marks are left out). *)
Definition maxPriceInputSelector : string := "input[name*=MaxPrice]".
Definition priceSubmitSelector : string := "button:has-text(Submit)".

(** [searchByKeyword] *)
Definition searchByKeyword (query : string) : M W unit :=
  await (searchBox_fill browser query) ;;
  await (searchButton_click browser) ;;
  waitForPageLoad.

(** [applyPriceFilter]: everything happens inside one [try]. *)
Definition applyPriceFilter (maxPrice : number) : M W unit :=
  try_catch
    (isPriceFilterVisible <- isElementVisible maxPriceInputSelector ;;
     if isPriceFilterVisible then
       await (maxPriceInput_fill browser maxPrice) ;;
       isSubmitVisible <- isElementVisible priceSubmitSelector ;;
       if isSubmitVisible then
         await (priceSubmitButton_click browser) ;;
         waitForPageLoad
       else ret tt
     else ret tt)
    (fun _ => ret tt).

(** [extractItemsFromCurrentPage]: the wait and the location of the cards
    are outside any [try]; the loop over the cards catches per card. *)
Definition extractItemsFromCurrentPage (maxPrice : number)
  : M W (list string) :=
  found <- settle (await (page_waitForTimeout browser 2000) ;;
                   await (itemCards_all browser)) ;;
  emit (Fetch found) ;;
  itemElements <- resume found ;;
  ret (extract_loop maxPrice [] itemElements).

(** [hasNextPage] *)
Definition hasNextPage : M W bool :=
  answer <-
    try_catch
      (isVisible <- await (nextPage_isVisible browser) ;;
       isDisabled <- await (nextPage_getAttribute browser "aria-disabled") ;;
       ret (isVisible &&
            negb (match isDisabled with
                  | Some v => String.eqb v "true"
                  | None => false
                  end)))
      (fun _ => ret false) ;;
  emit (HasNext answer) ;;
  ret answer.

(** [goToNextPage]: an exception of the click or of the load is logged
    and swallowed; the method returns normally either way. *)
Definition goToNextPage : M W unit :=
  navigated <-
    try_catch
      (await (nextPageButton_click browser) ;;
       waitForPageLoad ;;
       ret true)
      (fun _ => ret false) ;;
  emit (GoNext navigated) ;;
  ret tt.

(** The [while] loop of [collectItemsWithPaging], from the state
    [(collectedUrls, currentPage)].  Each turn of the loop takes one unit
    of [fuel]. *)
Fixpoint paging_loop (fuel : nat) (maxPrice : number) (limit : Z)
         (collectedUrls : list string) (currentPage : Z)
  : M W (list string) :=
  if (length collectedUrls <? limit)
     && (currentPage <=? Config.maxPages (Config.pagination config))
  then
    match fuel with
    | O => out_of_fuel
    | S fuel' =>
        pageItems <- extractItemsFromCurrentPage maxPrice ;;
        let collectedUrls := push_items limit collectedUrls pageItems in
        if length collectedUrls >=? limit then ret collectedUrls
        else
          hasNext <- hasNextPage ;;
          if negb hasNext then ret collectedUrls
          else
            goToNextPage ;;
            paging_loop fuel' maxPrice limit collectedUrls (currentPage + 1)
    end
  else ret collectedUrls.

(** [collectItemsWithPaging]: [currentPage] starts at 1 and grows by one
    per turn, so [maxPages] turns are all the loop can take. *)
Definition collectItemsWithPaging (maxPrice : number) (limit : Z)
  : M W (list string) :=
  collectedUrls <-
    paging_loop (Z.to_nat (Config.maxPages (Config.pagination config)))
                maxPrice limit [] 1 ;;
  ret (slice0 collectedUrls limit).

(** [searchItemsByNameUnderPrice(query, maxPrice, limit = 5)] *)
Definition searchItemsByNameUnderPrice (query : string) (maxPrice : number)
           (limit : option Z) : M W (list string) :=
  let limit := match limit with Some l => l | None => 5 end in
  searchByKeyword query ;;
  applyPriceFilter maxPrice ;;
  collectItemsWithPaging maxPrice limit.

End Methods.

End SearchPage.

(* ================================================================= *)
(** ** Reading a call record *)

Module Trace.
Import Playwright Async.

(** How many times [extractItemsFromCurrentPage] was called. *)
Fixpoint fetches (t : list Event) : nat :=
  match t with
  | [] => O
  | Fetch _ :: t' => S (fetches t')
  | _ :: t' => fetches t'
  end.

(** How many times the collector asked for a next page ([hasNextPage]). *)
Fixpoint advance_calls (t : list Event) : nat :=
  match t with
  | [] => O
  | HasNext _ :: t' => S (advance_calls t')
  | _ :: t' => advance_calls t'
  end.

(** How many times the collector clicked through ([goToNextPage]). *)
Fixpoint navigations (t : list Event) : nat :=
  match t with
  | [] => O
  | GoNext _ :: t' => S (navigations t')
  | _ :: t' => navigations t'
  end.

(** The cards of the pages fetched, in the order of the fetches. *)
Fixpoint fetched_pages (t : list Event) : list (list Card) :=
  match t with
  | [] => []
  | Fetch (Got itemElements) :: t' => itemElements :: fetched_pages t'
  | _ :: t' => fetched_pages t'
  end.

(** The identifiers a page offers under the ceiling, in the page's order. *)
Definition accepted (maxPrice : JsNumber.number) (itemElements : list Card)
  : list string :=
  flat_map (fun item => match SearchPage.item_url maxPrice item with
                        | Some url => [url]
                        | None => []
                        end) itemElements.

(** Discovery order: page after page, each page in its own order. *)
Definition discovered (maxPrice : JsNumber.number) (t : list Event)
  : list string :=
  flat_map (accepted maxPrice) (fetched_pages t).

End Trace.

(* ================================================================= *)
(** ** One turn of the paging loop *)

Module Turn.
Import JsNumber Playwright Async SearchPage Trace.

Section View.
Context {W : Type}.
Variable browser : Browser W.
Variable config : Config.t.
Variable maxPrice : number.
Variable limit : Z.

(** The loop test of [collectItemsWithPaging]. *)
Definition guard (collectedUrls : list string) (currentPage : Z) : bool :=
  (length collectedUrls <? limit)
  && (currentPage <=? Config.maxPages (Config.pagination config)).

(** The four ways a turn entered from [(collectedUrls, currentPage)] with
    [S fuel] goes on: the fetch throws; the page fills the accumulator;
    there is no next page; or the loop goes round again after the click. *)
Inductive view (fuel : nat) (collectedUrls : list string) (currentPage : Z)
  : Completion (list string) * W * list Event -> Prop :=
| fetch_threw (e : Error) (w1 : W) :
    view fuel collectedUrls currentPage (Thrown e, w1, [Fetch (Threw e)])
| target_reached (itemElements : list Card) (w1 : W) :
    length (push_items limit collectedUrls (accepted maxPrice itemElements))
      >= limit ->
    view fuel collectedUrls currentPage
         (Returned (push_items limit collectedUrls
                               (accepted maxPrice itemElements)),
          w1, [Fetch (Got itemElements)])
| no_next_page (itemElements : list Card) (w2 : W) :
    length (push_items limit collectedUrls (accepted maxPrice itemElements))
      < limit ->
    view fuel collectedUrls currentPage
         (Returned (push_items limit collectedUrls
                               (accepted maxPrice itemElements)),
          w2, [Fetch (Got itemElements); HasNext false])
| next_turn (itemElements : list Card) (navigated : bool) (w3 : W)
            (c : Completion (list string)) (w' : W) (t : list Event) :
    length (push_items limit collectedUrls (accepted maxPrice itemElements))
      < limit ->
    paging_loop browser config fuel maxPrice limit
                (push_items limit collectedUrls
                            (accepted maxPrice itemElements))
                (currentPage + 1) w3 = (c, w', t) ->
    view fuel collectedUrls currentPage
         (c, w',
          Fetch (Got itemElements) :: HasNext true :: GoNext navigated :: t).

End View.

End Turn.

(* ================================================================= *)
(** ** A scripted browser: search results as a list of pages *)

Module Script.
Import JsNumber Playwright Async.

Record PageDom : Type := {
  cards : list Card;
  next_visible : bool;
  next_aria_disabled : option string;
  next_clickable : bool
}.

Record World : Type := { pages : list PageDom; current : nat }.

Definition current_page (w : World) : option PageDom :=
  nth_error (pages w) (current w).

Definition browser : Browser World := {|
  page_waitForTimeout := fun _ w => (Got tt, w);
  page_waitForLoadState := fun w => (Got tt, w);
  page_waitForSelector := fun _ w => (Threw TimeoutError, w);
  itemCards_all := fun w =>
    (Got (match current_page w with Some p => cards p | None => [] end), w);
  nextPage_isVisible := fun w =>
    (Got (match current_page w with
          | Some p => next_visible p
          | None => false
          end), w);
  nextPage_getAttribute := fun _ w =>
    (match current_page w with
     | Some p => Got (next_aria_disabled p)
     | None => Threw TimeoutError
     end, w);
  nextPageButton_click := fun w =>
    match current_page w with
    | Some p =>
        if next_clickable p
        then (Got tt, {| pages := pages w; current := S (current w) |})
        else (Threw TimeoutError, w)
    | None => (Threw TimeoutError, w)
    end;
  searchBox_fill := fun _ w => (Got tt, w);
  searchButton_click := fun w => (Got tt, w);
  maxPriceInput_fill := fun _ w => (Got tt, w);
  priceSubmitButton_click := fun w => (Got tt, w)
|}.

(** A card whose price element reads [priceText] and whose link is [url]. *)
Definition card (priceText url : string) : Card :=
  {| price_textContent := Got (Some priceText); link_href := Got (Some url) |}.

(** A page with a working next button, and a last page. *)
Definition page_with_next (cs : list Card) : PageDom :=
  {| cards := cs; next_visible := true; next_aria_disabled := None;
     next_clickable := true |}.
Definition last_page (cs : list Card) : PageDom :=
  {| cards := cs; next_visible := false; next_aria_disabled := None;
     next_clickable := false |}.

(** A page whose next button shows but cannot be clicked. *)
Definition page_with_dead_next (cs : list Card) : PageDom :=
  {| cards := cs; next_visible := true; next_aria_disabled := None;
     next_clickable := false |}.

Definition start (ps : list PageDom) : World := {| pages := ps; current := O |}.

Definition with_maxPages (n : Z) : Config.t :=
  {| Config.pagination := {| Config.maxPages := n |} |}.

Local Open Scope string_scope.

(** Scenario A of the specification. *)
Definition scenario_a : World :=
  start [last_page [card "50" "a"; card "300" "b"; card "10" "c"]].

(** Scenario B. *)
Definition scenario_b : World :=
  start [page_with_next [card "20" "x"]; last_page [card "30" "y"]].

(** Scenario C. *)
Definition scenario_c : World :=
  start [page_with_next [card "5" "p"; card "6" "q"]; last_page [card "7" "r"]].

(** Scenario D: nothing qualifies on page 1, page 2 would qualify. *)
Definition scenario_d : World :=
  start [page_with_next [card "300" "b"]; last_page [card "10" "y"]].

(** One page whose next button is visible and enabled, but on which the
    click times out. *)
Definition stuck : World :=
  start [page_with_dead_next [card "$5.00" "u"]].

End Script.

(* ================================================================= *)
(** ** Two sentences of the specification, as predicates of a run *)

Module Stated.
Import JsNumber Playwright Async SearchPage Trace.

(** What is left of a call record after its [n]-th fetch. *)
Fixpoint after_fetch (n : nat) (t : list Event) : list Event :=
  match n with
  | O => t
  | S n' =>
      match t with
      | [] => []
      | Fetch _ :: t' => after_fetch n' t'
      | _ :: t' => after_fetch n t'
      end
  end.

(** "If the page counter has reached [maxPages] and the accumulator is still
    below the target, the collector returns without calling
    advanceToNextPage": no question about a next page follows the
    [maxPages]-th fetch of a run that returns fewer than [limit] items. *)
Definition stops_without_advancing {W : Type} (browser : Browser W)
           (cfg : Config.t) (maxPrice : number) (limit : Z) (w : W) : Prop :=
  let '(c, _, t) := collectItemsWithPaging browser cfg maxPrice limit w in
  forall r,
    c = Returned r ->
    length r < limit ->
    advance_calls
      (after_fetch (Z.to_nat (Config.maxPages (Config.pagination cfg))) t)
    = O.

(** "A configuration error is surfaced immediately to the caller before any
    page is fetched." *)
Definition surfaces_configuration_error {W : Type} (browser : Browser W)
           (cfg : Config.t) (maxPrice : number) (limit : Z) (w : W) : Prop :=
  let '(c, _, t) := collectItemsWithPaging browser cfg maxPrice limit w in
  (exists e, c = Thrown e) /\ fetches t = O.

End Stated.

From Stdlib Require Import DecimalString.

(* ================================================================= *)
(** ** A scripted browser that can lose its page *)

Module Closing.
Import Playwright.

(** As [Script.browser], but locating the cards throws once the browser has
    clicked past the last scripted page. *)
Definition browser : Browser Script.World := {|
  page_waitForTimeout := page_waitForTimeout Script.browser;
  page_waitForLoadState := page_waitForLoadState Script.browser;
  page_waitForSelector := page_waitForSelector Script.browser;
  itemCards_all := fun w =>
    match Script.current_page w with
    | Some p => (Got (Script.cards p), w)
    | None => (Threw TargetClosedError, w)
    end;
  nextPage_isVisible := nextPage_isVisible Script.browser;
  nextPage_getAttribute := nextPage_getAttribute Script.browser;
  nextPageButton_click := nextPageButton_click Script.browser;
  searchBox_fill := searchBox_fill Script.browser;
  searchButton_click := searchButton_click Script.browser;
  maxPriceInput_fill := maxPriceInput_fill Script.browser;
  priceSubmitButton_click := priceSubmitButton_click Script.browser
|}.

Local Open Scope string_scope.

(** One page whose next button leads nowhere. *)
Definition dangling : Script.World :=
  Script.start [Script.page_with_next [Script.card "20" "x"]].

End Closing.

(* ================================================================= *)
(** ** The shape of the collector's call record *)

Module Paging.
Import Playwright Async.

(** Turns that go round, a fetch, a question answered yes and a click, and
    then the last turn: nothing, a fetch alone, or a fetch and a question
    answered no. *)
Inductive paged : list Event -> Prop :=
| paged_nil : paged []
| paged_last (found : Attempt (list Card)) : paged [Fetch found]
| paged_stop (itemElements : list Card) :
    paged [Fetch (Got itemElements); HasNext false]
| paged_more (itemElements : list Card) (navigated : bool) (t : list Event) :
    paged t ->
    paged (Fetch (Got itemElements) :: HasNext true :: GoNext navigated :: t).

End Paging.

(* ================================================================= *)
(** ** Shapes of price texts *)

Module PriceText.

(** Whether a string contains one of the digits 1 to 9. *)
Fixpoint has_nonzero_digit (s : string) : bool :=
  match s with
  | EmptyString => false
  | String c rest =>
      (PriceParser.is_digit c && negb (Ascii.eqb c "0"))
      || has_nonzero_digit rest
  end.

(** Whether a string is made of decimal digits only. *)
Fixpoint all_digits (s : string) : bool :=
  match s with
  | EmptyString => true
  | String c rest => PriceParser.is_digit c && all_digits rest
  end.

End PriceText.

(* ================================================================= *)
(** ** src/pages/BasePage.ts: navigation and screenshots *)

Module BasePage.
Import JsNumber Playwright Async.
Local Open Scope string_scope.
Local Open Scope async_scope.

(** [config.baseURL] and [config.screenshots.path]. *)
Definition baseURL : string := "https://www.ebay.com".
Definition screenshots_path : string := "./test-results/screenshots".

(** The page-level operations of [BasePage] that [SearchPage] does not use:
    [page.goto], [page.screenshot] and the clock behind [new Date()]. *)
Record Page (W : Type) : Type := {
  page_goto : string -> W -> Attempt unit * W;
  page_screenshot : string -> W -> Attempt unit * W;
  date_toISOString : W -> string * W
}.
Arguments page_goto {W} _ _ _.
Arguments page_screenshot {W} _ _ _.
Arguments date_toISOString {W} _ _.

(** [url.startsWith('http') ? url : `${config.baseURL}${url}`] *)
Definition fullUrl (base url : string) : string :=
  if String.prefix "http" url then url else base ++ url.

(** [timestamp.replace(/[:.]/g, '-')] *)
Fixpoint replace_colons_dots (s : string) : string :=
  match s with
  | EmptyString => EmptyString
  | String c rest =>
      String (if Ascii.eqb c ":" || Ascii.eqb c "." then "-"%char else c)
             (replace_colons_dots rest)
  end.

Section Methods.
Context {W : Type}.
Variable page : Page W.

(** [goto(url)] *)
Definition goto (url : string) : M W unit :=
  await (page_goto page (fullUrl baseURL url)).

(** [takeScreenshot(name)] *)
Definition takeScreenshot (name : string) : M W unit :=
  timestamp <- (fun w => let (iso, w1) := date_toISOString page w in
                         (Returned (replace_colons_dots iso), w1, [])) ;;
  let filename := name ++ "_" ++ timestamp ++ ".png" in
  await (page_screenshot page (screenshots_path ++ "/" ++ filename)).

End Methods.

End BasePage.

(* ================================================================= *)
(** ** src/pages/CartPage.ts *)

Module CartPage.
Import JsNumber Playwright Async SearchPage BasePage.
Local Open Scope string_scope.
Local Open Scope async_scope.

(** The entries of [totalSelectors] and of [countSelectors], by position. *)
Inductive TotalSelector : Type :=
| subtotal_display | cart_summary_amount | total_row_display
| subtotal_text_display | subtotal_sibling_span.

Inductive CountSelector : Type :=
| summary_items_span | gh_cart_n | item_italic.

Definition totalSelectors : list TotalSelector :=
  [subtotal_display; cart_summary_amount; total_row_display;
   subtotal_text_display; subtotal_sibling_span].

Definition countSelectors : list CountSelector :=
  [summary_items_span; gh_cart_n; item_italic].

(** The locators of the cart page.  [isVisible] and [textContent] are those
    of [page.locator(selector).first()]. *)
Record Cart (W : Type) : Type := {
  cartIcon_click : W -> Attempt unit * W;
  total_isVisible : TotalSelector -> W -> Attempt bool * W;
  total_textContent : TotalSelector -> W -> Attempt (option string) * W;
  itemPrices_allTextContents : W -> Attempt (list string) * W;
  count_isVisible : CountSelector -> W -> Attempt bool * W;
  count_textContent : CountSelector -> W -> Attempt (option string) * W;
  itemRows_count : W -> Attempt nat * W;
  removeButtons_count : W -> Attempt nat * W;
  removeButtons_first_click : W -> Attempt unit * W
}.
Arguments cartIcon_click {W} _ _.
Arguments total_isVisible {W} _ _ _.
Arguments total_textContent {W} _ _ _.
Arguments itemPrices_allTextContents {W} _ _.
Arguments count_isVisible {W} _ _ _.
Arguments count_textContent {W} _ _ _.
Arguments itemRows_count {W} _ _.
Arguments removeButtons_count {W} _ _.
Arguments removeButtons_first_click {W} _ _.

(** [throw new Error(message)].  The messages of [CartPage] are shortened:
    the numbers the source interpolates into them are left out. *)
Definition throw {W A : Type} (message : string) : M W A :=
  resume (Threw (OtherError message)).

(** [countText.replace(/\D/g, '')] *)
Fixpoint replace_non_digits (s : string) : string :=
  match s with
  | EmptyString => EmptyString
  | String c rest =>
      if PriceParser.is_digit c
      then String c (replace_non_digits rest)
      else replace_non_digits rest
  end.

(** The builtin [parseInt] on a string of decimal digits: the Number value of
    the integer, NaN for the empty string. *)
Definition parseInt (digits : string) : number :=
  match digits with
  | EmptyString => nan
  | _ => of_decimal (PriceParser.digits_value 0 digits) 0
  end.

(** [a + b] and [a * b] on numbers. *)
Definition add (a b : number) : number := SFadd prec emax a b.
Definition mul (a b : number) : number := SFmul prec emax a b.
Definition sub (a b : number) : number := SFsub prec emax a b.

(** [a === b] on numbers. *)
Definition strict_eq (a b : number) : bool := SFeqb a b.

(** [expect(x).toBe(0)]: [Object.is(x, 0)]. *)
Definition is_plus_zero (x : number) : bool :=
  match x with
  | S754_zero false => true
  | _ => false
  end.

Section Methods.
Context {W : Type}.
Variable browser : Browser W.
Variable page : Page W.
Variable cart : Cart W.

(** [openCart] *)
Definition openCart : M W unit :=
  try_catch
    (await (cartIcon_click cart) ;;
     waitForPageLoad browser)
    (fun _ =>
       goto page "https://cart.ebay.com/" ;;
       waitForPageLoad browser) ;;
  await (page_waitForTimeout browser 2000).

(** The [for] loop of [clearCart], with [i] turns left. *)
Fixpoint remove_loop (turns : nat) : M W unit :=
  match turns with
  | O => ret tt
  | S turns' =>
      try_catch
        (await (removeButtons_first_click cart) ;;
         await (page_waitForTimeout browser 1000))
        (fun _ => ret tt) ;;
      remove_loop turns'
  end.

(** [clearCart] *)
Definition clearCart : M W unit :=
  try_catch
    (openCart ;;
     await (page_waitForTimeout browser 2000) ;;
     count <- await (removeButtons_count cart) ;;
     match count with
     | O => ret tt
     | _ =>
         remove_loop count ;;
         await (page_waitForTimeout browser 1000)
     end)
    (fun _ => ret tt).

(** [calculateTotalFromItems] *)
Definition calculateTotalFromItems : M W number :=
  try_catch
    (itemPrices <- await (itemPrices_allTextContents cart) ;;
     ret (fold_left (fun total priceText => add total (PriceParser.parse priceText))
                    itemPrices zero))
    (fun _ => ret zero).

(** The loop over [totalSelectors] in [getTotalAmount]: [Some total] when a
    turn returns, [None] when the loop runs out. *)
Fixpoint total_loop (selectors : list TotalSelector) : M W (option number) :=
  match selectors with
  | [] => ret None
  | selector :: rest =>
      found <-
        try_catch
          (visible <- await (total_isVisible cart selector) ;;
           if visible then
             totalText <- await (total_textContent cart selector) ;;
             if truthy totalText then
               let total :=
                 PriceParser.parse
                   (match totalText with Some t => t | None => "" end) in
               if gt total zero then ret (Some total) else ret None
             else ret None
           else ret None)
          (fun _ => ret None) ;;
      match found with
      | Some total => ret (Some total)
      | None => total_loop rest
      end
  end.

(** [getTotalAmount] *)
Definition getTotalAmount : M W number :=
  try_catch
    (await (page_waitForTimeout browser 2000) ;;
     found <- total_loop totalSelectors ;;
     match found with
     | Some total => ret total
     | None => calculateTotalFromItems
     end)
    (fun _ => ret zero).

(** The loop over [countSelectors] in [getItemsCount]. *)
Fixpoint count_loop (selectors : list CountSelector) : M W (option number) :=
  match selectors with
  | [] => ret None
  | selector :: rest =>
      found <-
        try_catch
          (visible <- await (count_isVisible cart selector) ;;
           if visible then
             countText <- await (count_textContent cart selector) ;;
             if truthy countText then
               let count :=
                 parseInt (replace_non_digits
                             (match countText with Some t => t | None => "" end)) in
               if negb (isNaN count) then ret (Some count) else ret None
             else ret None
           else ret None)
          (fun _ => ret None) ;;
      match found with
      | Some count => ret (Some count)
      | None => count_loop rest
      end
  end.

(** [getItemsCount] *)
Definition getItemsCount : M W number :=
  try_catch
    (found <- count_loop countSelectors ;;
     match found with
     | Some count => ret count
     | None =>
         itemRows <- await (itemRows_count cart) ;;
         ret (of_Z (Z.of_nat itemRows))
     end)
    (fun _ => ret zero).

(** The checks of [assertCartTotalNotExceeds] once the cart has been read. *)
Definition validate (budgetPerItem itemsCount totalAmount cartItemsCount : number)
  : M W unit :=
  let threshold := mul budgetPerItem itemsCount in
  if strict_eq itemsCount zero then
    if negb (is_plus_zero cartItemsCount) then throw "expect(cartItemsCount).toBe(0)"
    else if negb (is_plus_zero totalAmount) then throw "expect(totalAmount).toBe(0)"
    else ret tt
  else if strict_eq cartItemsCount zero then throw "Cart is empty!"
  else if strict_eq totalAmount zero && gt cartItemsCount zero
  then throw "Cart total is $0 but contains items - suspicious!"
  else if negb (strict_eq cartItemsCount itemsCount)
          && (let tolerance := if le itemsCount (of_Z 2) then zero else of_Z 1 in
              let difference := SFabs (sub cartItemsCount itemsCount) in
              gt difference tolerance)
  then throw "Cart item mismatch: difference exceeds tolerance!"
  else if negb (le totalAmount threshold)
  then throw "expect(totalAmount).toBeLessThanOrEqual(threshold)"
  else ret tt.

(** [assertCartTotalNotExceeds(budgetPerItem, itemsCount)] *)
Definition assertCartTotalNotExceeds (budgetPerItem itemsCount : number)
  : M W unit :=
  openCart ;;
  totalAmount <- getTotalAmount ;;
  cartItemsCount <- getItemsCount ;;
  takeScreenshot page "cart_final" ;;
  validate budgetPerItem itemsCount totalAmount cartItemsCount.

End Methods.

End CartPage.

(* ================================================================= *)
(** ** A scripted cart page *)

Module CartScript.
Import JsNumber Playwright Async BasePage CartPage.
Local Open Scope string_scope.

(** What the cart page shows: the text under each total selector and each
    count selector (if any), and the price texts of the item rows. *)
Record Dom : Type := {
  total_text : TotalSelector -> option string;
  count_text : CountSelector -> option string;
  item_prices : list string
}.

Definition browser : Browser Dom := {|
  page_waitForTimeout := fun _ w => (Got tt, w);
  page_waitForLoadState := fun w => (Got tt, w);
  page_waitForSelector := fun _ w => (Threw TimeoutError, w);
  itemCards_all := fun w => (Got [], w);
  nextPage_isVisible := fun w => (Got false, w);
  nextPage_getAttribute := fun _ w => (Threw TimeoutError, w);
  nextPageButton_click := fun w => (Threw TimeoutError, w);
  searchBox_fill := fun _ w => (Got tt, w);
  searchButton_click := fun w => (Got tt, w);
  maxPriceInput_fill := fun _ w => (Got tt, w);
  priceSubmitButton_click := fun w => (Got tt, w)
|}.

Definition page : Page Dom := {|
  page_goto := fun _ w => (Got tt, w);
  page_screenshot := fun _ w => (Got tt, w);
  date_toISOString := fun w => ("2026-02-01T10:00:00.000Z", w)
|}.

Definition cart : Cart Dom := {|
  cartIcon_click := fun w => (Got tt, w);
  total_isVisible := fun s w =>
    (Got (match total_text w s with Some _ => true | None => false end), w);
  total_textContent := fun s w =>
    (match total_text w s with
     | Some t => Got (Some t)
     | None => Threw TimeoutError
     end, w);
  itemPrices_allTextContents := fun w => (Got (item_prices w), w);
  count_isVisible := fun s w =>
    (Got (match count_text w s with Some _ => true | None => false end), w);
  count_textContent := fun s w =>
    (match count_text w s with
     | Some t => Got (Some t)
     | None => Threw TimeoutError
     end, w);
  itemRows_count := fun w => (Got (List.length (item_prices w)), w);
  removeButtons_count := fun w => (Got (List.length (item_prices w)), w);
  removeButtons_first_click := fun w =>
    match item_prices w with
    | [] => (Threw TimeoutError, w)
    | _ :: rest =>
        (Got tt, {| total_text := total_text w; count_text := count_text w;
                    item_prices := rest |})
    end
|}.

(** A cart with two items, a subtotal line and an item counter. *)
Definition two_items : Dom := {|
  total_text := fun s =>
    match s with
    | subtotal_display => Some "$45.98"
    | _ => None
    end;
  count_text := fun s =>
    match s with
    | summary_items_span => Some "Items (2)"
    | _ => None
    end;
  item_prices := ["$19.99"; "$25.99"]
|}.

(** The same cart on a layout none of the selectors matches. *)
Definition bare_two_items : Dom := {|
  total_text := fun _ => None;
  count_text := fun _ => None;
  item_prices := ["$19.99"; "$25.99"]
|}.

(** An empty cart whose subtotal line reads zero. *)
Definition empty : Dom := {|
  total_text := fun s =>
    match s with
    | subtotal_display => Some "$0.00"
    | _ => None
    end;
  count_text := fun _ => None;
  item_prices := []
|}.

End CartScript.

(* ================================================================= *)
(** ** src/utils/RandomSelector.ts *)

Module RandomSelector.
Import JsNumber Playwright Async.
Local Open Scope async_scope.

(** [Math.floor] *)
Definition floor (x : number) : number :=
  match x with
  | S754_finite s m e =>
      let v := if s then Zneg m else Zpos m in
      of_Z (if e <? 0 then Z.shiftr v (- e) else v * 2 ^ e)
  | _ => x
  end.

(** [array[index]] for a number [index]: the element when [index] is an
    integer within the array, [None] ([undefined]) otherwise. *)
Definition element_at {A : Type} (array : list A) (index : number) : option A :=
  match index with
  | S754_zero _ => nth_error array O
  | S754_finite false m e =>
      if 0 <=? e then nth_error array (Z.to_nat (Zpos m * 2 ^ e))
      else if Zpos m mod 2 ^ (- e) =? 0
           then nth_error array (Z.to_nat (Zpos m / 2 ^ (- e)))
           else None
  | _ => None
  end.

Section Methods.
Context {W : Type}.

(** [Math.random()], drawn from the world. *)
Variable math_random : W -> number * W.

Definition random : M W number :=
  fun w => let (r, w1) := math_random w in (Returned r, w1, []).

(** [static getRandomIndex(length: number): number] *)
Definition getRandomIndex (length : number) : M W number :=
  if le length zero then ret zero
  else r <- random ;; ret (floor (SFmul prec emax r length)).

(** [static getRandomElement<T>(array: T[]): T | null] *)
Definition getRandomElement {A : Type} (array : list A) : M W (option A) :=
  match array with
  | [] => ret None
  | _ =>
      index <- getRandomIndex (of_Z (Z.of_nat (List.length array))) ;;
      ret (element_at array index)
  end.

End Methods.

End RandomSelector.

(* ================================================================= *)
(** ** src/pages/ProductPage.ts *)

Module ProductPage.
Import JsNumber Playwright Async SearchPage BasePage.
Local Open Scope string_scope.
Local Open Scope Z_scope.
Local Open Scope async_scope.

(** The entries of [captchaSelectors], by position. *)
Inductive CaptchaSelector : Type :=
| iframe_title_recaptcha | iframe_src_captcha | class_captcha | px_captcha
| g_recaptcha | text_verify_human | text_security_verification.

Definition captchaSelectors : list CaptchaSelector :=
  [iframe_title_recaptcha; iframe_src_captcha; class_captcha; px_captcha;
   g_recaptcha; text_verify_human; text_security_verification].

(** An element handed out by [locator.all()]. *)
Definition Element : Type := nat.

(** The locators of the product page, and [Math.random]. *)
Record Product (W : Type) : Type := {
  captcha_isVisible : CaptchaSelector -> W -> Attempt bool * W;
  priceElement_textContent : W -> Attempt (option string) * W;
  sizeDropdownButton_isVisible : W -> Attempt bool * W;
  sizeDropdownButton_click : W -> Attempt unit * W;
  sizeDropdownOptions_all : W -> Attempt (list Element) * W;
  colorDropdownButton_isVisible : W -> Attempt bool * W;
  colorDropdownButton_click : W -> Attempt unit * W;
  colorDropdownOptions_all : W -> Attempt (list Element) * W;
  option_textContent : Element -> W -> Attempt (option string) * W;
  option_click : Element -> W -> Attempt unit * W;
  mskuSelects_all : W -> Attempt (list Element) * W;
  select_getAttribute_id : Element -> W -> Attempt (option string) * W;
  select_isVisible : Element -> W -> Attempt bool * W;
  select_options_all : Element -> W -> Attempt (list Element) * W;
  option_getAttribute_value : Element -> W -> Attempt (option string) * W;
  select_selectOption : Element -> string -> W -> Attempt unit * W;
  quantitySelect_isVisible : W -> Attempt bool * W;
  quantitySelect_selectOption : string -> W -> Attempt unit * W;
  addToCartButton_waitFor : W -> Attempt unit * W;
  addToCartButton_click : W -> Attempt unit * W;
  page_pause : W -> Attempt unit * W;
  math_random : W -> number * W
}.
Arguments captcha_isVisible {W} _ _ _.
Arguments priceElement_textContent {W} _ _.
Arguments sizeDropdownButton_isVisible {W} _ _.
Arguments sizeDropdownButton_click {W} _ _.
Arguments sizeDropdownOptions_all {W} _ _.
Arguments colorDropdownButton_isVisible {W} _ _.
Arguments colorDropdownButton_click {W} _ _.
Arguments colorDropdownOptions_all {W} _ _.
Arguments option_textContent {W} _ _ _.
Arguments option_click {W} _ _ _.
Arguments mskuSelects_all {W} _ _.
Arguments select_getAttribute_id {W} _ _ _.
Arguments select_isVisible {W} _ _ _.
Arguments select_options_all {W} _ _ _.
Arguments option_getAttribute_value {W} _ _ _.
Arguments select_selectOption {W} _ _ _ _.
Arguments quantitySelect_isVisible {W} _ _.
Arguments quantitySelect_selectOption {W} _ _ _.
Arguments addToCartButton_waitFor {W} _ _.
Arguments addToCartButton_click {W} _ _.
Arguments page_pause {W} _ _.
Arguments math_random {W} _ _.

(** [error.message] and [error.name].  An error of the browser whose message
    matters is an [OtherError] with that message. *)
Definition message (error : Error) : string :=
  match error with
  | TimeoutError => "Timeout exceeded."
  | TargetClosedError => "Target page, context or browser has been closed"
  | OtherError m => m
  end.

Definition name (error : Error) : string :=
  match error with
  | TimeoutError => "TimeoutError"
  | _ => "Error"
  end.

(** [`${error}`]: [Error.prototype.toString]. *)
Definition to_string (error : Error) : string :=
  match message error with
  | EmptyString => name error
  | m => name error ++ ": " ++ m
  end.

(** [s.includes(part)] *)
Definition includes (s part : string) : bool :=
  match String.index 0 part s with
  | Some _ => true
  | None => false
  end.

(** [error instanceof Error && error.message.includes('CAPTCHA')] *)
Definition is_captcha_error (error : Error) : bool :=
  includes (message error) "CAPTCHA".

(** [s.toLowerCase()], on the letters A to Z. *)
Definition lower (c : ascii) : ascii :=
  let n := nat_of_ascii c in
  if ((65 <=? n) && (n <=? 90))%nat then ascii_of_nat (n + 32) else c.

Fixpoint toLowerCase (s : string) : string :=
  match s with
  | EmptyString => EmptyString
  | String c rest => String (lower c) (toLowerCase rest)
  end.

(** The message of the error [checkForCaptcha] throws. *)
Definition captcha_message : string :=
  "❌ CAPTCHA/Bot detection encountered! Test cannot continue.".

(** [`${n}`] for an array length. *)
Definition decimal (n : nat) : string :=
  NilEmpty.string_of_uint (Nat.to_uint n).

(** [`${i + 1}`] for a loop counter. *)
Definition ordinal (i : nat) : string := decimal (S i).

Section Methods.
Context {W : Type}.
Variable browser : Browser W.
Variable page : Page W.
Variable product : Product W.

(** The loop over [captchaSelectors]. *)
Fixpoint captcha_loop (selectors : list CaptchaSelector) : M W unit :=
  match selectors with
  | [] => ret tt
  | selector :: rest =>
      visible <- await (captcha_isVisible product selector) ;;
      if visible then CartPage.throw captcha_message
      else captcha_loop rest
  end.

(** [checkForCaptcha] *)
Definition checkForCaptcha : M W unit :=
  try_catch (captcha_loop captchaSelectors)
            (fun error =>
               if is_captcha_error error then resume (Threw error)
               else ret tt).

(** [getProductPrice] *)
Definition getProductPrice : M W number :=
  try_catch
    (priceText <- await (priceElement_textContent product) ;;
     ret (if truthy priceText
          then PriceParser.parse
                 (match priceText with Some t => t | None => "" end)
          else zero))
    (fun _ => ret zero).

(** [selectSizeVariant] *)
Definition selectSizeVariant : M W unit :=
  try_catch
    (visible <- await (sizeDropdownButton_isVisible product) ;;
     if visible then
       await (sizeDropdownButton_click product) ;;
       await (page_waitForTimeout browser 500) ;;
       allOptions <- await (sizeDropdownOptions_all product) ;;
       if (1 <? List.length allOptions)%nat then
         let validOptions := tl allOptions in
         randomOption <-
           RandomSelector.getRandomElement (math_random product) validOptions ;;
         match randomOption with
         | Some option =>
             optionText <- await (option_textContent product option) ;;
             await (option_click product option)
         | None => ret tt
         end
       else ret tt
     else ret tt)
    (fun _ => ret tt).

(** [selectColorVariant] *)
Definition selectColorVariant : M W unit :=
  try_catch
    (visible <- await (colorDropdownButton_isVisible product) ;;
     if visible then
       await (colorDropdownButton_click product) ;;
       await (page_waitForTimeout browser 500) ;;
       allOptions <- await (colorDropdownOptions_all product) ;;
       if (1 <? List.length allOptions)%nat then
         let validOptions := tl allOptions in
         randomOption <-
           RandomSelector.getRandomElement (math_random product) validOptions ;;
         match randomOption with
         | Some option =>
             optionText <- await (option_textContent product option) ;;
             await (option_click product option)
         | None => ret tt
         end
       else ret tt
     else ret tt)
    (fun _ => ret tt).

(** The inner loop of [selectOtherDropdowns]: the values that are neither
    missing nor empty. *)
Fixpoint values_loop (validOptions : list string) (options : list Element)
  : M W (list string) :=
  match options with
  | [] => ret validOptions
  | option :: rest =>
      value <- await (option_getAttribute_value product option) ;;
      if truthy value
      then values_loop
             (validOptions ++ [match value with Some v => v | None => "" end])
             rest
      else values_loop validOptions rest
  end.

(** The outer loop of [selectOtherDropdowns]. *)
Fixpoint selects_loop (allSelects : list Element) : M W unit :=
  match allSelects with
  | [] => ret tt
  | select :: rest =>
      id <- await (select_getAttribute_id product select) ;;
      if truthy id
         && (let lowered :=
               toLowerCase (match id with Some i => i | None => "" end) in
             includes lowered "quantity" || includes lowered "size"
             || includes lowered "color")
      then selects_loop rest
      else
        visible <- await (select_isVisible product select) ;;
        (if visible then
           options <- await (select_options_all product select) ;;
           validOptions <- values_loop [] options ;;
           if (1 <? List.length validOptions)%nat then
             randomValue <-
               RandomSelector.getRandomElement (math_random product)
                                               validOptions ;;
             if truthy randomValue
             then await (select_selectOption product select
                           (match randomValue with Some v => v | None => "" end))
             else ret tt
           else ret tt
         else ret tt) ;;
        selects_loop rest
  end.

(** [selectOtherDropdowns] *)
Definition selectOtherDropdowns : M W unit :=
  try_catch
    (allSelects <- await (mskuSelects_all product) ;;
     selects_loop allSelects)
    (fun _ => ret tt).

(** [selectQuantity] *)
Definition selectQuantity : M W unit :=
  try_catch
    (visible <- await (quantitySelect_isVisible product) ;;
     if visible then await (quantitySelect_selectOption product "1")
     else ret tt)
    (fun _ => ret tt).

(** [selectRandomVariants] *)
Definition selectRandomVariants : M W unit :=
  checkForCaptcha ;;
  selectSizeVariant ;;
  selectColorVariant ;;
  selectOtherDropdowns ;;
  selectQuantity ;;
  await (page_waitForTimeout browser 1000).

(** [addToCart]: whatever fails is thrown again as a new error whose
    message ends with the text of the first. *)
Definition addToCart : M W unit :=
  try_catch
    (await (addToCartButton_waitFor product) ;;
     await (addToCartButton_click product) ;;
     await (page_waitForTimeout browser 2000) ;;
     await (page_pause product))
    (fun error =>
       CartPage.throw ("Failed to add item to cart: " ++ to_string error)).

(** The [try] block of the loop of [addItemsToCart] for [urls[i]], up to
    [successCount++]: it returns [true] when every call in it returned. *)
Definition process_item (url : string) (i : nat) : M W bool :=
  goto page url ;;
  await (page_waitForTimeout browser 2000) ;;
  checkForCaptcha ;;
  price <- getProductPrice ;;
  selectRandomVariants ;;
  addToCart ;;
  takeScreenshot page ("item_" ++ ordinal i ++ "_added") ;;
  ret true.

(** The [for] loop of [addItemsToCart], at index [i] with the two counters;
    it returns the counters. *)
Fixpoint items_loop (urls : list string) (i successCount failureCount : nat)
  : M W (nat * nat) :=
  match urls with
  | [] => ret (successCount, failureCount)
  | url :: rest =>
      added <-
        try_catch
          (process_item url i)
          (fun error =>
             takeScreenshot page ("item_" ++ ordinal i ++ "_error") ;;
             if is_captcha_error error then resume (Threw error)
             else ret false) ;;
      if added
      then items_loop rest (S i) (S successCount) failureCount
      else items_loop rest (S i) successCount (S failureCount)
  end.

(** What happened to each url of a loop that went through the whole list,
    from index [i] and world [w] to world [w']: [true] for a url whose page
    was opened, checked, priced, configured and added to the cart, with the
    screenshot taken; [false] for a url whose [try] block threw an error
    that is not a CAPTCHA error, with the error screenshot taken. *)
Inductive processed : list string -> nat -> W -> list bool -> W -> Prop :=
| processed_none (i : nat) (w : W) : processed [] i w [] w
| processed_added (url : string) (rest : list string) (i : nat)
                  (w w1 w2 w3 w4 w5 w6 w7 w' : W) (price : number)
                  (outcomes : list bool) :
    goto page url w = (Returned tt, w1, []) ->
    page_waitForTimeout browser 2000 w1 = (Got tt, w2) ->
    checkForCaptcha w2 = (Returned tt, w3, []) ->
    getProductPrice w3 = (Returned price, w4, []) ->
    selectRandomVariants w4 = (Returned tt, w5, []) ->
    addToCart w5 = (Returned tt, w6, []) ->
    takeScreenshot page ("item_" ++ ordinal i ++ "_added") w6
    = (Returned tt, w7, []) ->
    processed rest (S i) w7 outcomes w' ->
    processed (url :: rest) i w (true :: outcomes) w'
| processed_failed (url : string) (rest : list string) (i : nat)
                   (w w1 w2 w' : W) (error : Error)
                   (outcomes : list bool) :
    process_item url i w = (Thrown error, w1, []) ->
    is_captcha_error error = false ->
    takeScreenshot page ("item_" ++ ordinal i ++ "_error") w1
    = (Returned tt, w2, []) ->
    processed rest (S i) w2 outcomes w' ->
    processed (url :: rest) i w (false :: outcomes) w'.

(** [addItemsToCart(urls)] *)
Definition addItemsToCart (urls : list string) : M W unit :=
  counters <- items_loop urls 0 0 0 ;;
  let (successCount, failureCount) := counters in
  if (failureCount =? List.length urls)%nat
  then CartPage.throw ("❌ Failed to add any items to cart (0/"
                       ++ decimal (List.length urls) ++ ")")
  else ret tt.

End Methods.

End ProductPage.

(* ================================================================= *)
(** ** Methods that make no call to the page source *)

Module Quiet.
Import Playwright Async.

(** [m] ends by returning or by throwing, with an empty call record. *)
Definition settles {W A : Type} (m : M W A) : Prop :=
  forall w,
    (exists a w1, m w = (Returned a, w1, []))
    \/ (exists e w1, m w = (Thrown e, w1, [])).

(** [m] always returns. *)
Definition returns {W A : Type} (m : M W A) : Prop :=
  forall w, exists a w1, m w = (Returned a, w1, []).

End Quiet.

(* ================================================================= *)
(** ** A scripted product page *)

Module ProductScript.
Import JsNumber Playwright Async BasePage ProductPage.
Local Open Scope string_scope.

(** A shop whose product pages have no variants: whether a CAPTCHA shows,
    whether the add-to-cart button works, and what has been added so far. *)
Record Shop : Type := {
  captcha_shown : bool;
  button_works : bool;
  in_cart : nat
}.

Definition browser : Browser Shop := {|
  page_waitForTimeout := fun _ w => (Got tt, w);
  page_waitForLoadState := fun w => (Got tt, w);
  page_waitForSelector := fun _ w => (Threw TimeoutError, w);
  itemCards_all := fun w => (Got [], w);
  nextPage_isVisible := fun w => (Got false, w);
  nextPage_getAttribute := fun _ w => (Threw TimeoutError, w);
  nextPageButton_click := fun w => (Threw TimeoutError, w);
  searchBox_fill := fun _ w => (Got tt, w);
  searchButton_click := fun w => (Got tt, w);
  maxPriceInput_fill := fun _ w => (Got tt, w);
  priceSubmitButton_click := fun w => (Got tt, w)
|}.

Definition page : Page Shop := {|
  page_goto := fun _ w => (Got tt, w);
  page_screenshot := fun _ w => (Got tt, w);
  date_toISOString := fun w => ("2026-02-01T10:00:00.000Z", w)
|}.

Definition product : Product Shop := {|
  captcha_isVisible := fun _ w => (Got (captcha_shown w), w);
  priceElement_textContent := fun w => (Got (Some "US $19.99"), w);
  sizeDropdownButton_isVisible := fun w => (Got false, w);
  sizeDropdownButton_click := fun w => (Threw TimeoutError, w);
  sizeDropdownOptions_all := fun w => (Got [], w);
  colorDropdownButton_isVisible := fun w => (Got false, w);
  colorDropdownButton_click := fun w => (Threw TimeoutError, w);
  colorDropdownOptions_all := fun w => (Got [], w);
  option_textContent := fun _ w => (Threw TimeoutError, w);
  option_click := fun _ w => (Threw TimeoutError, w);
  mskuSelects_all := fun w => (Got [], w);
  select_getAttribute_id := fun _ w => (Threw TimeoutError, w);
  select_isVisible := fun _ w => (Got false, w);
  select_options_all := fun _ w => (Got [], w);
  option_getAttribute_value := fun _ w => (Threw TimeoutError, w);
  select_selectOption := fun _ _ w => (Threw TimeoutError, w);
  quantitySelect_isVisible := fun w => (Got false, w);
  quantitySelect_selectOption := fun _ w => (Threw TimeoutError, w);
  addToCartButton_waitFor := fun w =>
    (if button_works w then Got tt else Threw TimeoutError, w);
  addToCartButton_click := fun w =>
    (Got tt, {| captcha_shown := captcha_shown w;
                button_works := button_works w;
                in_cart := S (in_cart w) |});
  page_pause := fun w => (Got tt, w);
  math_random := fun w => (zero, w)
|}.

Definition open_shop : Shop :=
  {| captcha_shown := false; button_works := true; in_cart := 0 |}.

Definition guarded_shop : Shop :=
  {| captcha_shown := true; button_works := true; in_cart := 0 |}.

Definition broken_shop : Shop :=
  {| captcha_shown := false; button_works := false; in_cart := 0 |}.

End ProductScript.

(* ================================================================= *)
(** * Properties *)

Import JsNumber Playwright Async SearchPage Trace.

(** ** Numbers and prices *)

(** Rounding keeps the sign it is given, whatever the mantissa. *)
Lemma binary_round_aux_sign (p e : Z) (sx : bool) (mx ex : Z) (lx : location) :
  match binary_round_aux p e sx mx ex lx with
  | S754_zero s | S754_infinity s | S754_finite s _ _ => s = sx
  | S754_nan => True
  end.
Proof.
  unfold binary_round_aux.
  destruct (shr_fexp p e mx ex lx) as [mrs' e'].
  destruct (shr_fexp p e _ e' loc_Exact) as [mrs'' e''].
  destruct (shr_m mrs'') as [|m|m]; try exact I; try reflexivity.
  destruct (Z.leb e'' (Z.sub e p)); reflexivity.
Qed.

Lemma signed_nonneg_le (x : number) : signed_nonneg x = true -> le zero x = true.
Proof.
  destruct x as [s|s| |s m e]; cbn; try discriminate; try reflexivity;
    destruct s; cbn; intros H; try discriminate; reflexivity.
Qed.

Lemma of_decimal_sign (m : Z) (k : nat) :
  isNaN (of_decimal m k) = false -> signed_nonneg (of_decimal m k) = true.
Proof.
  unfold of_decimal.
  destruct m as [|p|p]; try reflexivity.
  unfold SFdiv.
  destruct (SFdiv_core_binary prec emax (Z.pos p) 0 _ 0) as [[mz ez] lz].
  pose proof (binary_round_aux_sign prec emax (xorb false false) mz ez lz) as H.
  destruct (binary_round_aux prec emax (xorb false false) mz ez lz);
    cbn in *; subst; try reflexivity; discriminate.
Qed.

Lemma parseFloat_sign (s : string) :
  isNaN (PriceParser.parseFloat s) = false ->
  signed_nonneg (PriceParser.parseFloat s) = true.
Proof.
  unfold PriceParser.parseFloat.
  destruct (PriceParser.take_digits s) as [ip rest].
  destruct rest as [|c rest'].
  - destruct ip; [discriminate | apply of_decimal_sign].
  - destruct c as [[] [] [] [] [] [] [] []];
      try (destruct ip; [discriminate | apply of_decimal_sign]).
    destruct (PriceParser.take_digits rest') as [fp tl].
    destruct ip; [destruct fp; [discriminate|] |]; apply of_decimal_sign.
Qed.

Lemma parse_cases (s : string) :
  PriceParser.parse s = zero \/
  (PriceParser.parse s = PriceParser.parseFloat (PriceParser.replace_non_numeric s)
   /\ isNaN (PriceParser.parse s) = false).
Proof.
  unfold PriceParser.parse.
  destruct s as [|c s']; [left; reflexivity|].
  destruct (isNaN (PriceParser.parseFloat _)) eqn:E; [left; reflexivity|].
  right; split; [reflexivity | exact E].
Qed.

(** A string without digits is, once cleaned, a run of dots. *)
Lemma replace_without_digit (s : string) :
  PriceParser.has_digit s = false ->
  PriceParser.only_dots (PriceParser.replace_non_numeric s) = true.
Proof.
  induction s as [|c s IH]; cbn; [reflexivity|].
  intros H. apply orb_false_iff in H as [Hc Hs].
  unfold PriceParser.is_numeric_char. rewrite Hc. cbn.
  destruct (Ascii.eqb c ".") eqn:E; cbn; [rewrite E|]; auto.
Qed.

Lemma dot_is_not_digit (c : ascii) :
  Ascii.eqb c "."%char = true -> PriceParser.is_digit c = false.
Proof. intros H. apply Ascii.eqb_eq in H. subst. reflexivity. Qed.

Lemma parseFloat_only_dots (s : string) :
  PriceParser.only_dots s = true -> PriceParser.parseFloat s = nan.
Proof.
  destruct s as [|c s]; [reflexivity|].
  cbn [PriceParser.only_dots]. intros H. apply andb_true_iff in H as [Hc Hs].
  unfold PriceParser.parseFloat. cbn [PriceParser.take_digits].
  rewrite (dot_is_not_digit c Hc).
  apply Ascii.eqb_eq in Hc. subst c.
  destruct s as [|c' s']; [reflexivity|].
  cbn [PriceParser.only_dots] in Hs. apply andb_true_iff in Hs as [Hc' _].
  cbn [PriceParser.take_digits]. rewrite (dot_is_not_digit c' Hc'). reflexivity.
Qed.

(** ** The monad's leaves *)

Section Collector.
Context {W : Type}.
Variable browser : Browser W.
Variable cfg : Config.t.
Variable maxPrice : number.
Variable limit : Z.

Let maxPages : Z := Config.maxPages (Config.pagination cfg).

(** One fetch: one [Fetch] event, and the page's urls or the exception. *)
Lemma extract_run (w : W) :
  exists found w1,
    extractItemsFromCurrentPage browser maxPrice w =
      (match found with
       | Got itemElements => Returned (extract_loop maxPrice [] itemElements)
       | Threw e => Thrown e
       end, w1, [Fetch found]).
Proof.
  unfold extractItemsFromCurrentPage, bind, settle, await, emit, resume, ret.
  destruct (page_waitForTimeout browser 2000 w) as [[[]|e] w1].
  - destruct (itemCards_all browser w1) as [[itemElements|e] w2];
      [exists (Got itemElements), w2 | exists (Threw e), w2]; reflexivity.
  - exists (Threw e), w1; reflexivity.
Qed.

(** [hasNextPage] always returns, with one [HasNext] event. *)
Lemma hasNextPage_run (w : W) :
  exists answer w1,
    hasNextPage browser w = (Returned answer, w1, [HasNext answer]).
Proof.
  unfold hasNextPage, bind, try_catch, await, emit, ret.
  destruct (nextPage_isVisible browser w) as [[isVisible|e] w1].
  - destruct (nextPage_getAttribute browser _ w1) as [[isDisabled|e] w2];
      eexists; eexists; reflexivity.
  - eexists; eexists; reflexivity.
Qed.

(** [goToNextPage] always returns, with one [GoNext] event. *)
Lemma goToNextPage_run (w : W) :
  exists navigated w1,
    goToNextPage browser w = (Returned tt, w1, [GoNext navigated]).
Proof.
  unfold goToNextPage, waitForPageLoad, bind, try_catch, await, emit, ret.
  destruct (nextPageButton_click browser w) as [[[]|e] w1].
  - destruct (page_waitForLoadState browser w1) as [[[]|e] w2];
      eexists; eexists; reflexivity.
  - eexists; eexists; reflexivity.
Qed.

(** A failure while looking for the next-page link reads as "no next page". *)
Lemma hasNextPage_isVisible_throws (w w1 : W) (e : Error) :
  nextPage_isVisible browser w = (Threw e, w1) ->
  hasNextPage browser w = (Returned false, w1, [HasNext false]).
Proof.
  intros V. unfold hasNextPage, bind, try_catch, await, emit, ret.
  rewrite V. reflexivity.
Qed.

Lemma hasNextPage_getAttribute_throws (w w1 w2 : W) (v : bool) (e : Error) :
  nextPage_isVisible browser w = (Got v, w1) ->
  nextPage_getAttribute browser "aria-disabled" w1 = (Threw e, w2) ->
  hasNextPage browser w = (Returned false, w2, [HasNext false]).
Proof.
  intros V A. unfold hasNextPage, bind, try_catch, await, emit, ret.
  rewrite V, A. reflexivity.
Qed.

(** A failure of the click is swallowed: [goToNextPage] returns as it does
    after a navigation, and its caller cannot tell the two apart. *)
Lemma goToNextPage_click_throws (w w1 : W) (e : Error) :
  nextPageButton_click browser w = (Threw e, w1) ->
  goToNextPage browser w = (Returned tt, w1, [GoNext false]).
Proof.
  intros C. unfold goToNextPage, waitForPageLoad, bind, try_catch, await, emit, ret.
  rewrite C. reflexivity.
Qed.

(** ** Lists: extraction, pushing, slicing *)

Lemma extract_loop_accepted (itemElements : list Card) (items : list string) :
  extract_loop maxPrice items itemElements
  = items ++ accepted maxPrice itemElements.
Proof.
  revert items.
  induction itemElements as [|item rest IH]; intros items; cbn.
  - now rewrite app_nil_r.
  - destruct (item_url maxPrice item) as [url|]; rewrite IH; cbn.
    + now rewrite <- app_assoc.
    + reflexivity.
Qed.

Lemma length_app_one (c : list string) (item : string) :
  length (c ++ [item]) = length c + 1.
Proof. unfold length. rewrite List.length_app. cbn. lia. Qed.

Lemma push_items_full (c items : list string) :
  length c >= limit -> push_items limit c items = c.
Proof.
  intros H. destruct items as [|item rest]; cbn; [reflexivity|].
  destruct (length c >=? limit) eqn:E; [reflexivity | lia].
Qed.

Lemma push_items_app (a b c : list string) :
  push_items limit c (a ++ b) = push_items limit (push_items limit c a) b.
Proof.
  revert c. induction a as [|item a IH]; intros c; cbn; [reflexivity|].
  destruct (length c >=? limit) eqn:E.
  - symmetry. apply push_items_full. lia.
  - apply IH.
Qed.

Lemma push_items_firstn (items c : list string) :
  push_items limit c items
  = c ++ firstn (Z.to_nat (limit - length c)) items.
Proof.
  revert c. induction items as [|item rest IH]; intros c; cbn.
  - now rewrite firstn_nil, app_nil_r.
  - destruct (length c >=? limit) eqn:E.
    + replace (Z.to_nat (limit - length c)) with O by lia.
      now rewrite app_nil_r.
    + rewrite IH, length_app_one, <- app_assoc. cbn.
      replace (Z.to_nat (limit - length c))
        with (S (Z.to_nat (limit - (length c + 1)))) by lia.
      reflexivity.
Qed.

Lemma push_items_length (items c : list string) :
  length c <= limit -> length (push_items limit c items) <= limit.
Proof.
  intros H. rewrite push_items_firstn. unfold length in *.
  rewrite List.length_app, length_firstn. lia.
Qed.

Lemma slice0_length {A} (l : list A) (n : Z) :
  0 <= n -> length (slice0 l n) <= n.
Proof.
  intros H. unfold slice0, length.
  destruct (n <? 0) eqn:E; [lia|].
  rewrite length_firstn. lia.
Qed.

Lemma slice0_firstn {A} (l : list A) (n : Z) :
  slice0 (firstn (Z.to_nat n) l) n = firstn (Z.to_nat n) l.
Proof.
  unfold slice0, length.
  destruct (n <? 0) eqn:E.
  - replace (Z.to_nat n) with O by lia. cbn.
    now rewrite firstn_nil.
  - apply firstn_all2. rewrite length_firstn. lia.
Qed.

(** ** The loop, turn by turn *)

Lemma paging_loop_exit (fuel : nat) (collected : list string) (page : Z) (w : W) :
  Turn.guard cfg limit collected page = false ->
  paging_loop browser cfg fuel maxPrice limit collected page w
  = (Returned collected, w, []).
Proof.
  unfold Turn.guard. intros G. destruct fuel; cbn; rewrite G; reflexivity.
Qed.

Lemma paging_loop_starved (collected : list string) (page : Z) (w : W) :
  Turn.guard cfg limit collected page = true ->
  paging_loop browser cfg O maxPrice limit collected page w = (OutOfFuel, w, []).
Proof. unfold Turn.guard. intros G. cbn. rewrite G. reflexivity. Qed.

Lemma paging_loop_turn (fuel : nat) (collected : list string) (page : Z) (w : W) :
  Turn.guard cfg limit collected page = true ->
  Turn.view browser cfg maxPrice limit fuel collected page
    (paging_loop browser cfg (S fuel) maxPrice limit collected page w).
Proof.
  unfold Turn.guard. intros G.
  cbn [paging_loop]. rewrite G. unfold bind at 1.
  destruct (extract_run w) as (found & w1 & ->).
  destruct found as [itemElements|e]; [|constructor].
  rewrite extract_loop_accepted. cbn [app].
  destruct (length _ >=? limit) eqn:E.
  - unfold ret. cbn. constructor. lia.
  - unfold bind at 1.
    destruct (hasNextPage_run w1) as (answer & w2 & ->).
    destruct answer; cbn [negb].
    + unfold bind at 1.
      destruct (goToNextPage_run w2) as (navigated & w3 & ->).
      destruct (paging_loop browser cfg fuel maxPrice limit _ (page + 1) w3)
        as [[c w'] t] eqn:L.
      cbn. apply Turn.next_turn with (w3 := w3); [lia | exact L].
    + unfold ret. cbn. constructor. lia.
Qed.

(** ** Induction over the turns *)

Lemma discovered_fetch (itemElements : list Card) (t : list Event) :
  discovered maxPrice (Fetch (Got itemElements) :: t)
  = accepted maxPrice itemElements ++ discovered maxPrice t.
Proof. reflexivity. Qed.

(** What the loop returns is the accumulator it started from, topped up in
    discovery order. *)
Lemma paging_loop_returned (fuel : nat) :
  forall collected page w r w' t,
    paging_loop browser cfg fuel maxPrice limit collected page w
    = (Returned r, w', t) ->
    r = push_items limit collected (discovered maxPrice t).
Proof.
  induction fuel as [|fuel IH]; intros collected page w r w' t L;
    destruct (Turn.guard cfg limit collected page) eqn:G;
    try (rewrite paging_loop_exit in L by exact G; inversion L; reflexivity).
  - rewrite paging_loop_starved in L by exact G. discriminate.
  - pose proof (paging_loop_turn fuel collected page w G) as V.
    rewrite L in V. inversion V; subst.
    + rewrite discovered_fetch. cbn. now rewrite app_nil_r.
    + rewrite discovered_fetch. cbn. now rewrite app_nil_r.
    + match goal with H : paging_loop _ _ _ _ _ _ _ _ = _ |- _ =>
        apply IH in H; rewrite H end.
      rewrite discovered_fetch. cbn [discovered fetched_pages].
      now rewrite push_items_app.
Qed.


(** With a unit of fuel per page left, the loop never starves. *)
Lemma paging_loop_fuel (fuel : nat) :
  forall collected page w c w' t,
    maxPages - page + 1 <= Z.of_nat fuel ->
    paging_loop browser cfg fuel maxPrice limit collected page w = (c, w', t) ->
    c <> OutOfFuel.
Proof.
  induction fuel as [|fuel IH]; intros collected page w c w' t F L;
    destruct (Turn.guard cfg limit collected page) eqn:G;
    try (rewrite paging_loop_exit in L by exact G; inversion L; discriminate).
  - unfold Turn.guard in G. apply andb_true_iff in G as [_ G].
    fold maxPages in G. lia.
  - pose proof (paging_loop_turn fuel collected page w G) as V.
    rewrite L in V.
    inversion V; subst; try discriminate.
    match goal with H : paging_loop _ _ _ _ _ _ _ _ = _ |- _ =>
      apply IH in H; [exact H | lia] end.
Qed.

(** A run that fills the accumulator ends on the fetch that filled it;
    before it, each fetch was followed by one question and one click. *)
Lemma paging_loop_target_reached (fuel : nat) :
  forall collected page w r w' t,
    length collected < limit ->
    paging_loop browser cfg fuel maxPrice limit collected page w
    = (Returned r, w', t) ->
    length r >= limit ->
    exists t0 itemElements,
      t = t0 ++ [Fetch (Got itemElements)]
      /\ advance_calls t0 = fetches t0 /\ navigations t0 = fetches t0.
Proof.
  induction fuel as [|fuel IH]; intros collected page w r w' t B L R;
    destruct (Turn.guard cfg limit collected page) eqn:G;
    try (rewrite paging_loop_exit in L by exact G; inversion L; subst; lia).
  - rewrite paging_loop_starved in L by exact G. discriminate.
  - pose proof (paging_loop_turn fuel collected page w G) as V.
    rewrite L in V. inversion V; subst.
    + exists [], itemElements. repeat split.
    + lia.
    + match goal with
      | Hlt : length _ < limit, H : paging_loop _ _ _ _ _ _ _ _ = _ |- _ =>
          destruct (IH _ _ _ _ _ _ Hlt H R) as (before & final & -> & A & N)
      end.
      exists (Fetch (Got itemElements) :: HasNext true :: GoNext navigated
                :: before), final.
      cbn. rewrite A, N. repeat split.
Qed.

(** ** The collector *)

Lemma collect_run (w : W) :
  collectItemsWithPaging browser cfg maxPrice limit w
  = let '(c, w', t) :=
      paging_loop browser cfg (Z.to_nat maxPages) maxPrice limit [] 1 w in
    (match c with
     | Returned collected => Returned (slice0 collected limit)
     | Thrown e => Thrown e
     | OutOfFuel => OutOfFuel
     end, w', t).
Proof.
  unfold collectItemsWithPaging, bind, ret. fold maxPages.
  destruct (paging_loop browser cfg (Z.to_nat maxPages) maxPrice limit [] 1 w)
    as [[[collected|e|] w'] t]; try reflexivity.
  now rewrite app_nil_r.
Qed.

Lemma collect_returned (w : W) r w' t :
  collectItemsWithPaging browser cfg maxPrice limit w = (Returned r, w', t) ->
  r = firstn (Z.to_nat limit) (discovered maxPrice t).
Proof.
  rewrite collect_run.
  destruct (paging_loop browser cfg (Z.to_nat maxPages) maxPrice limit [] 1 w)
    as [[[collected|e|] w1] t1] eqn:L; intros H; inversion H; subst.
  apply paging_loop_returned in L. subst collected.
  rewrite push_items_firstn. cbn [app length List.length Z.of_nat].
  rewrite Z.sub_0_r. apply slice0_firstn.
Qed.


Lemma collect_total (w : W) c w' t :
  collectItemsWithPaging browser cfg maxPrice limit w = (c, w', t) ->
  c <> OutOfFuel.
Proof.
  rewrite collect_run.
  destruct (paging_loop browser cfg (Z.to_nat maxPages) maxPrice limit [] 1 w)
    as [[c1 w1] t1] eqn:L; intros H; inversion H; subst.
  apply paging_loop_fuel in L; [|lia].
  destruct c1; [discriminate | discriminate | contradiction].
Qed.

Lemma collect_idle (w : W) :
  Turn.guard cfg limit [] 1 = false ->
  collectItemsWithPaging browser cfg maxPrice limit w = (Returned [], w, []).
Proof.
  intros G. rewrite collect_run, paging_loop_exit by exact G.
  unfold slice0. now rewrite firstn_nil.
Qed.

End Collector.

(** ** Cards *)

Lemma item_url_some (maxPrice : number) (item : Card) (url : string) :
  item_url maxPrice item = Some url ->
  exists priceText,
    price_textContent item = Got (Some priceText)
    /\ link_href item = Got (Some url)
    /\ gt (PriceParser.parse priceText) zero = true
    /\ le (PriceParser.parse priceText) maxPrice = true.
Proof.
  unfold item_url.
  destruct (price_textContent item) as [[priceText|]|e]; try discriminate.
  destruct (negb (truthy (Some priceText))); try discriminate.
  destruct (gt (PriceParser.parse priceText) zero) eqn:G; try discriminate.
  destruct (le (PriceParser.parse priceText) maxPrice) eqn:L; try discriminate.
  cbn [andb].
  destruct (link_href item) as [[u|]|e]; try discriminate.
  destruct (truthy (Some u)); try discriminate.
  intros H; inversion H; subst. exists priceText. auto.
Qed.

Lemma item_url_zero (maxPrice : number) (item : Card) (priceText : string) :
  price_textContent item = Got (Some priceText) ->
  PriceParser.parse priceText = zero ->
  item_url maxPrice item = None.
Proof.
  unfold item_url. intros -> Z0.
  destruct (negb (truthy (Some priceText))); [reflexivity|].
  rewrite Z0. reflexivity.
Qed.

Lemma in_accepted (maxPrice : number) (itemElements : list Card) (url : string) :
  In url (accepted maxPrice itemElements) ->
  exists item, In item itemElements /\ item_url maxPrice item = Some url.
Proof.
  unfold accepted. intros H. apply in_flat_map in H as (item & I & H).
  exists item. split; [exact I|].
  destruct (item_url maxPrice item) as [u|]; cbn in H; [|contradiction].
  destruct H as [->|[]]. reflexivity.
Qed.

Lemma in_fetched_pages (t : list Event) (itemElements : list Card) :
  In itemElements (fetched_pages t) -> In (Fetch (Got itemElements)) t.
Proof.
  induction t as [|ev t IH]; cbn; [auto|].
  destruct ev as [[cs|e]|a|n]; cbn; intros H; auto.
  destruct H as [->|H]; auto.
Qed.

Lemma in_firstn {A : Type} (n : nat) (l : list A) (x : A) :
  In x (firstn n l) -> In x l.
Proof.
  revert l. induction n as [|n IH]; intros [|y l]; cbn; try contradiction.
  intros [->|H]; [left; reflexivity | right; apply IH, H].
Qed.

Lemma slice0_shorter {A : Type} (l : list A) (n : Z) :
  length (slice0 l n) <= length l.
Proof. unfold slice0, length. rewrite length_firstn. lia. Qed.

Lemma slice0_nil {A : Type} (n : Z) : slice0 (@nil A) n = [].
Proof. unfold slice0. apply firstn_nil. Qed.

Lemma fetches_app (a b : list Event) : fetches (a ++ b) = (fetches a + fetches b)%nat.
Proof. induction a as [|[f|x|x] a IH]; cbn; auto. Qed.

Lemma advance_calls_app (a b : list Event) :
  advance_calls (a ++ b) = (advance_calls a + advance_calls b)%nat.
Proof. induction a as [|[f|x|x] a IH]; cbn; auto. Qed.

Lemma navigations_app (a b : list Event) :
  navigations (a ++ b) = (navigations a + navigations b)%nat.
Proof. induction a as [|[f|x|x] a IH]; cbn; auto. Qed.

Lemma extract_run_got {W : Type} (browser : Browser W) (maxPrice : number)
      (w w1 w2 : W) (itemElements : list Card) :
  page_waitForTimeout browser 2000 w = (Got tt, w1) ->
  itemCards_all browser w1 = (Got itemElements, w2) ->
  extractItemsFromCurrentPage browser maxPrice w
  = (Returned (extract_loop maxPrice [] itemElements), w2,
     [Fetch (Got itemElements)]).
Proof.
  intros T A.
  unfold extractItemsFromCurrentPage, bind, settle, await, emit, resume, ret.
  rewrite T, A. reflexivity.
Qed.

(* ================================================================= *)
(** * The scenarios of the specification, run on the scripted browser *)

Local Open Scope string_scope.

(** Scenario A: one page, no next page; the card at 300 is over the ceiling. *)
Example scenario_a_run :
  collectItemsWithPaging Script.browser (Script.with_maxPages 3) (of_Z 100) 5
                         Script.scenario_a
  = (Returned ["a"; "c"], Script.scenario_a,
     [Fetch (Got [Script.card "50" "a"; Script.card "300" "b";
                  Script.card "10" "c"]);
      HasNext false]).
Proof. vm_compute. reflexivity. Qed.

(** Scenario B: two pages, one identifier each. *)
Example scenario_b_run :
  collectItemsWithPaging Script.browser (Script.with_maxPages 5) (of_Z 100) 2
                         Script.scenario_b
  = (Returned ["x"; "y"],
     {| Script.pages := Script.pages Script.scenario_b; Script.current := 1 |},
     [Fetch (Got [Script.card "20" "x"]); HasNext true; GoNext true;
      Fetch (Got [Script.card "30" "y"])]).
Proof. vm_compute. reflexivity. Qed.

(** Scenario D: the second page is never extracted, but the browser is
    left on it. *)
Example scenario_d_run :
  collectItemsWithPaging Script.browser (Script.with_maxPages 1) (of_Z 100) 5
                         Script.scenario_d
  = (Returned [],
     {| Script.pages := Script.pages Script.scenario_d; Script.current := 1 |},
     [Fetch (Got [Script.card "300" "b"]); HasNext true; GoNext true]).
Proof. vm_compute. reflexivity. Qed.

(** The public entry point on scenario B, with the default [limit = 5]. *)
Example search_scenario_b_run :
  searchItemsByNameUnderPrice Script.browser config "cable" (of_Z 100) None
                              Script.scenario_b
  = (Returned ["x"; "y"],
     {| Script.pages := Script.pages Script.scenario_b; Script.current := 1 |},
     [Fetch (Got [Script.card "20" "x"]); HasNext true; GoNext true;
      Fetch (Got [Script.card "30" "y"]); HasNext false]).
Proof. vm_compute. reflexivity. Qed.

(** Prices as the site prints them. *)
Example parse_formats :
  PriceParser.parse "$50.99" = S754_finite false 7176204531238175 (-47)
  /\ PriceParser.parse "$1,234.56" = of_decimal 123456 2
  /\ PriceParser.parse "US $999.00" = of_Z 999
  /\ PriceParser.parse "$5.00 to $10.00" = of_decimal 50010 4
  /\ PriceParser.parse "Free" = zero
  /\ PriceParser.parse "-5" = of_Z 5.
Proof. vm_compute. repeat split. Qed.

(* ================================================================= *)
(** * The claims *)

(** C1.  For a request with a target count [limit >= 0], the collector never
    runs out of turns, and the sequence it returns has at most [limit]
    elements, whatever the page source holds. *)
Theorem collector_length_at_most_limit
        {W : Type} (browser : Browser W) (cfg : Config.t)
        (maxPrice : number) (limit : Z) (w : W) :
  0 <= limit ->
  match collectItemsWithPaging browser cfg maxPrice limit w with
  | (Returned r, _, _) => length r <= limit
  | (Thrown _, _, _) => True
  | (OutOfFuel, _, _) => False
  end.
Proof.
  intros L.
  destruct (collectItemsWithPaging browser cfg maxPrice limit w)
    as [[[r|e|] w'] t] eqn:E.
  - apply collect_returned in E. subst r.
    unfold length. rewrite length_firstn. lia.
  - exact I.
  - apply collect_total in E. apply E. reflexivity.
Qed.

Lemma collector_length_at_most_limit_witness :
  0 <= 1 /\
  match collectItemsWithPaging Script.browser config (of_Z 100) 1
                               Script.scenario_c with
  | (Returned r, _, _) => length r <= 1
  | (Thrown _, _, _) => True
  | (OutOfFuel, _, _) => False
  end.
Proof.
  split; [lia|].
  apply (collector_length_at_most_limit
           Script.browser config (of_Z 100) 1 Script.scenario_c).
  lia.
Defined.

(** C2.  Every identifier the collector returns is the link of a card of a
    fetched page whose price text parses to a price [p] with [0 < p] and
    [p <= maxPrice]; and a card whose price parses to exactly [0] is never
    accepted. *)
Theorem collector_price_filter
        {W : Type} (browser : Browser W) (cfg : Config.t)
        (maxPrice : number) (limit : Z) (w w' : W)
        (r : list string) (t : list Event) :
  collectItemsWithPaging browser cfg maxPrice limit w = (Returned r, w', t) ->
  (forall url, In url r ->
     exists itemElements item priceText,
       In (Fetch (Got itemElements)) t
       /\ In item itemElements
       /\ price_textContent item = Got (Some priceText)
       /\ link_href item = Got (Some url)
       /\ lt zero (PriceParser.parse priceText) = true
       /\ le (PriceParser.parse priceText) maxPrice = true)
  /\ (forall item priceText,
        price_textContent item = Got (Some priceText) ->
        PriceParser.parse priceText = zero ->
        item_url maxPrice item = None /\ accepted maxPrice [item] = []).
Proof.
  intros E. split.
  - intros url I.
    apply collect_returned in E. subst r.
    apply in_firstn in I.
    unfold discovered in I. apply in_flat_map in I as (itemElements & F & A).
    apply in_fetched_pages in F.
    apply in_accepted in A as (item & Ii & U).
    apply item_url_some in U as (priceText & P & H & G & L).
    exists itemElements, item, priceText. repeat split; assumption.
  - intros item priceText P Z0.
    pose proof (item_url_zero maxPrice item priceText P Z0) as N.
    split; [exact N|]. unfold accepted. cbn. now rewrite N.
Qed.

Lemma collector_price_filter_witness :
  (forall url, In url ["a"; "c"] ->
     exists itemElements item priceText,
       In (Fetch (Got itemElements))
          (snd (collectItemsWithPaging Script.browser (Script.with_maxPages 3)
                                       (of_Z 100) 5 Script.scenario_a))
       /\ In item itemElements
       /\ price_textContent item = Got (Some priceText)
       /\ link_href item = Got (Some url)
       /\ lt zero (PriceParser.parse priceText) = true
       /\ le (PriceParser.parse priceText) (of_Z 100) = true)
  /\ (forall item priceText,
        price_textContent item = Got (Some priceText) ->
        PriceParser.parse priceText = zero ->
        item_url (of_Z 100) item = None /\ accepted (of_Z 100) [item] = []).
Proof.
  apply (collector_price_filter
           Script.browser (Script.with_maxPages 3) (of_Z 100) 5
           Script.scenario_a Script.scenario_a).
  vm_compute. reflexivity.
Defined.



(** C7.  The result is the first [limit] identifiers of the discovery order:
    the accepted links of the first fetched page in that page's card order,
    then those of the second fetched page, and so on.  Hence an identifier of
    an earlier page precedes those of a later page, and a page's identifiers
    keep their order. *)
Theorem collector_discovery_order
        {W : Type} (browser : Browser W) (cfg : Config.t)
        (maxPrice : number) (limit : Z) (w w' : W)
        (r : list string) (t : list Event) :
  collectItemsWithPaging browser cfg maxPrice limit w = (Returned r, w', t) ->
  r = firstn (Z.to_nat limit)
             (flat_map (accepted maxPrice) (fetched_pages t))
  /\ exists rest, flat_map (accepted maxPrice) (fetched_pages t) = (r ++ rest)%list.
Proof.
  intros E. apply collect_returned in E. unfold discovered in E.
  split; [exact E|].
  exists (skipn (Z.to_nat limit) (flat_map (accepted maxPrice) (fetched_pages t))).
  rewrite E. symmetry. apply firstn_skipn.
Qed.

Lemma collector_discovery_order_witness :
  ["x"; "y"]
  = firstn (Z.to_nat 2)
      (flat_map (accepted (of_Z 100))
         (fetched_pages
            (snd (collectItemsWithPaging Script.browser (Script.with_maxPages 5)
                                         (of_Z 100) 2 Script.scenario_b))))
  /\ exists rest,
      flat_map (accepted (of_Z 100))
         (fetched_pages
            (snd (collectItemsWithPaging Script.browser (Script.with_maxPages 5)
                                         (of_Z 100) 2 Script.scenario_b)))
      = (["x"; "y"] ++ rest)%list.
Proof.
  apply (collector_discovery_order
           Script.browser (Script.with_maxPages 5) (of_Z 100) 2
           Script.scenario_b
           (snd (fst (collectItemsWithPaging
                        Script.browser (Script.with_maxPages 5)
                        (of_Z 100) 2 Script.scenario_b)))).
  vm_compute. reflexivity.
Defined.

(** C9.  [PriceParser.parse] returns a number [p] with [0 <= p] for every
    string (so never NaN and never a negative price); it returns exactly [0]
    for the empty string and for every string without a decimal digit. *)
Theorem parse_nonnegative (priceText : string) :
  le zero (PriceParser.parse priceText) = true
  /\ PriceParser.parse "" = zero
  /\ (PriceParser.has_digit priceText = false ->
      PriceParser.parse priceText = zero).
Proof.
  split; [|split].
  - apply signed_nonneg_le.
    destruct (parse_cases priceText) as [E | [E N]].
    + rewrite E. reflexivity.
    + rewrite E in *. apply parseFloat_sign, N.
  - reflexivity.
  - intros D. unfold PriceParser.parse.
    destruct priceText as [|c s]; [reflexivity|].
    rewrite (parseFloat_only_dots _ (replace_without_digit _ D)). reflexivity.
Qed.

Lemma parse_nonnegative_witness :
  le zero (PriceParser.parse "N/A...") = true
  /\ PriceParser.parse "" = zero
  /\ (PriceParser.has_digit "N/A..." = false ->
      PriceParser.parse "N/A..." = zero).
Proof. exact (parse_nonnegative "N/A..."). Defined.

(** C10.  With [limit <= 0] the collector returns the empty sequence: it
    fetches no page, asks for no next page, leaves the browser as it was and
    throws nothing. *)
Theorem collector_nonpositive_limit
        {W : Type} (browser : Browser W) (cfg : Config.t)
        (maxPrice : number) (limit : Z) (w : W) :
  limit <= 0 ->
  collectItemsWithPaging browser cfg maxPrice limit w = (Returned [], w, []).
Proof.
  intros L. apply collect_idle. unfold Turn.guard.
  apply andb_false_iff. left. cbn. lia.
Qed.

Lemma collector_nonpositive_limit_witness :
  -3 <= 0 /\
  collectItemsWithPaging Script.browser config (of_Z 100) (-3) Script.scenario_b
  = (Returned [], Script.scenario_b, []).
Proof.
  split; [lia|].
  apply (collector_nonpositive_limit
           Script.browser config (of_Z 100) (-3) Script.scenario_b).
  lia.
Defined.

(** C8.  A run that returns a full result ([limit > 0] identifiers) ends with
    the fetch of the page that completed it: nothing is asked of the pager
    after that page, and before it every fetch was followed by exactly one
    question.  In scenario C ([limit = 1], first page with "p" at 5 and "q" at
    6) the result is ["p"] after one fetch, the pager is never used and the
    browser stays on the first page. *)
Theorem collector_stops_when_target_reached
        {W : Type} (browser : Browser W) (cfg : Config.t)
        (maxPrice : number) (limit : Z) (w w' : W)
        (r : list string) (t : list Event) :
  (0 < limit ->
   collectItemsWithPaging browser cfg maxPrice limit w = (Returned r, w', t) ->
   length r >= limit ->
   exists t0 itemElements,
     t = (t0 ++ [Fetch (Got itemElements)])%list
     /\ fetches t = S (advance_calls t)
     /\ fetches t = S (navigations t))
  /\ collectItemsWithPaging Script.browser config (of_Z 100) 1 Script.scenario_c
     = (Returned ["p"], Script.scenario_c,
        [Fetch (Got [Script.card "5" "p"; Script.card "6" "q"])]).
Proof.
  split; [|vm_compute; reflexivity].
  intros P E R. rewrite collect_run in E.
  destruct (paging_loop browser cfg _ maxPrice limit [] 1 w)
    as [[[collected|e|] w1] t1] eqn:L; inversion E; subst.
  pose proof (slice0_shorter collected limit) as S.
  destruct (paging_loop_target_reached
              browser cfg maxPrice limit
              (Z.to_nat (Config.maxPages (Config.pagination cfg))) [] 1 w
              collected w' t) as (t0 & itemElements & -> & A & N);
    [cbn; lia | exact L | lia |].
  exists t0, itemElements. split; [reflexivity|].
  rewrite fetches_app, advance_calls_app, navigations_app. cbn. lia.
Qed.

Lemma collector_stops_when_target_reached_witness :
  0 < 2
  /\ length ["x"; "y"] >= 2
  /\ exists t0 itemElements,
      [Fetch (Got [Script.card "20" "x"]); HasNext true; GoNext true;
       Fetch (Got [Script.card "30" "y"])]
      = (t0 ++ [Fetch (Got itemElements)])%list
      /\ (2 = S (advance_calls
                   [Fetch (Got [Script.card "20" "x"]); HasNext true;
                    GoNext true; Fetch (Got [Script.card "30" "y"])]))%nat
      /\ (2 = S (navigations
                   [Fetch (Got [Script.card "20" "x"]); HasNext true;
                    GoNext true; Fetch (Got [Script.card "30" "y"])]))%nat.
Proof.
  split; [lia | split; [cbn; lia|]].
  apply (proj1 (collector_stops_when_target_reached
                  Script.browser (Script.with_maxPages 5) (of_Z 100) 2
                  Script.scenario_b
                  {| Script.pages := Script.pages Script.scenario_b;
                     Script.current := 1 |}
                  ["x"; "y"]
                  [Fetch (Got [Script.card "20" "x"]); HasNext true;
                   GoNext true; Fetch (Got [Script.card "30" "y"])])).
  - lia.
  - vm_compute. reflexivity.
  - cbn. lia.
Defined.

(** C3, as stated, fails.  With [maxPages = 1], nothing under the ceiling on
    page 1 and a working next button, the collector returns [[]] after one
    fetch, having asked for the next page and clicked through to it. *)
Lemma advance_called_at_page_ceiling :
  ~ Stated.stops_without_advancing
      Script.browser (Script.with_maxPages 1) (of_Z 100) 5 Script.scenario_d.
Proof.
  unfold Stated.stops_without_advancing. rewrite scenario_d_run.
  intros H. specialize (H [] eq_refl). cbn in H.
  assert (0 < 5) as P by lia. specialize (H P). discriminate.
Qed.

(** C3, amended.  When the loop is entered with the page counter at
    [maxPages] and the accumulator below the target, it fetches that page and
    no other.  If the fetch throws, so does the loop.  If the page fills the
    accumulator, the loop returns at once.  If the accumulator is still below
    the target, the pager is called once more, [hasNextPage] and, when it
    answers yes, [goToNextPage], and the loop then returns the accumulator
    as that page left it.  With [maxPages = 1] and a first page that offers
    nothing under the ceiling, the collector returns [[]]: it fetches that
    page only, and the one call it makes to the pager may leave the browser
    on the second page, which is never fetched. *)
Theorem collector_stops_at_page_ceiling
        {W : Type} (browser : Browser W) (cfg : Config.t)
        (maxPrice : number) (limit : Z) :
  (forall fuel collected w c w' t,
     length collected < limit ->
     paging_loop browser cfg (S fuel) maxPrice limit collected
                 (Config.maxPages (Config.pagination cfg)) w = (c, w', t) ->
     (exists e, c = Thrown e /\ t = [Fetch (Threw e)])
     \/ exists itemElements,
          c = Returned (push_items limit collected
                                   (accepted maxPrice itemElements))
          /\ ((length (push_items limit collected
                                  (accepted maxPrice itemElements)) >= limit
               /\ t = [Fetch (Got itemElements)])
              \/ (length (push_items limit collected
                                     (accepted maxPrice itemElements)) < limit
                  /\ (t = [Fetch (Got itemElements); HasNext false]
                      \/ exists navigated,
                           t = [Fetch (Got itemElements); HasNext true;
                                GoNext navigated]))))
  /\ (forall w w1 w2 itemElements,
        Config.maxPages (Config.pagination cfg) = 1 ->
        page_waitForTimeout browser 2000 w = (Got tt, w1) ->
        itemCards_all browser w1 = (Got itemElements, w2) ->
        accepted maxPrice itemElements = [] ->
        exists w' t,
          collectItemsWithPaging browser cfg maxPrice limit w
          = (Returned [], w', t)
          /\ ((limit <= 0 /\ t = [])
              \/ (0 < limit
                  /\ (t = [Fetch (Got itemElements); HasNext false]
                      \/ exists navigated,
                           t = [Fetch (Got itemElements); HasNext true;
                                GoNext navigated])))).
Proof.
  split.
  - intros fuel collected w c w' t B L.
    assert (Turn.guard cfg limit collected
                       (Config.maxPages (Config.pagination cfg)) = true) as G.
    { unfold Turn.guard. apply andb_true_iff. split; lia. }
    pose proof (paging_loop_turn browser cfg maxPrice limit fuel collected _ w G)
      as V.
    rewrite L in V. inversion V; subst.
    + left. exists e. split; reflexivity.
    + right. exists itemElements. split; [reflexivity|]. left.
      split; [assumption | reflexivity].
    + right. exists itemElements. split; [reflexivity|]. right.
      split; [assumption|]. left. reflexivity.
    + match goal with H : paging_loop _ _ _ _ _ _ _ _ = _ |- _ =>
        rewrite paging_loop_exit in H
          by (unfold Turn.guard; apply andb_false_iff; right; lia);
        inversion H; subst end.
      right. exists itemElements. split; [reflexivity|]. right.
      split; [assumption|]. right. exists navigated. reflexivity.
  - intros w w1 w2 itemElements M T A N.
    destruct (Z.leb limit 0) eqn:Lim.
    + exists w, []. split; [|left; split; [lia | reflexivity]].
      apply collect_idle. unfold Turn.guard.
      apply andb_false_iff. left. cbn. lia.
    + rewrite collect_run, M.
      change (Z.to_nat 1) with 1%nat.
      cbn [paging_loop]. rewrite M.
      replace (length [] <? limit)%Z with true by (cbn; lia).
      cbn [andb Z.leb Z.compare Pos.compare Pos.compare_cont].
      unfold bind at 1.
      rewrite (extract_run_got browser maxPrice w w1 w2 itemElements T A).
      rewrite extract_loop_accepted, N. cbn [app push_items].
      replace (length [] >=? limit)%Z with false by (cbn; lia).
      unfold bind at 1.
      destruct (hasNextPage_run browser w2) as (answer & w3 & ->).
      destruct answer; cbn [negb].
      * unfold bind at 1.
        destruct (goToNextPage_run browser w3) as (navigated & w4 & ->).
        cbn. rewrite andb_false_r. cbn. rewrite slice0_nil.
        eexists; eexists; split; [reflexivity|].
        right. split; [lia|]. right. exists navigated. reflexivity.
      * cbn. rewrite slice0_nil.
        eexists; eexists; split; [reflexivity|].
        right. split; [lia|]. left. reflexivity.
Qed.

Lemma collector_stops_at_page_ceiling_witness :
  (length (@nil string) < 5
   /\ ((exists e,
          @Returned (list string) [] = Thrown e
          /\ [Fetch (Got [Script.card "300" "b"]); HasNext true; GoNext true]
             = [Fetch (Threw e)])
       \/ exists itemElements,
            Returned [] = Returned (push_items 5 [] (accepted (of_Z 100)
                                                              itemElements))
            /\ ((length (push_items 5 [] (accepted (of_Z 100) itemElements))
                 >= 5
                 /\ [Fetch (Got [Script.card "300" "b"]); HasNext true;
                     GoNext true]
                    = [Fetch (Got itemElements)])
                \/ (length (push_items 5 [] (accepted (of_Z 100) itemElements))
                    < 5
                    /\ ([Fetch (Got [Script.card "300" "b"]); HasNext true;
                         GoNext true]
                        = [Fetch (Got itemElements); HasNext false]
                        \/ exists navigated,
                             [Fetch (Got [Script.card "300" "b"]);
                              HasNext true; GoNext true]
                             = [Fetch (Got itemElements); HasNext true;
                                GoNext navigated])))))
  /\ (exists w' t,
        collectItemsWithPaging Script.browser (Script.with_maxPages 1)
                               (of_Z 100) 5 Script.scenario_d
        = (Returned [], w', t)
        /\ ((5 <= 0 /\ t = [])
            \/ (0 < 5
                /\ (t = [Fetch (Got [Script.card "300" "b"]); HasNext false]
                    \/ exists navigated,
                         t = [Fetch (Got [Script.card "300" "b"]);
                              HasNext true; GoNext navigated])))).
Proof.
  destruct (collector_stops_at_page_ceiling
              Script.browser (Script.with_maxPages 1) (of_Z 100) 5)
    as [P1 P2].
  split.
  - split; [cbn; lia|].
    apply (P1 O [] Script.scenario_d
              (Returned [])
              {| Script.pages := Script.pages Script.scenario_d;
                 Script.current := 1 |}).
    + cbn; lia.
    + vm_compute. reflexivity.
  - apply (P2 Script.scenario_d Script.scenario_d Script.scenario_d
              [Script.card "300" "b"]); reflexivity.
Defined.

(** C4 fails on the code.  One page with one card at $5.00 linking to "u",
    a next button that is visible and enabled, and a click that times out:
    [goToNextPage] swallows the exception, the loop goes on, and the same
    page is extracted a second time; the browser never left it, and the
    result holds "u" twice. *)
Theorem failed_navigation_refetches_page :
  collectItemsWithPaging Script.browser config (of_Z 100) 2 Script.stuck
  = (Returned ["u"; "u"], Script.stuck,
     [Fetch (Got [Script.card "$5.00" "u"]); HasNext true; GoNext false;
      Fetch (Got [Script.card "$5.00" "u"])]).
Proof. vm_compute. reflexivity. Qed.

(** C5, as stated, fails.  With [limit = 0] the collector returns normally:
    there is no configuration error, here or anywhere in the page object. *)
Lemma no_configuration_error :
  ~ Stated.surfaces_configuration_error
      Script.browser config (of_Z 100) 0 Script.scenario_b.
Proof.
  unfold Stated.surfaces_configuration_error.
  replace (collectItemsWithPaging Script.browser config (of_Z 100) 0
                                  Script.scenario_b)
    with (@Returned (list string) [], Script.scenario_b, @nil Event)
    by (vm_compute; reflexivity).
  intros [[e H] _]. discriminate.
Qed.

(** C5, amended.  With [limit <= 0] or [maxPages < 1] the collector returns
    the empty sequence at once: no error, no fetch, no question to the pager,
    the browser untouched. *)
Theorem degenerate_request_returns_empty
        {W : Type} (browser : Browser W) (cfg : Config.t)
        (maxPrice : number) (limit : Z) (w : W) :
  limit <= 0 \/ Config.maxPages (Config.pagination cfg) < 1 ->
  collectItemsWithPaging browser cfg maxPrice limit w = (Returned [], w, [])
  /\ ~ Stated.surfaces_configuration_error browser cfg maxPrice limit w.
Proof.
  intros D.
  assert (collectItemsWithPaging browser cfg maxPrice limit w
          = (Returned [], w, [])) as E.
  { apply collect_idle. unfold Turn.guard. apply andb_false_iff.
    destruct D as [D|D]; [left; cbn; lia | right; lia]. }
  split; [exact E|].
  unfold Stated.surfaces_configuration_error. rewrite E.
  intros [[e H] _]. discriminate.
Qed.

Lemma degenerate_request_returns_empty_witness :
  (5 <= 0 \/ Config.maxPages (Config.pagination (Script.with_maxPages 0)) < 1)
  /\ collectItemsWithPaging Script.browser (Script.with_maxPages 0)
                            (of_Z 100) 5 Script.scenario_b
     = (Returned [], Script.scenario_b, [])
  /\ ~ Stated.surfaces_configuration_error
         Script.browser (Script.with_maxPages 0) (of_Z 100) 5 Script.scenario_b.
Proof.
  split; [right; cbn; lia|].
  apply (degenerate_request_returns_empty
           Script.browser (Script.with_maxPages 0) (of_Z 100) 5
           Script.scenario_b).
  right. cbn. lia.
Defined.

(* ================================================================= *)
(** * Further properties of the page objects *)

(** ** The collector's call record *)

Section Record_of_calls.
Context {W : Type}.
Variable browser : Browser W.
Variable cfg : Config.t.
Variable maxPrice : number.
Variable limit : Z.

(** Only a fetch can make the loop throw, and then the fetch is its last
    call. *)
Lemma paging_loop_thrown (fuel : nat) :
  forall collected page w e w' t,
    paging_loop browser cfg fuel maxPrice limit collected page w
    = (Thrown e, w', t) ->
    exists t0, t = (t0 ++ [Fetch (Threw e)])%list.
Proof.
  induction fuel as [|fuel IH]; intros collected page w e w' t L;
    destruct (Turn.guard cfg limit collected page) eqn:G;
    try (rewrite paging_loop_exit in L by exact G; discriminate).
  - rewrite paging_loop_starved in L by exact G. discriminate.
  - pose proof (paging_loop_turn browser cfg maxPrice limit fuel collected page w G)
      as V.
    rewrite L in V. inversion V; subst.
    + exists []. reflexivity.
    + match goal with H : paging_loop _ _ _ _ _ _ _ _ = _ |- _ =>
        apply IH in H; destruct H as (before & ->) end.
      exists (Fetch (Got itemElements) :: HasNext true :: GoNext navigated
                :: before).
      reflexivity.
Qed.

(** The pager is asked at most once per fetch, and clicked only after it
    said yes. *)
Lemma paging_loop_pager (fuel : nat) :
  forall collected page w c w' t,
    paging_loop browser cfg fuel maxPrice limit collected page w = (c, w', t) ->
    (navigations t <= advance_calls t)%nat
    /\ (advance_calls t <= fetches t)%nat
    /\ (fetches t <= S (navigations t))%nat.
Proof.
  induction fuel as [|fuel IH]; intros collected page w c w' t L;
    destruct (Turn.guard cfg limit collected page) eqn:G;
    try (rewrite paging_loop_exit in L by exact G; inversion L; cbn; lia).
  - rewrite paging_loop_starved in L by exact G. inversion L. cbn. lia.
  - pose proof (paging_loop_turn browser cfg maxPrice limit fuel collected page w G)
      as V.
    rewrite L in V. inversion V; subst; cbn; try lia.
    match goal with H : paging_loop _ _ _ _ _ _ _ _ = _ |- _ =>
      apply IH in H end.
    lia.
Qed.

(** Why a run stopped short of the target: the pager said no, or the page
    counter passed [maxPages] after as many fetches as pages were left. *)
Lemma paging_loop_short (fuel : nat) :
  forall collected page w r w' t,
    paging_loop browser cfg fuel maxPrice limit collected page w
    = (Returned r, w', t) ->
    length r < limit ->
    (exists t0, t = (t0 ++ [HasNext false])%list)
    \/ (Z.of_nat (fetches t)
        = Z.max 0 (Config.maxPages (Config.pagination cfg) - page + 1)
        /\ navigations t = fetches t).
Proof.
  induction fuel as [|fuel IH]; intros collected page w r w' t L S;
    destruct (Turn.guard cfg limit collected page) eqn:G.
  - rewrite paging_loop_starved in L by exact G. discriminate.
  - rewrite paging_loop_exit in L by exact G. inversion L; subst.
    right. unfold Turn.guard in G. apply andb_false_iff in G as [G|G];
      cbn; split; try reflexivity; lia.
  - pose proof (paging_loop_turn browser cfg maxPrice limit fuel collected page w G)
      as V.
    rewrite L in V.
    unfold Turn.guard in G. apply andb_true_iff in G as [_ G].
    inversion V; subst.
    + lia.
    + left. exists [Fetch (Got itemElements)]. reflexivity.
    + match goal with H : paging_loop _ _ _ _ _ _ _ _ = _ |- _ =>
        apply IH in H; [|exact S]; destruct H as [(before & ->) | [F N]] end.
      * left.
        exists (Fetch (Got itemElements) :: HasNext true :: GoNext navigated
                  :: before).
        reflexivity.
      * right. cbn [fetches navigations]. split; [lia|]. now rewrite N.
  - rewrite paging_loop_exit in L by exact G. inversion L; subst.
    right. unfold Turn.guard in G. apply andb_false_iff in G as [G|G];
      cbn; split; try reflexivity; lia.
Qed.

(** The record of the loop has the shape of [Paging.paged]. *)
Lemma paging_loop_paged (fuel : nat) :
  forall collected page w c w' t,
    paging_loop browser cfg fuel maxPrice limit collected page w = (c, w', t) ->
    Paging.paged t.
Proof.
  induction fuel as [|fuel IH]; intros collected page w c w' t L;
    destruct (Turn.guard cfg limit collected page) eqn:G;
    try (rewrite paging_loop_exit in L by exact G; inversion L; constructor).
  - rewrite paging_loop_starved in L by exact G. inversion L. constructor.
  - pose proof (paging_loop_turn browser cfg maxPrice limit fuel collected page w G)
      as V.
    rewrite L in V. inversion V; subst; try constructor.
    match goal with H : paging_loop _ _ _ _ _ _ _ _ = _ |- _ =>
      exact (IH _ _ _ _ _ _ H) end.
Qed.

End Record_of_calls.

Lemma paged_head (t : list Event) (x : Event) (b : list Event) :
  Paging.paged t -> t = x :: b -> exists found, x = Fetch found.
Proof.
  intros P E. destruct P; inversion E; subst; eauto.
Qed.

(** In a record of that shape, what comes directly before each call. *)
Lemma paged_adjacent (t : list Event) :
  Paging.paged t ->
  forall a x y b,
    t = (a ++ x :: y :: b)%list ->
    match y with
    | Fetch _ => exists navigated, x = GoNext navigated
    | HasNext _ => exists itemElements, x = Fetch (Got itemElements)
    | GoNext _ => x = HasNext true
    end.
Proof.
  induction 1 as [|found|itemElements|itemElements navigated t P IH];
    intros a x y b E.
  - destruct a; discriminate.
  - destruct a as [|? [|? ?]]; discriminate.
  - destruct a as [|? [|? [|? ?]]]; inversion E; subst. eauto.
  - destruct a as [|e1 [|e2 [|e3 a]]]; inversion E; subst.
    + eauto.
    + reflexivity.
    + destruct (paged_head _ _ _ P eq_refl) as (found & ->). eauto.
    + eapply IH. reflexivity.
Qed.

(** X1.  An exception leaves the collector only from the fetch of a page: the
    call record of a throwing run ends with the fetch that threw it.  No
    failure of [hasNextPage] or [goToNextPage] ever reaches the caller. *)
Theorem collector_throws_only_from_fetch
        {W : Type} (browser : Browser W) (cfg : Config.t)
        (maxPrice : number) (limit : Z) (w w' : W)
        (e : Error) (t : list Event) :
  collectItemsWithPaging browser cfg maxPrice limit w = (Thrown e, w', t) ->
  exists t0, t = (t0 ++ [Fetch (Threw e)])%list.
Proof.
  rewrite collect_run.
  destruct (paging_loop browser cfg _ maxPrice limit [] 1 w)
    as [[[collected|e1|] w1] t1] eqn:L; intros H; inversion H; subst.
  exact (paging_loop_thrown browser cfg maxPrice limit _ _ _ _ _ _ _ L).
Qed.

Lemma collector_throws_only_from_fetch_witness :
  exists t0,
    [Fetch (Got [Script.card "20" "x"]); HasNext true; GoNext true;
     Fetch (Threw TargetClosedError)]
    = (t0 ++ [Fetch (Threw TargetClosedError)])%list.
Proof.
  apply (collector_throws_only_from_fetch
           Closing.browser config (of_Z 100) 3 Closing.dangling
           {| Script.pages := Script.pages Closing.dangling;
              Script.current := 1 |}).
  vm_compute. reflexivity.
Defined.

(** X2.  In every run the call record starts with a fetch; each
    [hasNextPage] call comes directly after a fetch that succeeded, each
    [goToNextPage] call directly after a [hasNextPage] that answered yes,
    and each fetch but the first directly after a [goToNextPage] call.  So
    the pager is asked at most once per fetched page and the button is
    clicked at most once per question. *)
Theorem collector_pager_discipline
        {W : Type} (browser : Browser W) (cfg : Config.t)
        (maxPrice : number) (limit : Z) (w w' : W)
        (c : Completion (list string)) (t : list Event) :
  collectItemsWithPaging browser cfg maxPrice limit w = (c, w', t) ->
  (forall x b, t = x :: b -> exists found, x = Fetch found)
  /\ (forall a x y b,
        t = (a ++ x :: y :: b)%list ->
        match y with
        | Fetch _ => exists navigated, x = GoNext navigated
        | HasNext _ => exists itemElements, x = Fetch (Got itemElements)
        | GoNext _ => x = HasNext true
        end)
  /\ (navigations t <= advance_calls t)%nat
  /\ (advance_calls t <= fetches t)%nat
  /\ (fetches t <= S (navigations t))%nat.
Proof.
  rewrite collect_run.
  destruct (paging_loop browser cfg _ maxPrice limit [] 1 w)
    as [[c1 w1] t1] eqn:L; intros H; inversion H; subst.
  pose proof (paging_loop_paged browser cfg maxPrice limit _ _ _ _ _ _ _ L) as P.
  split; [|split].
  - intros x b E. exact (paged_head _ _ _ P E).
  - exact (paged_adjacent _ P).
  - exact (paging_loop_pager browser cfg maxPrice limit _ _ _ _ _ _ _ L).
Qed.

Lemma collector_pager_discipline_witness :
  (exists found, Fetch (Got [Script.card "20" "x"]) = Fetch found)
  /\ (exists navigated, GoNext true = GoNext navigated)
  /\ HasNext true = HasNext true
  /\ (1 <= 1)%nat /\ (1 <= 2)%nat /\ (2 <= 2)%nat.
Proof.
  destruct (collector_pager_discipline
              Script.browser (Script.with_maxPages 5) (of_Z 100) 2
              Script.scenario_b
              {| Script.pages := Script.pages Script.scenario_b;
                 Script.current := 1 |}
              (Returned ["x"; "y"])
              [Fetch (Got [Script.card "20" "x"]); HasNext true; GoNext true;
               Fetch (Got [Script.card "30" "y"])])
    as (Head & Adjacent & Counts).
  - vm_compute. reflexivity.
  - split; [exact (Head _ _ eq_refl)|].
    split;
      [exact (Adjacent [Fetch (Got [Script.card "20" "x"]); HasNext true]
                       (GoNext true) (Fetch (Got [Script.card "30" "y"])) []
                       eq_refl)|].
    split;
      [exact (Adjacent [Fetch (Got [Script.card "20" "x"])]
                       (HasNext true) (GoNext true)
                       [Fetch (Got [Script.card "30" "y"])] eq_refl)|].
    exact Counts.
Defined.

(** X3.  For an integer [limit]: a result shorter than the target is
    complete: it holds every accepted link of every fetched page, in discovery
    order; nothing that was found is dropped.  ([limit] is an integer
    throughout this development; a fractional one is not covered.) *)
Theorem collector_short_result_is_complete
        {W : Type} (browser : Browser W) (cfg : Config.t)
        (maxPrice : number) (limit : Z) (w w' : W)
        (r : list string) (t : list Event) :
  collectItemsWithPaging browser cfg maxPrice limit w = (Returned r, w', t) ->
  length r < limit ->
  r = flat_map (accepted maxPrice) (fetched_pages t).
Proof.
  intros E S. apply collect_returned in E. unfold discovered in E.
  subst r. apply firstn_all2.
  unfold length in S. rewrite length_firstn in S. lia.
Qed.

Lemma collector_short_result_is_complete_witness :
  ["a"; "c"]
  = flat_map (accepted (of_Z 100))
      (fetched_pages
         [Fetch (Got [Script.card "50" "a"; Script.card "300" "b";
                      Script.card "10" "c"]);
          HasNext false]).
Proof.
  apply (collector_short_result_is_complete
           Script.browser (Script.with_maxPages 3) (of_Z 100) 5
           Script.scenario_a Script.scenario_a).
  - vm_compute. reflexivity.
  - cbn. lia.
Defined.

(** X4.  For an integer [limit]: a run that returns fewer than [limit]
    identifiers stopped for one of two reasons: its last call is a [hasNextPage] that answered no, or it
    fetched as many pages as [maxPages] allows (none when [maxPages < 1]) and
    clicked through after each of them. *)
Theorem collector_stop_reason
        {W : Type} (browser : Browser W) (cfg : Config.t)
        (maxPrice : number) (limit : Z) (w w' : W)
        (r : list string) (t : list Event) :
  collectItemsWithPaging browser cfg maxPrice limit w = (Returned r, w', t) ->
  length r < limit ->
  (exists t0, t = (t0 ++ [HasNext false])%list)
  \/ (Z.of_nat (fetches t) = Z.max 0 (Config.maxPages (Config.pagination cfg))
      /\ navigations t = fetches t).
Proof.
  rewrite collect_run.
  destruct (paging_loop browser cfg _ maxPrice limit [] 1 w)
    as [[[collected|e1|] w1] t1] eqn:L; intros H S; inversion H; subst.
  assert (length collected < limit) as S'.
  { unfold slice0, length in *.
    destruct (Z.ltb_spec limit 0); rewrite length_firstn in S; lia. }
  destruct (paging_loop_short browser cfg maxPrice limit _ _ _ _ _ _ _ L S')
    as [Q | [F N]]; [left; exact Q | right].
  split; [lia | exact N].
Qed.

Lemma collector_stop_reason_witness :
  (exists t0,
      [Fetch (Got [Script.card "300" "b"]); HasNext true; GoNext true]
      = (t0 ++ [HasNext false])%list)
  \/ (Z.of_nat (fetches [Fetch (Got [Script.card "300" "b"]); HasNext true;
                         GoNext true])
      = Z.max 0 1
      /\ navigations [Fetch (Got [Script.card "300" "b"]); HasNext true;
                      GoNext true]
         = fetches [Fetch (Got [Script.card "300" "b"]); HasNext true;
                    GoNext true]).
Proof.
  apply (collector_stop_reason
           Script.browser (Script.with_maxPages 1) (of_Z 100) 5
           Script.scenario_d
           {| Script.pages := Script.pages Script.scenario_d;
              Script.current := 1 |}
           []).
  - vm_compute. reflexivity.
  - cbn. lia.
Defined.

(** ** Cards and ceilings *)

Lemma item_url_nonempty (maxPrice : number) (item : Card) (url : string) :
  item_url maxPrice item = Some url -> url <> "".
Proof.
  unfold item_url.
  destruct (price_textContent item) as [priceText|e]; try discriminate.
  destruct (negb (truthy priceText)); try discriminate.
  destruct (gt _ zero && le _ maxPrice); try discriminate.
  destruct (link_href item) as [[[|c u]|]|e]; cbn; try discriminate.
  intros H. inversion H. discriminate.
Qed.

Lemma item_url_throwing (maxPrice : number) (item : Card) :
  (exists e, price_textContent item = Threw e)
  \/ (exists e, link_href item = Threw e) ->
  item_url maxPrice item = None.
Proof.
  unfold item_url. intros [[e ->] | [e ->]]; [reflexivity|].
  destruct (price_textContent item) as [priceText|e']; [|reflexivity].
  destruct (negb (truthy priceText)); [reflexivity|].
  destruct (gt _ zero && le _ maxPrice); reflexivity.
Qed.

(** A price above zero and within a ceiling puts the ceiling above zero. *)
Lemma positive_price_positive_ceiling (p m : number) :
  gt p zero = true -> le p m = true -> lt zero m = true.
Proof.
  unfold gt, le, lt, SFltb, SFleb, zero.
  destruct p as [sp|sp| |sp mp ep]; cbn; try discriminate;
    destruct sp; cbn; try discriminate; intros _;
    destruct m as [sm|sm| |sm mm em]; cbn; try discriminate;
    destruct sm; cbn; try discriminate; reflexivity.
Qed.

Lemma accepted_nothing (maxPrice : number) (itemElements : list Card) :
  lt zero maxPrice = false -> accepted maxPrice itemElements = [].
Proof.
  intros C. unfold accepted.
  induction itemElements as [|item rest IH]; cbn; [reflexivity|].
  rewrite IH.
  destruct (item_url maxPrice item) as [url|] eqn:U; [|reflexivity].
  apply item_url_some in U as (priceText & _ & _ & G & L).
  rewrite (positive_price_positive_ceiling _ _ G L) in C. discriminate.
Qed.

(** X5.  No identifier the collector returns is the empty string: a card
    whose link has no [href], or an empty one, is never collected. *)
Theorem collector_urls_nonempty
        {W : Type} (browser : Browser W) (cfg : Config.t)
        (maxPrice : number) (limit : Z) (w w' : W)
        (r : list string) (t : list Event) :
  collectItemsWithPaging browser cfg maxPrice limit w = (Returned r, w', t) ->
  forall url, In url r -> url <> "".
Proof.
  intros E url I. apply collect_returned in E. subst r.
  apply in_firstn in I. unfold discovered in I.
  apply in_flat_map in I as (itemElements & _ & A).
  apply in_accepted in A as (item & _ & U).
  exact (item_url_nonempty maxPrice item url U).
Qed.

Lemma collector_urls_nonempty_witness :
  In "c" ["a"; "c"] /\ "c" <> "".
Proof.
  split; [right; left; reflexivity|].
  apply (collector_urls_nonempty
           Script.browser (Script.with_maxPages 3) (of_Z 100) 5
           Script.scenario_a Script.scenario_a ["a"; "c"]
           [Fetch (Got [Script.card "50" "a"; Script.card "300" "b";
                        Script.card "10" "c"]);
            HasNext false]).
  - vm_compute. reflexivity.
  - right; left; reflexivity.
Defined.

(** X6.  A card whose price element or whose link cannot be read is skipped:
    the page's extraction yields what it yields without that card, and the
    cards before and after it are not affected. *)
Theorem extraction_skips_unreadable_card
        (maxPrice : number) (items : list string)
        (before after : list Card) (item : Card) :
  (exists e, price_textContent item = Threw e)
  \/ (exists e, link_href item = Threw e) ->
  extract_loop maxPrice items (before ++ item :: after)
  = extract_loop maxPrice items (before ++ after).
Proof.
  intros T. rewrite !extract_loop_accepted. f_equal.
  unfold accepted. rewrite !flat_map_app. cbn.
  now rewrite (item_url_throwing maxPrice item T).
Qed.

Lemma extraction_skips_unreadable_card_witness :
  extract_loop (of_Z 100) []
    ([Script.card "50" "a"]
       ++ {| price_textContent := Threw TimeoutError;
             link_href := Got (Some "b") |}
       :: [Script.card "10" "c"])
  = extract_loop (of_Z 100) [] ([Script.card "50" "a"] ++ [Script.card "10" "c"]).
Proof.
  apply (extraction_skips_unreadable_card
           (of_Z 100) [] [Script.card "50" "a"] [Script.card "10" "c"]).
  left. exists TimeoutError. reflexivity.
Defined.

(** X7.  With a ceiling that is not above zero (zero, negative or NaN) no
    card is ever accepted: whatever the pages hold, a run that returns,
    returns the empty sequence. *)
Theorem collector_needs_positive_ceiling
        {W : Type} (browser : Browser W) (cfg : Config.t)
        (maxPrice : number) (limit : Z) (w w' : W)
        (r : list string) (t : list Event) :
  lt zero maxPrice = false ->
  collectItemsWithPaging browser cfg maxPrice limit w = (Returned r, w', t) ->
  r = [].
Proof.
  intros C E. apply collect_returned in E. subst r.
  unfold discovered.
  induction (fetched_pages t) as [|itemElements rest IH]; cbn.
  - apply firstn_nil.
  - rewrite (accepted_nothing maxPrice itemElements C). exact IH.
Qed.

Lemma collector_needs_positive_ceiling_witness :
  lt zero nan = false /\ (@nil string) = [].
Proof.
  split; [reflexivity|].
  apply (collector_needs_positive_ceiling
           Script.browser (Script.with_maxPages 3) nan 5
           Script.scenario_a Script.scenario_a []
           [Fetch (Got [Script.card "50" "a"; Script.card "300" "b";
                        Script.card "10" "c"]);
            HasNext false]).
  - reflexivity.
  - vm_compute. reflexivity.
Defined.

(** ** The methods around the collector *)

(** X8.  [hasNextPage] never throws.  It answers yes exactly when the
    next-page link is visible and its [aria-disabled] attribute could be read
    and is not the string "true"; any failure of either probe reads as no. *)
Theorem hasNextPage_answer {W : Type} (browser : Browser W) (w : W) :
  exists answer w1,
    hasNextPage browser w = (Returned answer, w1, [HasNext answer])
    /\ (answer = true <->
        exists w0 isDisabled,
          nextPage_isVisible browser w = (Got true, w0)
          /\ nextPage_getAttribute browser "aria-disabled" w0
             = (Got isDisabled, w1)
          /\ isDisabled <> Some "true").
Proof.
  unfold hasNextPage, bind, try_catch, await, emit, ret.
  destruct (nextPage_isVisible browser w) as [[isVisible|e] w0] eqn:V.
  - destruct (nextPage_getAttribute browser "aria-disabled" w0)
      as [[isDisabled|e] w1] eqn:A.
    + eexists; exists w1. split; [reflexivity|].
      split.
      * intros T. apply andb_true_iff in T as [-> T].
        exists w0, isDisabled. repeat split; [exact A|].
        intros ->. discriminate.
      * intros (w0' & d & V' & A' & N).
        inversion V'; subst. rewrite A in A'. inversion A'; subst.
        cbn. destruct d as [v|]; [|reflexivity].
        destruct (String.eqb_spec v "true"); [subst; contradiction | reflexivity].
    + exists false, w1. split; [reflexivity|].
      split; [discriminate|].
      intros (w0' & d & V' & A' & _). inversion V'; subst.
      rewrite A in A'. discriminate.
  - exists false, w0. split; [reflexivity|].
    split; [discriminate|].
    intros (w0' & d & V' & _). discriminate.
Qed.

Lemma applyPriceFilter_run
      {W : Type} (browser : Browser W) (maxPrice : number) (w : W) :
  exists w1, applyPriceFilter browser maxPrice w = (Returned tt, w1, []).
Proof.
  unfold applyPriceFilter, isElementVisible, waitForPageLoad,
    bind, try_catch, await, ret.
  destruct (page_waitForSelector browser maxPriceInputSelector w)
    as [[[]|e] w1]; cbn; [|eexists; reflexivity].
  destruct (maxPriceInput_fill browser maxPrice w1) as [[[]|e] w2]; cbn;
    [|eexists; reflexivity].
  destruct (page_waitForSelector browser priceSubmitSelector w2)
    as [[[]|e] w3]; cbn; [|eexists; reflexivity].
  destruct (priceSubmitButton_click browser w3) as [[[]|e] w4]; cbn;
    [|eexists; reflexivity].
  destruct (page_waitForLoadState browser w4) as [[[]|e] w5]; cbn;
    eexists; reflexivity.
Qed.

(** X9.  [applyPriceFilter] never throws, whatever the browser does: a
    missing filter, a failed fill, a failed click and a failed load all end in
    a normal return, with no call to the page source.  When the price input
    does not show, nothing is typed or clicked: the browser is left as the
    visibility probe left it; and when the fill fails, the submit button is
    not looked for. *)
Theorem applyPriceFilter_never_throws
        {W : Type} (browser : Browser W) (maxPrice : number) (w : W) :
  exists w1,
    applyPriceFilter browser maxPrice w = (Returned tt, w1, [])
    /\ (forall e w0,
          page_waitForSelector browser maxPriceInputSelector w = (Threw e, w0) ->
          w1 = w0)
    /\ (forall w0 e w2,
          page_waitForSelector browser maxPriceInputSelector w = (Got tt, w0) ->
          maxPriceInput_fill browser maxPrice w0 = (Threw e, w2) ->
          w1 = w2).
Proof.
  unfold applyPriceFilter, isElementVisible, waitForPageLoad,
    bind, try_catch, await, ret.
  destruct (page_waitForSelector browser maxPriceInputSelector w)
    as [[[]|e] w1] eqn:V; cbn.
  - destruct (maxPriceInput_fill browser maxPrice w1) as [[[]|e] w2] eqn:F; cbn.
    + destruct (page_waitForSelector browser priceSubmitSelector w2)
        as [[[]|e] w3]; cbn;
        [destruct (priceSubmitButton_click browser w3) as [[[]|e] w4]; cbn;
         [destruct (page_waitForLoadState browser w4) as [[[]|e] w5]; cbn|]|];
        eexists; (split; [reflexivity|]);
        (split; [intros; discriminate|]);
        intros w0 e' w2' V' F'; inversion V'; subst; congruence.
    + exists w2. split; [reflexivity|]. split; [intros; discriminate|].
      intros w0 e' w2' V' F'. inversion V'; subst. congruence.
  - exists w1. split; [reflexivity|]. split; [|intros; discriminate].
    intros e' w0 V'. now inversion V'.
Qed.

Lemma applyPriceFilter_never_throws_witness :
  exists w1,
    applyPriceFilter Script.browser (of_Z 100) Script.scenario_a
    = (Returned tt, w1, [])
    /\ (forall e w0,
          page_waitForSelector Script.browser maxPriceInputSelector
                               Script.scenario_a = (Threw e, w0) ->
          w1 = w0)
    /\ (forall w0 e w2,
          page_waitForSelector Script.browser maxPriceInputSelector
                               Script.scenario_a = (Got tt, w0) ->
          maxPriceInput_fill Script.browser (of_Z 100) w0 = (Threw e, w2) ->
          w1 = w2).
Proof.
  exact (applyPriceFilter_never_throws Script.browser (of_Z 100) Script.scenario_a).
Defined.

(** How [searchItemsByNameUnderPrice] runs: the search, the filter, then the
    collector from the world they leave. *)
Lemma search_run {W : Type} (browser : Browser W) (cfg : Config.t)
      (query : string) (maxPrice : number) (limit : option Z) (w : W) :
  (exists e w1,
      searchByKeyword browser query w = (Thrown e, w1, [])
      /\ searchItemsByNameUnderPrice browser cfg query maxPrice limit w
         = (Thrown e, w1, []))
  \/ (exists w1 w2,
        searchByKeyword browser query w = (Returned tt, w1, [])
        /\ applyPriceFilter browser maxPrice w1 = (Returned tt, w2, [])
        /\ searchItemsByNameUnderPrice browser cfg query maxPrice limit w
           = collectItemsWithPaging browser cfg maxPrice
               (match limit with Some l => l | None => 5 end) w2).
Proof.
  unfold searchItemsByNameUnderPrice.
  assert ((exists e w1, searchByKeyword browser query w = (Thrown e, w1, []))
          \/ (exists w1, searchByKeyword browser query w = (Returned tt, w1, [])))
    as [(e & w1 & S) | (w1 & S)].
  { unfold searchByKeyword, waitForPageLoad, bind, await.
    destruct (searchBox_fill browser query w) as [[[]|e] w1];
      [|left; eauto].
    destruct (searchButton_click browser w1) as [[[]|e] w2];
      [|left; eauto].
    destruct (page_waitForLoadState browser w2) as [[[]|e] w3];
      [right; eauto | left; eauto]. }
  - left. exists e, w1. split; [exact S|].
    unfold bind at 1. rewrite S. reflexivity.
  - right. destruct (applyPriceFilter_run browser maxPrice w1)
      as (w2 & F).
    exists w1, w2. repeat split; [exact S | exact F |].
    unfold bind at 1. rewrite S. unfold bind at 1. rewrite F.
    destruct (collectItemsWithPaging browser cfg maxPrice _ w2) as [[c w'] t].
    reflexivity.
Qed.

(** X10.  [searchItemsByNameUnderPrice] returns at most [limit] urls, and at
    most 5 when [limit] is left out; what it returns is the head of the
    discovery order of the pages fetched after the search. *)
Theorem search_returns_at_most_limit
        {W : Type} (browser : Browser W) (cfg : Config.t)
        (query : string) (maxPrice : number) (limit : option Z) (w w' : W)
        (r : list string) (t : list Event) :
  0 <= match limit with Some l => l | None => 5 end ->
  searchItemsByNameUnderPrice browser cfg query maxPrice limit w
  = (Returned r, w', t) ->
  length r <= match limit with Some l => l | None => 5 end
  /\ r = firstn (Z.to_nat (match limit with Some l => l | None => 5 end))
                (flat_map (accepted maxPrice) (fetched_pages t)).
Proof.
  intros P E.
  destruct (search_run browser cfg query maxPrice limit w)
    as [(e & w1 & _ & T) | (w1 & w2 & _ & _ & C)].
  - rewrite T in E. discriminate.
  - rewrite C in E. apply collect_returned in E. unfold discovered in E.
    split; [|exact E].
    subst r. unfold length. rewrite length_firstn. lia.
Qed.

Lemma search_returns_at_most_limit_witness :
  0 <= 5
  /\ length ["x"; "y"] <= 5
  /\ ["x"; "y"]
     = firstn (Z.to_nat 5)
         (flat_map (accepted (of_Z 100))
            (fetched_pages
               [Fetch (Got [Script.card "20" "x"]); HasNext true; GoNext true;
                Fetch (Got [Script.card "30" "y"]); HasNext false])).
Proof.
  split; [lia|].
  apply (search_returns_at_most_limit
           Script.browser config "cable" (of_Z 100) None Script.scenario_b
           {| Script.pages := Script.pages Script.scenario_b;
              Script.current := 1 |}).
  - lia.
  - vm_compute. reflexivity.
Defined.

(** X11.  When the search itself fails (the box cannot be filled, the button
    cannot be clicked or the results do not load), [searchItemsByNameUnderPrice]
    throws that error at once: no filter is applied and no page is fetched.
    Otherwise the only exception it can throw is that of a fetch. *)
Theorem search_failure_propagates
        {W : Type} (browser : Browser W) (cfg : Config.t)
        (query : string) (maxPrice : number) (limit : option Z) (w w' : W)
        (e : Error) (t : list Event) :
  searchItemsByNameUnderPrice browser cfg query maxPrice limit w
  = (Thrown e, w', t) ->
  (searchByKeyword browser query w = (Thrown e, w', []) /\ t = [])
  \/ (exists t0, t = (t0 ++ [Fetch (Threw e)])%list).
Proof.
  intros E.
  destruct (search_run browser cfg query maxPrice limit w)
    as [(e1 & w1 & S & T) | (w1 & w2 & _ & _ & C)].
  - rewrite T in E. inversion E; subst. left. split; [exact S | reflexivity].
  - right. rewrite C, collect_run in E.
    destruct (paging_loop browser cfg _ maxPrice _ [] 1 w2)
      as [[[collected|e1|] w3] t1] eqn:L; inversion E; subst.
    exact (paging_loop_thrown browser cfg maxPrice _ _ _ _ _ _ _ _ L).
Qed.

Lemma search_failure_propagates_witness :
  (searchByKeyword Closing.browser "cable" Closing.dangling
   = (Thrown TargetClosedError,
      {| Script.pages := Script.pages Closing.dangling; Script.current := 1 |},
      [])
   /\ [Fetch (Got [Script.card "20" "x"]); HasNext true; GoNext true;
       Fetch (Threw TargetClosedError)] = [])
  \/ (exists t0,
        [Fetch (Got [Script.card "20" "x"]); HasNext true; GoNext true;
         Fetch (Threw TargetClosedError)]
        = (t0 ++ [Fetch (Threw TargetClosedError)])%list).
Proof.
  apply (search_failure_propagates
           Closing.browser config "cable" (of_Z 100) None Closing.dangling).
  vm_compute. reflexivity.
Defined.

(* ================================================================= *)
(** ** More on [PriceParser] *)

(** [parse] is a function of the cleaned text: the test for the empty string
    agrees with what [parseFloat] makes of an empty cleaned text. *)
Lemma parse_via_clean (s : string) :
  PriceParser.parse s
  = if isNaN (PriceParser.parseFloat (PriceParser.replace_non_numeric s))
    then zero
    else PriceParser.parseFloat (PriceParser.replace_non_numeric s).
Proof. destruct s; reflexivity. Qed.

Lemma replace_non_numeric_app (a b : string) :
  PriceParser.replace_non_numeric (a ++ b)
  = PriceParser.replace_non_numeric a ++ PriceParser.replace_non_numeric b.
Proof.
  induction a as [|c a IH]; cbn; [reflexivity|].
  destruct (PriceParser.is_numeric_char c); cbn; now rewrite IH.
Qed.

(** X12.  [parse] does not see what is not a digit or a dot: a currency
    sign, a thousands separator, a letter, a space or a minus sign can be put
    in or taken out anywhere without changing the parsed price. *)
Theorem parse_ignores_non_numeric (a b : string) (c : ascii) :
  PriceParser.is_numeric_char c = false ->
  PriceParser.parse (a ++ String c b) = PriceParser.parse (a ++ b).
Proof.
  intros N. rewrite !parse_via_clean, !replace_non_numeric_app.
  cbn [PriceParser.replace_non_numeric]. rewrite N. reflexivity.
Qed.

Lemma parse_ignores_non_numeric_witness :
  PriceParser.parse ("$1" ++ String "," "234.56") = PriceParser.parse ("$1" ++ "234.56").
Proof.
  apply (parse_ignores_non_numeric "$1" "234.56" ","). reflexivity.
Defined.

(** Digit runs. *)
Lemma take_digits_run (ds tl : string) :
  PriceText.all_digits ds = true ->
  match tl with
  | EmptyString => True
  | String c _ => PriceParser.is_digit c = false
  end ->
  PriceParser.take_digits (ds ++ tl) = (ds, tl).
Proof.
  intros D T. induction ds as [|c ds IH]; cbn.
  - destruct tl as [|c tl]; [reflexivity|]. cbn. now rewrite T.
  - cbn in D. apply andb_true_iff in D as [Dc D].
    rewrite Dc, (IH D). reflexivity.
Qed.

Lemma take_digits_all (ds : string) :
  PriceText.all_digits ds = true -> PriceParser.take_digits ds = (ds, "").
Proof.
  induction ds as [|c ds IH]; cbn; [reflexivity|].
  intros D. apply andb_true_iff in D as [Dc D].
  rewrite Dc, (IH D). reflexivity.
Qed.

Lemma all_digits_clean (ds : string) :
  PriceText.all_digits ds = true -> PriceParser.replace_non_numeric ds = ds.
Proof.
  induction ds as [|c ds IH]; cbn; [reflexivity|].
  intros D. apply andb_true_iff in D as [Dc D].
  unfold PriceParser.is_numeric_char. rewrite Dc. cbn. now rewrite (IH D).
Qed.

(** X13.  [parse] reads one decimal point at most.  When the cleaned text is
    [ip.fp.rest] with [ip] and [fp] runs of digits, everything from the second
    point on is dropped: the price is that of [ip.fp].  A price range such as
    "$5.00 to $10.00" is therefore read as 5.0010. *)
Theorem parse_stops_at_second_point (s ip fp rest : string) :
  PriceText.all_digits ip = true ->
  PriceText.all_digits fp = true ->
  PriceParser.replace_non_numeric s = ip ++ "." ++ fp ++ "." ++ rest ->
  PriceParser.parse s = PriceParser.parse (ip ++ "." ++ fp).
Proof.
  intros Hip Hfp C.
  rewrite !parse_via_clean, C.
  rewrite !replace_non_numeric_app,
    (all_digits_clean ip Hip), (all_digits_clean fp Hfp).
  change (PriceParser.replace_non_numeric ".") with ".".
  assert (forall tl,
             match tl with
             | EmptyString => True
             | String c _ => PriceParser.is_digit c = false
             end ->
             PriceParser.parseFloat (ip ++ "." ++ fp ++ tl)
             = PriceParser.parseFloat (ip ++ "." ++ fp)) as Cut.
  { intros tl T. unfold PriceParser.parseFloat.
    rewrite !(take_digits_run ip ("." ++ _) Hip) by reflexivity.
    cbn [append].
    rewrite (take_digits_run fp tl Hfp T).
    rewrite (take_digits_all fp Hfp).
    reflexivity. }
  change ("." ++ fp ++ "." ++ rest) with ("." ++ fp ++ String "." rest).
  now rewrite (Cut (String "." rest)) by reflexivity.
Qed.

Lemma parse_stops_at_second_point_witness :
  PriceParser.parse "$5.00 to $10.00" = PriceParser.parse ("5" ++ "." ++ "0010").
Proof.
  apply (parse_stops_at_second_point "$5.00 to $10.00" "5" "0010" "00");
    reflexivity.
Defined.

Lemma digits_value_app (a b : string) (acc : Z) :
  PriceParser.digits_value acc (a ++ b)
  = PriceParser.digits_value (PriceParser.digits_value acc a) b.
Proof. revert acc. induction a as [|c a IH]; intros acc; cbn; auto. Qed.

Lemma nonzero_digit_clean (s : string) :
  PriceText.has_nonzero_digit s = false ->
  PriceText.has_nonzero_digit (PriceParser.replace_non_numeric s) = false.
Proof.
  induction s as [|c s IH]; cbn; [reflexivity|].
  intros H. apply orb_false_iff in H as [Hc Hs].
  destruct (PriceParser.is_numeric_char c); cbn; [rewrite Hc|]; auto.
Qed.

(** The digits read off the head of a text without a digit 1 to 9 are worth
    nothing. *)
Lemma take_digits_zeros (s : string) :
  PriceText.has_nonzero_digit s = false ->
  PriceParser.digits_value 0 (fst (PriceParser.take_digits s)) = 0
  /\ PriceText.has_nonzero_digit (snd (PriceParser.take_digits s)) = false.
Proof.
  induction s as [|c s IH]; cbn; [auto|].
  intros H. apply orb_false_iff in H as [Hc Hs].
  destruct (PriceParser.is_digit c) eqn:D.
  - destruct (PriceParser.take_digits s) as [ds tl]. cbn in *.
    destruct (Ascii.eqb_spec c "0"); [subst c | discriminate].
    exact (IH Hs).
  - cbn. rewrite D. cbn. auto.
Qed.

Lemma parseFloat_zeros (s : string) :
  PriceText.has_nonzero_digit s = false ->
  PriceParser.parseFloat s = nan \/ PriceParser.parseFloat s = zero.
Proof.
  intros H. unfold PriceParser.parseFloat.
  destruct (take_digits_zeros s H) as [Vi Ni].
  destruct (PriceParser.take_digits s) as [ip rest]. cbn in Vi, Ni.
  assert (forall k, of_decimal (PriceParser.digits_value 0 ip) k = zero) as Zi.
  { intros k. now rewrite Vi. }
  destruct rest as [|c rest'].
  - destruct ip; [left; reflexivity | right; apply Zi].
  - destruct (Ascii.eqb_spec c ".") as [->|Nc].
    + cbn in Ni.
      destruct (take_digits_zeros rest' Ni) as [Vf _].
      destruct (PriceParser.take_digits rest') as [fp tl]. cbn in Vf.
      assert (of_decimal (PriceParser.digits_value 0 (ip ++ fp))
                         (String.length fp) = zero) as Zf.
      { now rewrite digits_value_app, Vi, Vf. }
      destruct ip; [destruct fp; [left; reflexivity|]|]; right; exact Zf.
    + destruct c as [[] [] [] [] [] [] [] []];
        try (destruct ip; [left; reflexivity | right; apply Zi]).
      contradiction Nc. reflexivity.
Qed.

(** X14.  A text is a valid price for [isValid] only if it contains one of
    the digits 1 to 9: the empty text, a text without digits and a text whose
    digits are all zeros ("$0.00", "Free", "N/A") are not valid. *)
Theorem isValid_needs_nonzero_digit (priceText : string) :
  PriceParser.isValid priceText = true ->
  PriceText.has_nonzero_digit priceText = true.
Proof.
  intros V.
  destruct (PriceText.has_nonzero_digit priceText) eqn:H; [reflexivity|].
  unfold PriceParser.isValid in V. rewrite parse_via_clean in V.
  destruct (parseFloat_zeros _ (nonzero_digit_clean _ H)) as [E|E];
    rewrite E in V; discriminate.
Qed.

Lemma isValid_needs_nonzero_digit_witness :
  PriceText.has_nonzero_digit "US $999.00" = true.
Proof.
  apply (isValid_needs_nonzero_digit "US $999.00"). reflexivity.
Defined.

(** The converse fails twice over: a cleaned text that starts with two dots
    is not a number, and a price too small for a binary64 number is 0. *)
Example isValid_converse_fails :
  PriceParser.isValid "..5" = false
  /\ PriceParser.isValid
       "0.0000000000000000000000000000000000000000000000000000000000000000000000000000000000000000000000000000000000000000000000000000000000000000000000000000000000000000000000000000000000000000000000000000000000000000000000000000000000000000000000000000000000000000000000000000000000000000000000000000000000000000000000000000000000000000000000000000001"
     = false.
Proof. vm_compute. split; reflexivity. Qed.

(* ================================================================= *)
(** ** [BasePage.goto] *)

Lemma prefix_app (p a b : string) :
  String.prefix p a = true -> String.prefix p (a ++ b) = true.
Proof.
  revert a. induction p as [|c p IH]; intros a.
  - intros _. destruct (a ++ b); reflexivity.
  - destruct a as [|d a]; cbn; [discriminate|].
    destruct (Ascii.ascii_dec c d); [apply IH | discriminate].
Qed.

(** X15.  [goto] hands the browser an absolute address: the address it
    navigates to starts with "http" whatever it is given, an address that
    already does is passed on unchanged, and resolving twice is resolving
    once. *)
Theorem goto_resolves_to_absolute (url : string) :
  String.prefix "http" (BasePage.fullUrl BasePage.baseURL url) = true
  /\ (String.prefix "http" url = true ->
      BasePage.fullUrl BasePage.baseURL url = url)
  /\ (String.prefix "http" url = false ->
      BasePage.fullUrl BasePage.baseURL url = BasePage.baseURL ++ url)
  /\ BasePage.fullUrl BasePage.baseURL (BasePage.fullUrl BasePage.baseURL url)
     = BasePage.fullUrl BasePage.baseURL url
  /\ forall (W : Type) (page : BasePage.Page W),
       BasePage.goto page (BasePage.fullUrl BasePage.baseURL url)
       = BasePage.goto page url.
Proof.
  assert (String.prefix "http" (BasePage.fullUrl BasePage.baseURL url) = true)
    as A.
  { unfold BasePage.fullUrl.
    destruct (String.prefix "http" url) eqn:P; [exact P|].
    apply prefix_app. reflexivity. }
  assert (BasePage.fullUrl BasePage.baseURL
            (BasePage.fullUrl BasePage.baseURL url)
          = BasePage.fullUrl BasePage.baseURL url) as I.
  { unfold BasePage.fullUrl at 1. now rewrite A. }
  repeat split.
  - exact A.
  - intros P. unfold BasePage.fullUrl. now rewrite P.
  - intros P. unfold BasePage.fullUrl. now rewrite P.
  - exact I.
  - intros W page. unfold BasePage.goto. now rewrite I.
Qed.

Lemma goto_resolves_to_absolute_witness :
  String.prefix "http" (BasePage.fullUrl BasePage.baseURL "/itm/42") = true
  /\ (String.prefix "http" "/itm/42" = true ->
      BasePage.fullUrl BasePage.baseURL "/itm/42" = "/itm/42")
  /\ (String.prefix "http" "/itm/42" = false ->
      BasePage.fullUrl BasePage.baseURL "/itm/42"
      = BasePage.baseURL ++ "/itm/42")
  /\ BasePage.fullUrl BasePage.baseURL
       (BasePage.fullUrl BasePage.baseURL "/itm/42")
     = BasePage.fullUrl BasePage.baseURL "/itm/42"
  /\ forall (W : Type) (page : BasePage.Page W),
       BasePage.goto page (BasePage.fullUrl BasePage.baseURL "/itm/42")
       = BasePage.goto page "/itm/42".
Proof. exact (goto_resolves_to_absolute "/itm/42"). Defined.

(* ================================================================= *)
(** ** Sums of prices *)

Lemma shr_1_nonneg (mrs : shr_record) :
  0 <= shr_m mrs -> 0 <= shr_m (shr_1 mrs).
Proof.
  destruct mrs as [m r s]. cbn.
  destruct m as [|[p|p|]|p]; cbn; lia.
Qed.

Lemma iter_pos_nonneg (n : positive) (mrs : shr_record) :
  0 <= shr_m mrs -> 0 <= shr_m (iter_pos shr_1 n mrs).
Proof.
  revert mrs. induction n as [n IH|n IH|]; intros mrs H; cbn.
  - apply IH, IH, shr_1_nonneg, H.
  - apply IH, IH, H.
  - apply shr_1_nonneg, H.
Qed.

Lemma shr_fexp_nonneg (p e m ex : Z) (l : location) :
  0 <= m -> 0 <= shr_m (fst (shr_fexp p e m ex l)).
Proof.
  intros H. unfold shr_fexp, shr.
  assert (0 <= shr_m (shr_record_of_loc m l)) as R.
  { destruct l as [|[]]; exact H. }
  destruct (fexp p e (Zdigits2 m + ex) - ex) as [|n|n]; cbn [fst];
    [exact R | apply iter_pos_nonneg, R | exact R].
Qed.

Lemma round_nearest_even_nonneg (m : Z) (l : location) :
  0 <= m -> 0 <= round_nearest_even m l.
Proof.
  intros H. destruct l as [|[]]; cbn; try lia.
  destruct (Z.even m); lia.
Qed.

(** Rounding a mantissa that is not negative never yields NaN. *)
Lemma binary_round_aux_nonneg (p e : Z) (mx ex : Z) (lx : location) :
  0 <= mx -> signed_nonneg (binary_round_aux p e false mx ex lx) = true.
Proof.
  intros H. unfold binary_round_aux.
  pose proof (shr_fexp_nonneg p e mx ex lx H) as H1.
  destruct (shr_fexp p e mx ex lx) as [mrs' e']. cbn [fst] in H1.
  pose proof (shr_fexp_nonneg p e _ e' loc_Exact
                (round_nearest_even_nonneg _ (loc_of_shr_record mrs') H1)) as H2.
  destruct (shr_fexp p e _ e' loc_Exact) as [mrs'' e'']. cbn [fst] in H2.
  destruct (shr_m mrs'') as [|m|m]; [reflexivity | | lia].
  destruct (Z.leb e'' (Z.sub e p)); reflexivity.
Qed.

Lemma add_nonneg (x y : number) :
  signed_nonneg x = true -> signed_nonneg y = true ->
  signed_nonneg (CartPage.add x y) = true.
Proof.
  unfold CartPage.add, SFadd.
  destruct x as [sx|sx| |sx mx ex]; destruct y as [sy|sy| |sy my ey];
    cbn [signed_nonneg]; try discriminate; intros X Y;
    try (destruct sx; try discriminate);
    try (destruct sy; try discriminate);
    try reflexivity.
  unfold binary_normalize, cond_Zopp.
  destruct (Z.pos _ + Z.pos _) as [|m|m] eqn:S; [reflexivity | | lia].
  unfold binary_round.
  destruct (shl_align m (Z.min ex ey) _) as [mz ez].
  apply binary_round_aux_nonneg. lia.
Qed.

Lemma parse_signed_nonneg (s : string) :
  signed_nonneg (PriceParser.parse s) = true.
Proof.
  destruct (parse_cases s) as [E | [E N]].
  - rewrite E. reflexivity.
  - rewrite E in *. apply parseFloat_sign, N.
Qed.

Lemma sum_nonneg (itemPrices : list string) (total : number) :
  signed_nonneg total = true ->
  signed_nonneg
    (fold_left (fun total priceText =>
                  CartPage.add total (PriceParser.parse priceText))
               itemPrices total) = true.
Proof.
  revert total. induction itemPrices as [|priceText rest IH]; intros total T;
    cbn; [exact T|].
  apply IH, add_nonneg; [exact T | apply parse_signed_nonneg].
Qed.

(* ================================================================= *)
(** ** [CartPage] *)

Section Cart_page.
Context {W : Type}.
Variable browser : Browser W.
Variable page : BasePage.Page W.
Variable cart : CartPage.Cart W.

Lemma calculateTotalFromItems_run (w : W) :
  exists total w1,
    CartPage.calculateTotalFromItems cart w = (Returned total, w1, [])
    /\ signed_nonneg total = true.
Proof.
  unfold CartPage.calculateTotalFromItems, try_catch, bind, await, ret.
  destruct (CartPage.itemPrices_allTextContents cart w)
    as [[itemPrices|e] w1]; cbn.
  - eexists; eexists; split; [reflexivity|]. apply sum_nonneg. reflexivity.
  - exists zero, w1. split; reflexivity.
Qed.

Lemma total_loop_run (selectors : list CartPage.TotalSelector) (w : W) :
  exists found w1,
    CartPage.total_loop cart selectors w = (Returned found, w1, [])
    /\ forall total, found = Some total ->
         gt total zero = true /\ signed_nonneg total = true.
Proof.
  revert w. induction selectors as [|selector rest IH]; intros w.
  - exists None, w. split; [reflexivity | discriminate].
  - cbn [CartPage.total_loop]. unfold bind at 1.
    unfold try_catch, bind, await, ret.
    destruct (CartPage.total_isVisible cart selector w)
      as [[[|]|e] w1]; cbn;
      try (destruct (IH w1) as (found & w2 & -> & P);
           exists found, w2; split; [reflexivity | exact P]).
    destruct (CartPage.total_textContent cart selector w1)
      as [[totalText|e] w2]; cbn;
      try (destruct (IH w2) as (found & w3 & -> & P);
           exists found, w3; split; [reflexivity | exact P]).
    destruct (truthy totalText); cbn;
      try (destruct (IH w2) as (found & w3 & -> & P);
           exists found, w3; split; [reflexivity | exact P]).
    destruct (gt (PriceParser.parse _) zero) eqn:G; cbn;
      try (destruct (IH w2) as (found & w3 & -> & P);
           exists found, w3; split; [reflexivity | exact P]).
    eexists; exists w2. split; [reflexivity|].
    intros total T. inversion T; subst.
    split; [exact G | apply parse_signed_nonneg].
Qed.

Lemma getTotalAmount_run (w : W) :
  exists total w1,
    CartPage.getTotalAmount browser cart w = (Returned total, w1, [])
    /\ signed_nonneg total = true.
Proof.
  unfold CartPage.getTotalAmount, try_catch.
  unfold bind at 1. unfold await at 1.
  destruct (page_waitForTimeout browser 2000 w) as [[[]|e] w1].
  - unfold bind at 1.
    destruct (total_loop_run CartPage.totalSelectors w1)
      as (found & w2 & E & P).
    rewrite E.
    destruct found as [total|].
    + exists total, w2. split; [reflexivity | apply (P total eq_refl)].
    + destruct (calculateTotalFromItems_run w2) as (total & w3 & C & T).
      rewrite C.
      exists total, w3. split; [reflexivity | exact T].
  - exists zero, w1. split; reflexivity.
Qed.

Lemma of_Z_nonneg (z : Z) : 0 <= z -> signed_nonneg (of_Z z) = true.
Proof.
  intros H. unfold of_Z, binary_normalize.
  destruct z as [|m|m]; [reflexivity | | lia].
  unfold binary_round.
  destruct (shl_align m 0 _) as [mz ez].
  apply binary_round_aux_nonneg. lia.
Qed.

Lemma parseInt_nonneg (digits : string) :
  isNaN (CartPage.parseInt digits) = false ->
  signed_nonneg (CartPage.parseInt digits) = true.
Proof.
  unfold CartPage.parseInt.
  destruct digits; [discriminate | apply of_decimal_sign].
Qed.

Lemma count_loop_run (selectors : list CartPage.CountSelector) (w : W) :
  exists found w1,
    CartPage.count_loop cart selectors w = (Returned found, w1, [])
    /\ forall count, found = Some count -> signed_nonneg count = true.
Proof.
  revert w. induction selectors as [|selector rest IH]; intros w.
  - exists None, w. split; [reflexivity | discriminate].
  - cbn [CartPage.count_loop]. unfold bind at 1.
    unfold try_catch, bind, await, ret.
    destruct (CartPage.count_isVisible cart selector w)
      as [[[|]|e] w1]; cbn;
      try (destruct (IH w1) as (found & w2 & -> & P);
           exists found, w2; split; [reflexivity | exact P]).
    destruct (CartPage.count_textContent cart selector w1)
      as [[countText|e] w2]; cbn;
      try (destruct (IH w2) as (found & w3 & -> & P);
           exists found, w3; split; [reflexivity | exact P]).
    destruct (truthy countText); cbn;
      try (destruct (IH w2) as (found & w3 & -> & P);
           exists found, w3; split; [reflexivity | exact P]).
    destruct (isNaN (CartPage.parseInt _)) eqn:N; cbn;
      try (destruct (IH w2) as (found & w3 & -> & P);
           exists found, w3; split; [reflexivity | exact P]).
    eexists; exists w2. split; [reflexivity|].
    intros count C. inversion C; subst. apply parseInt_nonneg, N.
Qed.

Lemma getItemsCount_run (w : W) :
  exists count w1,
    CartPage.getItemsCount cart w = (Returned count, w1, [])
    /\ signed_nonneg count = true.
Proof.
  unfold CartPage.getItemsCount, try_catch.
  unfold bind at 1.
  destruct (count_loop_run CartPage.countSelectors w) as (found & w1 & E & P).
  rewrite E.
  destruct found as [count|].
  - exists count, w1. split; [reflexivity | apply (P count eq_refl)].
  - unfold bind, await, ret.
    destruct (CartPage.itemRows_count cart w1) as [[itemRows|e] w2].
    + eexists; exists w2. split; [reflexivity|]. apply of_Z_nonneg. lia.
    + exists zero, w2. split; reflexivity.
Qed.

Lemma remove_loop_run (turns : nat) (w : W) :
  exists w1, CartPage.remove_loop browser cart turns w = (Returned tt, w1, []).
Proof.
  revert w. induction turns as [|turns IH]; intros w.
  - exists w. reflexivity.
  - cbn [CartPage.remove_loop]. unfold bind at 1.
    unfold try_catch, bind, await, ret.
    destruct (CartPage.removeButtons_first_click cart w) as [[[]|e] w1]; cbn.
    + destruct (page_waitForTimeout browser 1000 w1) as [[[]|e] w2]; cbn;
        destruct (IH w2) as (w3 & ->); exists w3; reflexivity.
    + destruct (IH w1) as (w3 & ->); exists w3; reflexivity.
Qed.

(** What [validate] does: it leaves the browser alone, and it returns only
    when every check passed. *)
Lemma validate_run (budgetPerItem itemsCount totalAmount cartItemsCount : number)
      (w : W) :
  (exists message,
      CartPage.validate budgetPerItem itemsCount totalAmount cartItemsCount w
      = (Thrown (OtherError message), w, []))
  \/ (CartPage.validate budgetPerItem itemsCount totalAmount cartItemsCount w
      = (Returned tt, w, [])
      /\ ((CartPage.strict_eq itemsCount zero = true
           /\ cartItemsCount = zero /\ totalAmount = zero)
          \/ (CartPage.strict_eq itemsCount zero = false
              /\ CartPage.strict_eq cartItemsCount zero = false
              /\ (CartPage.strict_eq totalAmount zero
                  && gt cartItemsCount zero = false)
              /\ (CartPage.strict_eq cartItemsCount itemsCount = true
                  \/ gt (SFabs (CartPage.sub cartItemsCount itemsCount))
                        (if le itemsCount (of_Z 2) then zero else of_Z 1)
                     = false)
              /\ le totalAmount (CartPage.mul budgetPerItem itemsCount) = true))).
Proof.
  unfold CartPage.validate, CartPage.throw, resume, ret.
  destruct (CartPage.strict_eq itemsCount zero) eqn:I.
  - destruct cartItemsCount as [[|]| | |]; cbn; eauto.
    destruct totalAmount as [[|]| | |]; cbn; eauto.
    right. split; [reflexivity|]. left. auto.
  - destruct (CartPage.strict_eq cartItemsCount zero) eqn:C; [eauto|].
    destruct (CartPage.strict_eq totalAmount zero && gt cartItemsCount zero)
      eqn:T; [eauto|].
    destruct (CartPage.strict_eq cartItemsCount itemsCount) eqn:M; cbn.
    + destruct (le totalAmount _) eqn:L; cbn; [|eauto].
      right. split; [reflexivity|]. right. repeat split; auto.
    + destruct (gt (SFabs _) _) eqn:D; cbn; [eauto|].
      destruct (le totalAmount _) eqn:L; cbn; [|eauto].
      right. split; [reflexivity|]. right. repeat split; auto.
Qed.

End Cart_page.

Lemma nonneg_nonzero_positive (x : number) :
  signed_nonneg x = true -> CartPage.strict_eq x zero = false ->
  gt x zero = true.
Proof.
  destruct x as [s|s| |s m e]; cbn; try discriminate;
    destruct s; cbn; intros; try discriminate; reflexivity.
Qed.

Lemma openCart_silent {W : Type} (browser : Browser W)
      (page : BasePage.Page W) (cart : CartPage.Cart W) (w : W) :
  (exists w1, CartPage.openCart browser page cart w = (Returned tt, w1, []))
  \/ (exists e w1, CartPage.openCart browser page cart w = (Thrown e, w1, [])).
Proof.
  unfold CartPage.openCart, BasePage.goto, waitForPageLoad,
    try_catch, bind, await, ret.
  destruct (CartPage.cartIcon_click cart w) as [[[]|e] w1]; cbn.
  - destruct (page_waitForLoadState browser w1) as [[[]|e] w2]; cbn.
    + destruct (page_waitForTimeout browser 2000 w2) as [[[]|e] w3]; eauto.
    + destruct (BasePage.page_goto page _ w2) as [[[]|e'] w3]; cbn; eauto.
      destruct (page_waitForLoadState browser w3) as [[[]|e'] w4]; cbn; eauto.
      destruct (page_waitForTimeout browser 2000 w4) as [[[]|e'] w5]; eauto.
  - destruct (BasePage.page_goto page _ w1) as [[[]|e'] w3]; cbn; eauto.
    destruct (page_waitForLoadState browser w3) as [[[]|e'] w4]; cbn; eauto.
    destruct (page_waitForTimeout browser 2000 w4) as [[[]|e'] w5]; eauto.
Qed.

Lemma takeScreenshot_silent {W : Type} (page : BasePage.Page W)
      (name : string) (w : W) :
  (exists w1, BasePage.takeScreenshot page name w = (Returned tt, w1, []))
  \/ (exists e w1, BasePage.takeScreenshot page name w = (Thrown e, w1, [])).
Proof.
  unfold BasePage.takeScreenshot, bind, await.
  destruct (BasePage.date_toISOString page w) as [iso w1].
  destruct (BasePage.page_screenshot page _ w1) as [[[]|e] w2]; eauto.
Qed.

(** X16.  [getTotalAmount] never throws, and the total it reports is a
    number [>= 0]: never NaN and never negative, whatever the cart page
    shows and however the browser fails. *)
Theorem getTotalAmount_never_throws
        {W : Type} (browser : Browser W) (cart : CartPage.Cart W) (w : W) :
  exists total w1,
    CartPage.getTotalAmount browser cart w = (Returned total, w1, [])
    /\ le zero total = true.
Proof.
  destruct (getTotalAmount_run browser cart w) as (total & w1 & E & T).
  exists total, w1. split; [exact E | apply signed_nonneg_le, T].
Qed.

(** X17.  The first total selector wins: when the subtotal line shows a text
    that parses to a positive price, [getTotalAmount] returns that price at
    once; no other selector is tried and the item prices are not read. *)
Theorem getTotalAmount_first_selector_wins
        {W : Type} (browser : Browser W) (cart : CartPage.Cart W)
        (w w1 w2 w3 : W) (totalText : string) :
  page_waitForTimeout browser 2000 w = (Got tt, w1) ->
  CartPage.total_isVisible cart CartPage.subtotal_display w1 = (Got true, w2) ->
  CartPage.total_textContent cart CartPage.subtotal_display w2
  = (Got (Some totalText), w3) ->
  gt (PriceParser.parse totalText) zero = true ->
  CartPage.getTotalAmount browser cart w
  = (Returned (PriceParser.parse totalText), w3, []).
Proof.
  intros T V C G.
  unfold CartPage.getTotalAmount, try_catch.
  unfold bind at 1. unfold await at 1. rewrite T.
  unfold bind at 1. unfold CartPage.totalSelectors.
  cbn [CartPage.total_loop].
  unfold bind at 1. unfold try_catch at 1. unfold bind at 1.
  unfold await at 1. rewrite V.
  unfold bind at 1. unfold await at 1. rewrite C.
  assert (truthy (Some totalText) = true) as Tr.
  { destruct totalText; [discriminate G | reflexivity]. }
  rewrite Tr, G. reflexivity.
Qed.

Lemma getTotalAmount_first_selector_wins_witness :
  CartPage.getTotalAmount CartScript.browser CartScript.cart CartScript.two_items
  = (Returned (PriceParser.parse "$45.98"), CartScript.two_items, []).
Proof.
  apply (getTotalAmount_first_selector_wins
           CartScript.browser CartScript.cart
           CartScript.two_items CartScript.two_items CartScript.two_items
           CartScript.two_items "$45.98"); reflexivity.
Defined.

(** X18.  [getItemsCount] never throws, and the count it reports is a number
    [>= 0], never NaN: from a counter text it keeps the digits only, and
    without a usable counter it counts the item rows. *)
Theorem getItemsCount_never_throws
        {W : Type} (cart : CartPage.Cart W) (w : W) :
  exists count w1,
    CartPage.getItemsCount cart w = (Returned count, w1, [])
    /\ le zero count = true.
Proof.
  destruct (getItemsCount_run cart w) as (count & w1 & E & C).
  exists count, w1. split; [exact E | apply signed_nonneg_le, C].
Qed.

(** X19.  [clearCart] never throws: a cart that cannot be opened, a count
    that cannot be read and remove buttons that cannot be clicked all end in
    a normal return. *)
Theorem clearCart_never_throws
        {W : Type} (browser : Browser W) (page : BasePage.Page W)
        (cart : CartPage.Cart W) (w : W) :
  exists w1, CartPage.clearCart browser page cart w = (Returned tt, w1, []).
Proof.
  unfold CartPage.clearCart, try_catch.
  unfold bind at 1.
  destruct (openCart_silent browser page cart w) as [(w1 & ->) | (e & w1 & ->)];
    [|exists w1; reflexivity].
  unfold bind at 1. unfold await at 1.
  destruct (page_waitForTimeout browser 2000 w1) as [[[]|e] w2];
    [|exists w2; reflexivity].
  unfold bind at 1. unfold await at 1.
  destruct (CartPage.removeButtons_count cart w2) as [[count|e] w3];
    [|exists w3; reflexivity].
  destruct count as [|count]; [exists w3; reflexivity|].
  unfold bind at 1.
  destruct (remove_loop_run browser cart (S count) w3) as (w4 & ->).
  unfold await.
  destruct (page_waitForTimeout browser 1000 w4) as [[[]|e] w5];
    exists w5; reflexivity.
Qed.

(** X20.  What a passing [assertCartTotalNotExceeds] means.  When no item was
    expected ([itemsCount === 0]) the cart count and the total read from the
    page are both exactly 0, and the budget is not looked at.  Otherwise the
    cart is not empty, its total is above zero and at most
    [budgetPerItem * itemsCount]. *)
Theorem assertCartTotalNotExceeds_passes
        {W : Type} (browser : Browser W) (page : BasePage.Page W)
        (cart : CartPage.Cart W) (budgetPerItem itemsCount : number)
        (w w' : W) (t : list Event) :
  CartPage.assertCartTotalNotExceeds browser page cart budgetPerItem itemsCount w
  = (Returned tt, w', t) ->
  exists w1 w2 w3 totalAmount cartItemsCount,
    CartPage.openCart browser page cart w = (Returned tt, w1, [])
    /\ CartPage.getTotalAmount browser cart w1 = (Returned totalAmount, w2, [])
    /\ CartPage.getItemsCount cart w2 = (Returned cartItemsCount, w3, [])
    /\ ((CartPage.strict_eq itemsCount zero = true
         /\ cartItemsCount = zero /\ totalAmount = zero)
        \/ (CartPage.strict_eq itemsCount zero = false
            /\ gt cartItemsCount zero = true
            /\ gt totalAmount zero = true
            /\ le totalAmount (CartPage.mul budgetPerItem itemsCount) = true)).
Proof.
  unfold CartPage.assertCartTotalNotExceeds.
  unfold bind at 1.
  destruct (openCart_silent browser page cart w) as [(w1 & O) | (e & w1 & O)];
    rewrite O; [|discriminate].
  unfold bind at 1.
  destruct (getTotalAmount_run browser cart w1) as (totalAmount & w2 & T & Tn).
  rewrite T.
  unfold bind at 1.
  destruct (getItemsCount_run cart w2) as (cartItemsCount & w3 & C & Cn).
  rewrite C.
  unfold bind at 1.
  destruct (takeScreenshot_silent page "cart_final" w3)
    as [(w4 & S) | (e & w4 & S)]; rewrite S; [|discriminate].
  destruct (validate_run budgetPerItem itemsCount totalAmount cartItemsCount w4)
    as [(message & V) | (V & P)]; rewrite V; [discriminate|].
  intros _.
  exists w1, w2, w3, totalAmount, cartItemsCount.
  repeat split; try reflexivity; try assumption.
  destruct P as [P | (I & Cz & Tz & _ & L)]; [left; exact P | right].
  pose proof (nonneg_nonzero_positive _ Cn Cz) as Cp.
  rewrite Cp, andb_true_r in Tz.
  repeat split; auto. apply nonneg_nonzero_positive; assumption.
Qed.

Lemma assertCartTotalNotExceeds_passes_witness :
  exists w1 w2 w3 totalAmount cartItemsCount,
    CartPage.openCart CartScript.browser CartScript.page CartScript.cart
                      CartScript.two_items = (Returned tt, w1, [])
    /\ CartPage.getTotalAmount CartScript.browser CartScript.cart w1
       = (Returned totalAmount, w2, [])
    /\ CartPage.getItemsCount CartScript.cart w2
       = (Returned cartItemsCount, w3, [])
    /\ ((CartPage.strict_eq (of_Z 2) zero = true
         /\ cartItemsCount = zero /\ totalAmount = zero)
        \/ (CartPage.strict_eq (of_Z 2) zero = false
            /\ gt cartItemsCount zero = true
            /\ gt totalAmount zero = true
            /\ le totalAmount (CartPage.mul (of_Z 30) (of_Z 2)) = true)).
Proof.
  apply (assertCartTotalNotExceeds_passes
           CartScript.browser CartScript.page CartScript.cart
           (of_Z 30) (of_Z 2) CartScript.two_items CartScript.two_items []).
  vm_compute. reflexivity.
Defined.

(** The cart page at work: a subtotal line and a counter; a layout without
    them, where the total is the sum of the rows and the count their number;
    an empty cart when nothing was expected; and a cart over budget. *)
Example cart_runs :
  CartPage.getTotalAmount CartScript.browser CartScript.cart
                          CartScript.bare_two_items
  = (Returned (CartPage.add (CartPage.add zero (PriceParser.parse "$19.99"))
                            (PriceParser.parse "$25.99")),
     CartScript.bare_two_items, [])
  /\ CartPage.getItemsCount CartScript.cart CartScript.two_items
     = (Returned (of_Z 2), CartScript.two_items, [])
  /\ CartPage.getItemsCount CartScript.cart CartScript.bare_two_items
     = (Returned (of_Z 2), CartScript.bare_two_items, [])
  /\ CartPage.assertCartTotalNotExceeds
       CartScript.browser CartScript.page CartScript.cart (of_Z 30) zero
       CartScript.empty
     = (Returned tt, CartScript.empty, [])
  /\ CartPage.assertCartTotalNotExceeds
       CartScript.browser CartScript.page CartScript.cart (of_Z 20) (of_Z 2)
       CartScript.two_items
     = (Thrown (OtherError "expect(totalAmount).toBeLessThanOrEqual(threshold)"),
        CartScript.two_items, []).
Proof. vm_compute. repeat split. Qed.

(* ================================================================= *)
(** ** Settling, compositionally *)

Section Settling.
Context {W : Type}.

Lemma settles_ret {A} (a : A) : Quiet.settles (@ret W A a).
Proof. intros w. left. exists a, w. reflexivity. Qed.

Lemma settles_await {A} (op : W -> Attempt A * W) : Quiet.settles (await op).
Proof.
  intros w. unfold await. destruct (op w) as [[a|e] w1]; [left | right]; eauto.
Qed.

Lemma settles_resume {A} (r : Attempt A) : Quiet.settles (@resume W A r).
Proof. intros w. destruct r as [a|e]; [left | right]; cbn; eauto. Qed.

Lemma settles_throw {A} (message : string) :
  Quiet.settles (@CartPage.throw W A message).
Proof. apply settles_resume. Qed.

Lemma settles_bind {A B} (m : M W A) (f : A -> M W B) :
  Quiet.settles m -> (forall a, Quiet.settles (f a)) ->
  Quiet.settles (bind m f).
Proof.
  intros Hm Hf w. unfold bind.
  destruct (Hm w) as [(a & w1 & ->) | (e & w1 & ->)]; [|right; eauto].
  destruct (Hf a w1) as [(b & w2 & ->) | (e & w2 & ->)]; [left | right]; eauto.
Qed.

Lemma settles_try_catch {A} (m : M W A) (h : Error -> M W A) :
  Quiet.settles m -> (forall e, Quiet.settles (h e)) ->
  Quiet.settles (try_catch m h).
Proof.
  intros Hm Hh w. unfold try_catch.
  destruct (Hm w) as [(a & w1 & ->) | (e & w1 & ->)]; [left; eauto|].
  destruct (Hh e w1) as [(b & w2 & ->) | (e' & w2 & ->)]; [left | right]; eauto.
Qed.

Lemma returns_settles {A} (m : M W A) : Quiet.returns m -> Quiet.settles m.
Proof. intros H w. left. apply H. Qed.

Lemma returns_ret {A} (a : A) : Quiet.returns (@ret W A a).
Proof. intros w. exists a, w. reflexivity. Qed.

Lemma returns_bind {A B} (m : M W A) (f : A -> M W B) :
  Quiet.returns m -> (forall a, Quiet.returns (f a)) ->
  Quiet.returns (bind m f).
Proof.
  intros Hm Hf w. unfold bind.
  destruct (Hm w) as (a & w1 & ->).
  destruct (Hf a w1) as (b & w2 & ->). eauto.
Qed.

(** A [try] whose handler returns, returns. *)
Lemma returns_try_catch {A} (m : M W A) (h : Error -> M W A) :
  Quiet.settles m -> (forall e, Quiet.returns (h e)) ->
  Quiet.returns (try_catch m h).
Proof.
  intros Hm Hh w. unfold try_catch.
  destruct (Hm w) as [(a & w1 & ->) | (e & w1 & ->)]; [eauto|].
  destruct (Hh e w1) as (b & w2 & ->). eauto.
Qed.

End Settling.

(** Peel a method into its awaits. *)
Ltac settle :=
  repeat first
    [ apply settles_ret | apply settles_await | apply settles_resume
    | apply settles_throw
    | apply settles_bind; [|intros ?]
    | apply settles_try_catch; [|intros ?]
    | match goal with
      | |- Quiet.settles (if ?b then _ else _) => destruct b
      | |- Quiet.settles (match ?x with _ => _ end) => destruct x
      end ].

(* ================================================================= *)
(** ** [RandomSelector] and [ProductPage] *)

Lemma element_at_in {A : Type} (array : list A) (index : number) (x : A) :
  RandomSelector.element_at array index = Some x -> In x array.
Proof.
  unfold RandomSelector.element_at.
  destruct index as [s|s| |[|] m e]; try discriminate;
    try (apply nth_error_In).
  destruct (0 <=? e)%Z; [apply nth_error_In|].
  destruct (Z.pos m mod 2 ^ (- e) =? 0)%Z; [apply nth_error_In | discriminate].
Qed.

Lemma getRandomIndex_run {W : Type} (math_random : W -> number * W)
      (length : number) :
  Quiet.returns (RandomSelector.getRandomIndex math_random length).
Proof.
  intros w. unfold RandomSelector.getRandomIndex, RandomSelector.random, bind, ret.
  destruct (le length zero); [eauto|].
  destruct (math_random w) as [r w1]. eauto.
Qed.

Lemma getRandomElement_run {W A : Type} (math_random : W -> number * W)
      (array : list A) (w : W) :
  exists r w1,
    RandomSelector.getRandomElement math_random array w = (Returned r, w1, [])
    /\ (forall x, r = Some x -> In x array)
    /\ (array = [] -> r = None /\ w1 = w).
Proof.
  unfold RandomSelector.getRandomElement.
  destruct array as [|a array].
  - exists None, w. repeat split; discriminate.
  - unfold bind, ret.
    destruct (getRandomIndex_run math_random
                (of_Z (Z.of_nat (List.length (a :: array)))) w)
      as (index & w1 & ->).
    eexists; exists w1. split; [reflexivity|].
    split; [|discriminate].
    intros x E. exact (element_at_in _ _ _ E).
Qed.

Lemma settles_getRandomElement {W A : Type} (math_random : W -> number * W)
      (array : list A) :
  Quiet.settles (RandomSelector.getRandomElement math_random array).
Proof.
  intros w. left.
  destruct (getRandomElement_run math_random array w) as (r & w1 & E & _).
  eauto.
Qed.

(** X21.  [getRandomElement] returns [null] for an empty array without
    drawing a random number; for any other array, and whatever number
    [Math.random] yields, what it returns is an element of the array or
    nothing. *)
Theorem getRandomElement_in_array
        {W A : Type} (math_random : W -> number * W) (array : list A) (w : W) :
  exists r w1,
    RandomSelector.getRandomElement math_random array w = (Returned r, w1, [])
    /\ (forall x, r = Some x -> In x array)
    /\ (array = [] -> r = None /\ w1 = w).
Proof. exact (getRandomElement_run math_random array w). Qed.

Section Product_page.
Context {W : Type}.
Variable browser : Browser W.
Variable page : BasePage.Page W.
Variable product : ProductPage.Product W.

Lemma settles_captcha_loop (selectors : list ProductPage.CaptchaSelector) :
  Quiet.settles (ProductPage.captcha_loop product selectors).
Proof.
  induction selectors as [|selector rest IH]; cbn [ProductPage.captcha_loop];
    settle; exact IH.
Qed.

(** The loop throws the CAPTCHA error or what a visibility probe threw. *)
Lemma settles_checkForCaptcha :
  Quiet.settles (ProductPage.checkForCaptcha product).
Proof.
  unfold ProductPage.checkForCaptcha. settle; apply settles_captcha_loop.
Qed.

Lemma checkForCaptcha_thrown (w w' : W) (e : Error) (t : list Event) :
  ProductPage.checkForCaptcha product w = (Thrown e, w', t) ->
  ProductPage.is_captcha_error e = true.
Proof.
  unfold ProductPage.checkForCaptcha, try_catch.
  destruct (settles_captcha_loop ProductPage.captchaSelectors w)
    as [(a & w1 & ->) | (e1 & w1 & ->)]; [discriminate|].
  destruct (ProductPage.is_captcha_error e1) eqn:C; cbn.
  - intros H. inversion H; subst. exact C.
  - discriminate.
Qed.

Lemma checkForCaptcha_first_shows (w w1 : W) :
  ProductPage.captcha_isVisible product ProductPage.iframe_title_recaptcha w
  = (Got true, w1) ->
  ProductPage.checkForCaptcha product w
  = (Thrown (OtherError ProductPage.captcha_message), w1, []).
Proof.
  intros V.
  unfold ProductPage.checkForCaptcha, try_catch, ProductPage.captchaSelectors.
  cbn [ProductPage.captcha_loop]. unfold bind at 1. unfold await at 1.
  rewrite V. reflexivity.
Qed.

Lemma returns_getProductPrice :
  Quiet.returns (ProductPage.getProductPrice product).
Proof.
  unfold ProductPage.getProductPrice.
  apply returns_try_catch; [settle | intros e; apply returns_ret].
Qed.

Lemma returns_selectSizeVariant :
  Quiet.returns (ProductPage.selectSizeVariant browser product).
Proof.
  unfold ProductPage.selectSizeVariant.
  apply returns_try_catch; [|intros e; apply returns_ret].
  settle; apply settles_getRandomElement.
Qed.

Lemma returns_selectColorVariant :
  Quiet.returns (ProductPage.selectColorVariant browser product).
Proof.
  unfold ProductPage.selectColorVariant.
  apply returns_try_catch; [|intros e; apply returns_ret].
  settle; apply settles_getRandomElement.
Qed.

Lemma settles_values_loop (options : list ProductPage.Element) :
  forall validOptions,
    Quiet.settles (ProductPage.values_loop product validOptions options).
Proof.
  induction options as [|option rest IH]; intros validOptions;
    cbn [ProductPage.values_loop]; settle; apply IH.
Qed.

Lemma settles_selects_loop (allSelects : list ProductPage.Element) :
  Quiet.settles (ProductPage.selects_loop product allSelects).
Proof.
  induction allSelects as [|select rest IH]; cbn [ProductPage.selects_loop];
    settle; try exact IH;
    try apply settles_values_loop; try apply settles_getRandomElement.
Qed.

Lemma returns_selectOtherDropdowns :
  Quiet.returns (ProductPage.selectOtherDropdowns product).
Proof.
  unfold ProductPage.selectOtherDropdowns.
  apply returns_try_catch; [|intros e; apply returns_ret].
  settle; apply settles_selects_loop.
Qed.

Lemma returns_selectQuantity :
  Quiet.returns (ProductPage.selectQuantity product).
Proof.
  unfold ProductPage.selectQuantity.
  apply returns_try_catch; [settle | intros e; apply returns_ret].
Qed.

End Product_page.

(** X22.  [checkForCaptcha] throws only errors whose message mentions
    CAPTCHA.  When the first indicator shows, it throws its own CAPTCHA error
    at once; and when probing the first indicator fails with any other error,
    the check returns normally and the remaining indicators are not probed. *)
Theorem checkForCaptcha_throws_only_captcha
        {W : Type} (product : ProductPage.Product W) :
  (forall w w' e t,
     ProductPage.checkForCaptcha product w = (Thrown e, w', t) ->
     ProductPage.is_captcha_error e = true)
  /\ (forall w w1,
        ProductPage.captcha_isVisible product ProductPage.iframe_title_recaptcha w
        = (Got true, w1) ->
        ProductPage.checkForCaptcha product w
        = (Thrown (OtherError ProductPage.captcha_message), w1, []))
  /\ (forall w w1 e,
        ProductPage.captcha_isVisible product ProductPage.iframe_title_recaptcha w
        = (Threw e, w1) ->
        ProductPage.is_captcha_error e = false ->
        ProductPage.checkForCaptcha product w = (Returned tt, w1, [])).
Proof.
  split; [|split].
  - intros w w' e t. apply checkForCaptcha_thrown.
  - intros w w1. apply checkForCaptcha_first_shows.
  - intros w w1 e V C.
    unfold ProductPage.checkForCaptcha, try_catch, ProductPage.captchaSelectors.
    cbn [ProductPage.captcha_loop]. unfold bind at 1. unfold await at 1.
    rewrite V, C. reflexivity.
Qed.

Lemma checkForCaptcha_throws_only_captcha_witness :
  ProductPage.is_captcha_error (OtherError ProductPage.captcha_message) = true
  /\ ProductPage.checkForCaptcha ProductScript.product ProductScript.guarded_shop
     = (Thrown (OtherError ProductPage.captcha_message),
        ProductScript.guarded_shop, []).
Proof.
  destruct (checkForCaptcha_throws_only_captcha ProductScript.product)
    as (T & V & _).
  split.
  - apply (T ProductScript.guarded_shop ProductScript.guarded_shop _ []).
    vm_compute. reflexivity.
  - apply (V ProductScript.guarded_shop ProductScript.guarded_shop).
    reflexivity.
Defined.

(** X23.  Variant selection does not fail on variants: [selectSizeVariant],
    [selectColorVariant], [selectOtherDropdowns] and [selectQuantity] never
    throw.  When [selectRandomVariants] throws, the error mentions CAPTCHA
    or is that of its closing one-second wait. *)
Theorem selectRandomVariants_failures
        {W : Type} (browser : Browser W) (product : ProductPage.Product W) :
  Quiet.returns (ProductPage.selectSizeVariant browser product)
  /\ Quiet.returns (ProductPage.selectColorVariant browser product)
  /\ Quiet.returns (ProductPage.selectOtherDropdowns product)
  /\ Quiet.returns (ProductPage.selectQuantity product)
  /\ forall w w' e t,
       ProductPage.selectRandomVariants browser product w = (Thrown e, w', t) ->
       ProductPage.is_captcha_error e = true
       \/ exists w0, page_waitForTimeout browser 1000 w0 = (Threw e, w').
Proof.
  repeat split;
    try apply returns_selectSizeVariant; try apply returns_selectColorVariant;
    try apply returns_selectOtherDropdowns; try apply returns_selectQuantity.
  intros w w' e t.
  unfold ProductPage.selectRandomVariants.
  unfold bind at 1.
  destruct (settles_checkForCaptcha product w)
    as [([] & w1 & C) | (e1 & w1 & C)]; rewrite C.
  - unfold bind at 1.
    destruct (returns_selectSizeVariant browser product w1) as ([] & w2 & ->).
    unfold bind at 1.
    destruct (returns_selectColorVariant browser product w2) as ([] & w3 & ->).
    unfold bind at 1.
    destruct (returns_selectOtherDropdowns product w3) as ([] & w4 & ->).
    unfold bind at 1.
    destruct (returns_selectQuantity product w4) as ([] & w5 & ->).
    unfold await.
    destruct (page_waitForTimeout browser 1000 w5) as [[[]|e2] w6] eqn:T;
      cbn; intros H; inversion H; subst.
    right. exists w5. exact T.
  - intros H. inversion H; subst. left.
    exact (checkForCaptcha_thrown product _ _ _ _ C).
Qed.

Lemma selectRandomVariants_failures_witness :
  ProductPage.is_captcha_error (OtherError ProductPage.captcha_message) = true
  \/ exists w0,
      page_waitForTimeout ProductScript.browser 1000 w0
      = (Threw (OtherError ProductPage.captcha_message),
         ProductScript.guarded_shop).
Proof.
  destruct (selectRandomVariants_failures ProductScript.browser
                                          ProductScript.product)
    as (_ & _ & _ & _ & F).
  apply (F ProductScript.guarded_shop ProductScript.guarded_shop _ []).
  vm_compute. reflexivity.
Defined.

(** X24.  [getProductPrice] never throws, and the price it reports is a
    number [>= 0]; it is 0 when the price element cannot be read. *)
Theorem getProductPrice_never_throws
        {W : Type} (product : ProductPage.Product W) (w : W) :
  exists price w1,
    ProductPage.getProductPrice product w = (Returned price, w1, [])
    /\ le zero price = true
    /\ (forall e,
          ProductPage.priceElement_textContent product w = (Threw e, w1) ->
          price = zero).
Proof.
  unfold ProductPage.getProductPrice, try_catch, bind, await, ret.
  destruct (ProductPage.priceElement_textContent product w)
    as [[priceText|e] w1]; cbn.
  - eexists; exists w1. split; [reflexivity|]. split; [|discriminate].
    destruct (truthy priceText); [|reflexivity].
    apply signed_nonneg_le, parse_signed_nonneg.
  - exists zero, w1. repeat split.
Qed.

Section Adding_items.
Context {W : Type}.
Variable browser : Browser W.
Variable page : BasePage.Page W.
Variable product : ProductPage.Product W.

Lemma settles_takeScreenshot (name : string) :
  Quiet.settles (BasePage.takeScreenshot page name).
Proof.
  intros w.
  destruct (takeScreenshot_silent page name w)
    as [(w1 & ->) | (e & w1 & ->)]; [left | right]; eauto.
Qed.

Lemma settles_selectRandomVariants :
  Quiet.settles (ProductPage.selectRandomVariants browser product).
Proof.
  unfold ProductPage.selectRandomVariants.
  apply settles_bind; [apply settles_checkForCaptcha | intros _].
  apply settles_bind;
    [apply returns_settles, returns_selectSizeVariant | intros _].
  apply settles_bind;
    [apply returns_settles, returns_selectColorVariant | intros _].
  apply settles_bind;
    [apply returns_settles, returns_selectOtherDropdowns | intros _].
  apply settles_bind;
    [apply returns_settles, returns_selectQuantity | intros _].
  apply settles_await.
Qed.

Lemma settles_addToCart :
  Quiet.settles (ProductPage.addToCart browser product).
Proof. unfold ProductPage.addToCart. settle. Qed.

(** A sequence that returns: its first part returned, silently. *)
Lemma bind_settles_returned {A B} (m : M W A) (f : A -> M W B)
      (w w' : W) (b : B) (t : list Event) :
  Quiet.settles m ->
  bind m f w = (Returned b, w', t) ->
  exists a w1, m w = (Returned a, w1, []) /\ f a w1 = (Returned b, w', t).
Proof.
  intros Hs. unfold bind.
  destruct (Hs w) as [(a & w1 & ->) | (e & w1 & ->)]; [|discriminate].
  destruct (f a w1) as [[c w2] t2] eqn:F. cbn. intros H. inversion H; subst.
  exists a, w1. split; [reflexivity | exact F].
Qed.

Lemma settles_process_item (url : string) (i : nat) :
  Quiet.settles (ProductPage.process_item browser page product url i).
Proof.
  unfold ProductPage.process_item.
  apply settles_bind; [apply settles_await | intros _].
  apply settles_bind; [apply settles_await | intros _].
  apply settles_bind; [apply settles_checkForCaptcha | intros _].
  apply settles_bind;
    [apply returns_settles, returns_getProductPrice | intros price].
  apply settles_bind; [apply settles_selectRandomVariants | intros _].
  apply settles_bind; [apply settles_addToCart | intros _].
  apply settles_bind; [apply settles_takeScreenshot | intros _].
  apply settles_ret.
Qed.

(** The [try] block returns only [true], and only when each of its calls
    returned, one after the other. *)
Lemma process_item_returned (url : string) (i : nat) (w w' : W)
      (added : bool) (t : list Event) :
  ProductPage.process_item browser page product url i w
  = (Returned added, w', t) ->
  added = true /\ t = []
  /\ exists w1 w2 w3 w4 w5 w6 price,
       BasePage.goto page url w = (Returned tt, w1, [])
       /\ page_waitForTimeout browser 2000 w1 = (Got tt, w2)
       /\ ProductPage.checkForCaptcha product w2 = (Returned tt, w3, [])
       /\ ProductPage.getProductPrice product w3 = (Returned price, w4, [])
       /\ ProductPage.selectRandomVariants browser product w4
          = (Returned tt, w5, [])
       /\ ProductPage.addToCart browser product w5 = (Returned tt, w6, [])
       /\ BasePage.takeScreenshot page ("item_" ++ ProductPage.ordinal i
                                                ++ "_added") w6
          = (Returned tt, w', []).
Proof.
  unfold ProductPage.process_item. intros H.
  apply bind_settles_returned in H; [|apply settles_await].
  destruct H as ([] & w1 & G & H).
  apply bind_settles_returned in H; [|apply settles_await].
  destruct H as ([] & w2 & T & H).
  apply bind_settles_returned in H; [|apply settles_checkForCaptcha].
  destruct H as ([] & w3 & C & H).
  apply bind_settles_returned in H;
    [|apply returns_settles, returns_getProductPrice].
  destruct H as (price & w4 & P & H).
  apply bind_settles_returned in H; [|apply settles_selectRandomVariants].
  destruct H as ([] & w5 & V & H).
  apply bind_settles_returned in H; [|apply settles_addToCart].
  destruct H as ([] & w6 & A & H).
  apply bind_settles_returned in H; [|apply settles_takeScreenshot].
  destruct H as ([] & w7 & Shot & H).
  cbn in H. inversion H; subst.
  split; [reflexivity|]. split; [reflexivity|].
  exists w1, w2, w3, w4, w5, w6, price.
  repeat split; try assumption.
  unfold await in T. destruct (page_waitForTimeout browser 2000 w1) as [[[]|e] w0];
    cbn in T; inversion T; reflexivity.
Qed.

(** The loop over the urls makes no call to the page source; when it returns,
    each url was processed in turn, and the two counters have grown by the
    number of urls added and the number of urls failed. *)
Lemma items_loop_processed (urls : list string) :
  forall i successCount failureCount w,
    (exists outcomes w1,
        ProductPage.items_loop browser page product urls i
                               successCount failureCount w
        = (Returned (successCount + count_occ Bool.bool_dec outcomes true,
                     failureCount + count_occ Bool.bool_dec outcomes false)%nat,
           w1, [])
        /\ ProductPage.processed browser page product urls i w outcomes w1)
    \/ (exists e w1,
          ProductPage.items_loop browser page product urls i
                                 successCount failureCount w
          = (Thrown e, w1, [])).
Proof.
  induction urls as [|url rest IH]; intros i successCount failureCount w.
  - left. exists [], w. cbn. rewrite !Nat.add_0_r.
    split; [reflexivity | constructor].
  - destruct (settles_process_item url i w) as [(added & w1 & E) | (e & w1 & E)].
    + destruct (process_item_returned _ _ _ _ _ _ E)
        as (-> & _ & w1' & w2 & w3 & w4 & w5 & w6 & price
            & G & T & C & P & V & A & Shot).
      destruct (IH (S i) (S successCount) failureCount w1)
        as [(outcomes & w' & E2 & R) | (e & w' & E2)].
      * left. exists (true :: outcomes), w'. split.
        -- cbn [ProductPage.items_loop]. unfold bind at 1.
           unfold try_catch at 1. rewrite E, E2.
           cbn. rewrite ?Nat.add_succ_r. reflexivity.
        -- exact (ProductPage.processed_added
                    browser page product url rest i w w1' w2 w3 w4 w5 w6 w1 w'
                    price outcomes G T C P V A Shot R).
      * right. exists e, w'.
        cbn [ProductPage.items_loop]. unfold bind at 1.
        unfold try_catch at 1. rewrite E, E2. reflexivity.
    + destruct (settles_takeScreenshot
                  ("item_" ++ ProductPage.ordinal i ++ "_error") w1)
        as [([] & w2 & Shot) | (e2 & w2 & Shot)].
      * destruct (ProductPage.is_captcha_error e) eqn:Q.
        -- right. exists e, w2.
           cbn [ProductPage.items_loop]. unfold bind at 1.
           unfold try_catch at 1. rewrite E.
           unfold bind at 1. rewrite Shot, Q. reflexivity.
        -- destruct (IH (S i) successCount (S failureCount) w2)
             as [(outcomes & w' & E2 & R) | (e' & w' & E2)].
           ++ left. exists (false :: outcomes), w'. split.
              ** cbn [ProductPage.items_loop]. unfold bind at 1.
                 unfold try_catch at 1. rewrite E.
                 unfold bind at 1. rewrite Shot, Q. cbn [ret app].
                 rewrite E2.
                 cbn. rewrite ?Nat.add_succ_r. reflexivity.
              ** exact (ProductPage.processed_failed
                          browser page product url rest i w w1 w2 w' e
                          outcomes E Q Shot R).
           ++ right. exists e', w'.
              cbn [ProductPage.items_loop]. unfold bind at 1.
              unfold try_catch at 1. rewrite E.
              unfold bind at 1. rewrite Shot, Q. cbn [ret app].
              rewrite E2. reflexivity.
      * right. exists e2, w2.
        cbn [ProductPage.items_loop]. unfold bind at 1.
        unfold try_catch at 1. rewrite E.
        unfold bind at 1. rewrite Shot. reflexivity.
Qed.

Lemma processed_length (urls : list string) (i : nat) (w w' : W)
      (outcomes : list bool) :
  ProductPage.processed browser page product urls i w outcomes w' ->
  List.length outcomes = List.length urls.
Proof. induction 1; cbn; congruence. Qed.

End Adding_items.

Lemma count_occ_bool (outcomes : list bool) :
  (count_occ Bool.bool_dec outcomes true
   + count_occ Bool.bool_dec outcomes false = List.length outcomes)%nat.
Proof.
  induction outcomes as [|[] rest IH]; cbn in *; lia.
Qed.

(** X25.  [addItemsToCart] returns normally only when at least one item was
    added.  A run that returns went through every url in turn; for each one
    either [goto], the two-second wait, [checkForCaptcha], [getProductPrice],
    [selectRandomVariants], [addToCart] and the screenshot all returned, or
    the [try] block threw an error that is not a CAPTCHA error and the error
    screenshot was taken.  The success counter is the number of urls of the
    first kind, the failure counter the number of the second kind, and at
    least one url is of the first kind.  On an empty list the call throws
    "Failed to add any items to cart (0/0)" without touching the browser. *)
Theorem addItemsToCart_needs_a_success
        {W : Type} (browser : Browser W) (page : BasePage.Page W)
        (product : ProductPage.Product W) :
  (forall w,
     ProductPage.addItemsToCart browser page product [] w
     = (Thrown (OtherError "❌ Failed to add any items to cart (0/0)"), w, []))
  /\ (forall urls w w' t,
        ProductPage.addItemsToCart browser page product urls w
        = (Returned tt, w', t) ->
        exists outcomes successCount failureCount,
          ProductPage.processed browser page product urls 0 w outcomes w'
          /\ successCount = count_occ Bool.bool_dec outcomes true
          /\ failureCount = count_occ Bool.bool_dec outcomes false
          /\ ProductPage.items_loop browser page product urls 0 0 0 w
             = (Returned (successCount, failureCount), w', [])
          /\ (successCount + failureCount = List.length urls)%nat
          /\ (1 <= successCount)%nat
          /\ In true outcomes).
Proof.
  split; [intros w; reflexivity|].
  intros urls w w' t.
  unfold ProductPage.addItemsToCart. unfold bind at 1.
  destruct (items_loop_processed browser page product urls 0 0 0 w)
    as [(outcomes & w1 & -> & R) | (e & w1 & ->)]; [|discriminate].
  pose proof (processed_length _ _ _ _ _ _ _ _ R) as Len.
  pose proof (count_occ_bool outcomes) as Sum.
  cbn [Nat.add].
  destruct (Nat.eqb_spec (count_occ Bool.bool_dec outcomes false)
                         (List.length urls)) as [E|N]; cbn.
  - discriminate.
  - intros H. inversion H; subst.
    exists outcomes, (count_occ Bool.bool_dec outcomes true),
           (count_occ Bool.bool_dec outcomes false).
    repeat split; try assumption; try lia.
    apply (count_occ_In Bool.bool_dec). lia.
Qed.

Lemma addItemsToCart_needs_a_success_witness :
  exists outcomes successCount failureCount,
    ProductPage.processed ProductScript.browser ProductScript.page
                          ProductScript.product ["/itm/1"; "/itm/2"] 0
                          ProductScript.open_shop outcomes
                          {| ProductScript.captcha_shown := false;
                             ProductScript.button_works := true;
                             ProductScript.in_cart := 2 |}
    /\ successCount = count_occ Bool.bool_dec outcomes true
    /\ failureCount = count_occ Bool.bool_dec outcomes false
    /\ ProductPage.items_loop ProductScript.browser ProductScript.page
                              ProductScript.product ["/itm/1"; "/itm/2"] 0 0 0
                              ProductScript.open_shop
       = (Returned (successCount, failureCount),
          {| ProductScript.captcha_shown := false;
             ProductScript.button_works := true;
             ProductScript.in_cart := 2 |}, [])
    /\ (successCount + failureCount = List.length ["/itm/1"; "/itm/2"])%nat
    /\ (1 <= successCount)%nat
    /\ In true outcomes.
Proof.
  destruct (addItemsToCart_needs_a_success
              ProductScript.browser ProductScript.page ProductScript.product)
    as [_ R].
  apply (R ["/itm/1"; "/itm/2"] ProductScript.open_shop _ []).
  vm_compute. reflexivity.
Defined.



(** The product page at work: two items added; a button that never shows,
    so that every item fails and the call throws at the end. *)
Example product_runs :
  ProductPage.addItemsToCart ProductScript.browser ProductScript.page
                             ProductScript.product ["/itm/1"; "/itm/2"]
                             ProductScript.open_shop
  = (Returned tt,
     {| ProductScript.captcha_shown := false;
        ProductScript.button_works := true;
        ProductScript.in_cart := 2 |}, [])
  /\ ProductPage.addItemsToCart ProductScript.browser ProductScript.page
                                ProductScript.product ["/itm/1"; "/itm/2"]
                                ProductScript.broken_shop
     = (Thrown (OtherError "❌ Failed to add any items to cart (0/2)"),
        ProductScript.broken_shop, [])
  /\ ProductPage.addToCart ProductScript.browser ProductScript.product
                           ProductScript.broken_shop
     = (Thrown (OtherError
                  "Failed to add item to cart: TimeoutError: Timeout exceeded."),
        ProductScript.broken_shop, []).
Proof. vm_compute. repeat split. Qed.
